(** * IDAES example notebooks: the code cells and what they establish

    The repository is a collection of Jupyter notebooks.  Each notebook is
    embedded as the list of its code cells, every cell being the abstract
    syntax of its Python source (markdown cells and comments carry no code
    and are left out).  On top of that syntax sit the small interpreters the
    properties need: numeric evaluation of the embedded assertions, the
    fix/unfix/activate bookkeeping of the inlet-pressure ramp, the
    degrees-of-freedom count of the pump cases, and the save/load traffic of
    the surrogate files.

    Numbers are exact rationals ([Q]), a float literal standing for its
    decimal value.  The two assertions of the surrogate notebooks that set a
    computed float against a bound are followed in binary64 as well, each
    literal and each operation rounded to the nearest double. *)

From Stdlib Require Import ZArith QArith Qabs Qround Qpower Qminmax Lqa Lia List Ascii String Bool.
From stdpp Require Import gmap strings.

#[local] Set Warnings "-register-all,-clear-no-such-hyp".
Local Open Scope string_scope.
Local Open Scope list_scope.

(** ** Abstract syntax of the Python subset the notebooks use *)

Inductive binop : Type := OAdd | OSub | OMul | ODiv | OPow.

Inductive cmpop : Type := CEq | CLe | CLt | CIn.

(** [EName] is a dotted name ([m.fs.time]); [EFloat] holds the exact value of
    a decimal literal; a negated literal is folded into the literal. *)
Inductive expr : Type :=
| ENone
| EBool (b : bool)
| EInt (n : Z)
| EFloat (q : Q)
| EStr (s : string)
| EName (x : string)
| EAttr (e : expr) (a : string)
| ESub (e : expr) (ix : list expr)
| ESlice (lo hi : option expr)
| ECall (f : expr) (args : list expr) (kw : list (string * expr))
| EBin (op : binop) (l r : expr)
| ECmp (op : cmpop) (l r : expr)
| EList (es : list expr)
| ETuple (es : list expr)
| EDict (kvs : list (expr * expr))
| EFmt (parts : list expr)
| EListComp (elt : expr) (x : string) (iter : expr)
| EDictComp (k v : expr) (x : string) (iter : expr)
| EStar (e : expr).

(** Every [try] of the notebooks has one [except] clause and neither [else]
    nor [finally]; every [raise] is the bare re-raise. *)
Inductive stmt : Type :=
| SImport (text : string)
| SAssign (target value : expr)
| SExpr (e : expr)
| SAssert (test : expr)
| SReturn (e : expr)
| SRaise
| SDef (decorators : list expr) (name : string) (params : list string) (body : list stmt)
| SFor (x : string) (iter : expr) (body : list stmt)
| SIf (test : expr) (body orelse : list stmt)
| STry (body : list stmt) (exc bind : string) (handler : list stmt).

Record cell : Type := Cell { tags : list string; source : list stmt }.

Definition notebook : Type := list cell.

Definition newline : string := String (Ascii.ascii_of_nat 10) EmptyString.

(** [f(args)], [f(args, k=v)], [o.m(args)] and [o.m(args, k=v)]. *)
Definition call (f : string) (args : list expr) : expr := ECall (EName f) args [].

Definition callk (f : string) (args : list expr) (kw : list (string * expr)) : expr :=
  ECall (EName f) args kw.

Definition meth (o : expr) (m : string) (args : list expr) : expr :=
  ECall (EAttr o m) args [].

Definition methk (o : expr) (m : string) (args : list expr) (kw : list (string * expr)) : expr :=
  ECall (EAttr o m) args kw.

(** ** The notebooks *)

(** PETSc Time-stepping Solver -- Chemical Akzo Nobel Example *)
Definition petsc_chem : notebook := [
  (* petsc_chem.ipynb, lines 14-25 *)
  Cell ["header"; "hide-cell"] [];
  (* petsc_chem.ipynb, lines 63-68 *)
  Cell [] [
    SImport "import numpy as np";
    SImport "import matplotlib.pyplot as plt";
    SImport "import pyomo.environ as pyo";
    SImport "import idaes.core.solvers.petsc as petsc";
    SImport "from idaes.core.solvers.features import dae"
  ];
  (* petsc_chem.ipynb, lines 86-87 *)
  Cell [] [];
  (* petsc_chem.ipynb, lines 96-97 *)
  Cell [] [
    SAssign (ETuple [EName "m"; EName "y1"; EName "y2"; EName "y3"; EName "y4"; EName "y5";
        EName "y6"]) (callk "dae" [] [("nfe", EInt 10)])
  ];
  (* petsc_chem.ipynb, lines 113-119 *)
  Cell [] [
    SExpr (call "print" [EStr "at t = 0:"]);
    SExpr (call "print" [EFmt [EStr "    y1 = "; meth (EName "pyo") "value" [ESub (EName "m.y")
        [EInt 0; EInt 1]]]]);
    SExpr (call "print" [EFmt [EStr "    y2 = "; meth (EName "pyo") "value" [ESub (EName "m.y")
        [EInt 0; EInt 2]]]]);
    SExpr (call "print" [EFmt [EStr "    y3 = "; meth (EName "pyo") "value" [ESub (EName "m.y")
        [EInt 0; EInt 3]]]]);
    SExpr (call "print" [EFmt [EStr "    y4 = "; meth (EName "pyo") "value" [ESub (EName "m.y")
        [EInt 0; EInt 4]]]]);
    SExpr (call "print" [EFmt [EStr "    y5 = "; meth (EName "pyo") "value" [ESub (EName "m.y")
        [EInt 0; EInt 5]]]])
  ];
  (* petsc_chem.ipynb, lines 137-138 *)
  Cell [] [];
  (* petsc_chem.ipynb, lines 147-167 *)
  Cell [] [
    SAssign (EName "result") (methk (EName "petsc") "petsc_dae_by_time_element" [EName "m"]
        [("time", EName "m.t"); ("between", EList [meth (EName "m.t") "first" []; meth (EName
        "m.t") "last" []]); ("ts_options", EDict [(EStr "--ts_type", EStr "cn"); (EStr
        "--ts_adapt_type", EStr "basic"); (EStr "--ts_dt", EFloat 0.01); (EStr
        "--ts_save_trajectory", EInt 1)])]);
    SAssign (EName "tj") (EName "result.trajectory");
    SAssign (EName "res") (EName "result.results")
  ];
  (* petsc_chem.ipynb, lines 176-182 *)
  Cell [] [
    SAssert (ECmp CLt (EBin ODiv (call "abs" [EBin OSub (EName "y1") (meth (EName "pyo") "value"
        [ESub (EName "m.y") [EInt 180; EInt 1]])]) (EName "y1")) (EFloat 1e-3));
    SAssert (ECmp CLt (EBin ODiv (call "abs" [EBin OSub (EName "y2") (meth (EName "pyo") "value"
        [ESub (EName "m.y") [EInt 180; EInt 2]])]) (EName "y2")) (EFloat 1e-3));
    SAssert (ECmp CLt (EBin ODiv (call "abs" [EBin OSub (EName "y3") (meth (EName "pyo") "value"
        [ESub (EName "m.y") [EInt 180; EInt 3]])]) (EName "y3")) (EFloat 1e-3));
    SAssert (ECmp CLt (EBin ODiv (call "abs" [EBin OSub (EName "y4") (meth (EName "pyo") "value"
        [ESub (EName "m.y") [EInt 180; EInt 4]])]) (EName "y4")) (EFloat 1e-3));
    SAssert (ECmp CLt (EBin ODiv (call "abs" [EBin OSub (EName "y5") (meth (EName "pyo") "value"
        [ESub (EName "m.y") [EInt 180; EInt 5]])]) (EName "y5")) (EFloat 1e-3));
    SAssert (ECmp CLt (EBin ODiv (call "abs" [EBin OSub (EName "y6") (meth (EName "pyo") "value"
        [ESub (EName "m.y6") [EInt 180]])]) (EName "y6")) (EFloat 1e-3))
  ];
  (* petsc_chem.ipynb, lines 200-208 *)
  Cell [] [
    SAssign (EName "a") (methk (EName "plt") "plot" [EName "m.t"; EListComp (meth (EName "pyo")
        "value" [ESub (EName "m.y") [EName "t"; EInt 1]]) "t" (EName "m.t")] [("label", EStr
        "y1")]);
    SAssign (EName "a") (methk (EName "plt") "plot" [EName "m.t"; EListComp (meth (EName "pyo")
        "value" [ESub (EName "m.y") [EName "t"; EInt 2]]) "t" (EName "m.t")] [("label", EStr
        "y2")]);
    SAssign (EName "a") (methk (EName "plt") "plot" [EName "m.t"; EListComp (meth (EName "pyo")
        "value" [ESub (EName "m.y") [EName "t"; EInt 3]]) "t" (EName "m.t")] [("label", EStr
        "y3")]);
    SAssign (EName "a") (methk (EName "plt") "plot" [EName "m.t"; EListComp (meth (EName "pyo")
        "value" [ESub (EName "m.y") [EName "t"; EInt 4]]) "t" (EName "m.t")] [("label", EStr
        "y4")]);
    SAssign (EName "a") (methk (EName "plt") "plot" [EName "m.t"; EListComp (meth (EName "pyo")
        "value" [ESub (EName "m.y") [EName "t"; EInt 5]]) "t" (EName "m.t")] [("label", EStr
        "y5")]);
    SAssign (EName "a") (methk (EName "plt") "plot" [EName "m.t"; EListComp (meth (EName "pyo")
        "value" [ESub (EName "m.y6") [EName "t"]]) "t" (EName "m.t")] [("label", EStr "y6")]);
    SAssign (EName "a") (meth (EName "plt") "legend" []);
    SAssign (EName "a") (meth (EName "plt") "ylabel" [EStr "Concentration (mol/l)"]);
    SAssign (EName "a") (meth (EName "plt") "xlabel" [EStr "time (min)"])
  ];
  (* petsc_chem.ipynb, lines 224-234 *)
  Cell [] [
    SAssign (EName "a") (methk (EName "plt") "plot" [EName "tj.time"; meth (EName "tj")
        "get_vec" [ESub (EName "m.y") [EInt 180; EInt 1]]] [("label", EStr "y1")]);
    SAssign (EName "a") (methk (EName "plt") "plot" [EName "tj.time"; meth (EName "tj")
        "get_vec" [ESub (EName "m.y") [EInt 180; EInt 2]]] [("label", EStr "y2")]);
    SAssign (EName "a") (methk (EName "plt") "plot" [EName "tj.time"; meth (EName "tj")
        "get_vec" [ESub (EName "m.y") [EInt 180; EInt 3]]] [("label", EStr "y3")]);
    SAssign (EName "a") (methk (EName "plt") "plot" [EName "tj.time"; meth (EName "tj")
        "get_vec" [ESub (EName "m.y") [EInt 180; EInt 4]]] [("label", EStr "y4")]);
    SAssign (EName "a") (methk (EName "plt") "plot" [EName "tj.time"; meth (EName "tj")
        "get_vec" [ESub (EName "m.y") [EInt 180; EInt 5]]] [("label", EStr "y5")]);
    SAssign (EName "a") (methk (EName "plt") "plot" [EName "tj.time"; meth (EName "tj")
        "get_vec" [ESub (EName "m.y6") [EInt 180]]] [("label", EStr "y6")]);
    SAssign (EName "a") (meth (EName "plt") "legend" []);
    SAssign (EName "a") (meth (EName "plt") "ylabel" [EStr "Concentration (mol/l)"]);
    SAssign (EName "a") (meth (EName "plt") "xlabel" [EStr "time (min)"])
  ];
  (* petsc_chem.ipynb, lines 243-248 *)
  Cell [] [
    SAssign (EName "a") (methk (EName "plt") "plot" [EName "tj.time"; meth (EName "tj")
        "get_vec" [ESub (EName "m.y") [EInt 180; EInt 2]]] [("label", EStr "y2")]);
    SAssign (EName "a") (methk (EName "plt") "plot" [EName "tj.time"; meth (EName "tj")
        "get_vec" [ESub (EName "m.y") [EInt 180; EInt 4]]] [("label", EStr "y4")]);
    SAssign (EName "a") (meth (EName "plt") "legend" []);
    SAssign (EName "a") (meth (EName "plt") "ylabel" [EStr "Concentration (mol/l)"]);
    SAssign (EName "a") (meth (EName "plt") "xlabel" [EStr "time (min)"])
  ];
  (* petsc_chem.ipynb, lines 257-262 *)
  Cell [] [
    SAssign (EName "a") (methk (EName "plt") "plot" [ESub (EName "tj.vecs") [EStr "_time"]; ESub
        (EName "tj.vecs") [call "str" [ESub (EName "m.y") [EInt 180; EInt 2]]]] [("label", EStr
        "y2")]);
    SAssign (EName "a") (meth (EName "plt") "legend" []);
    SAssign (EName "a") (meth (EName "plt") "ylabel" [EStr "Concentration (mol/l)"]);
    SAssign (EName "a") (meth (EName "plt") "xlabel" [EStr "time (min)"]);
    SAssign (EName "a") (meth (EName "plt") "xlim" [EInt 0; EInt 2])
  ];
  (* petsc_chem.ipynb, lines 280-281 *)
  Cell [] [
    SAssign (EName "tji") (meth (EName "tj") "interpolate" [meth (EName "np") "linspace" [EInt
        0; EInt 180; EInt 181]])
  ];
  (* petsc_chem.ipynb, lines 290-301 *)
  Cell [] [
    SAssign (EName "a") (methk (EName "plt") "plot" [EName "tji.time"; meth (EName "tji")
        "get_vec" [ESub (EName "m.y") [EInt 180; EInt 1]]] [("label", EStr "y1")]);
    SAssign (EName "a") (methk (EName "plt") "plot" [EName "tji.time"; meth (EName "tji")
        "get_vec" [ESub (EName "m.y") [EInt 180; EInt 2]]] [("label", EStr "y2")]);
    SAssign (EName "a") (methk (EName "plt") "plot" [EName "tji.time"; meth (EName "tji")
        "get_vec" [ESub (EName "m.y") [EInt 180; EInt 3]]] [("label", EStr "y3")]);
    SAssign (EName "a") (methk (EName "plt") "plot" [EName "tji.time"; meth (EName "tji")
        "get_vec" [ESub (EName "m.y") [EInt 180; EInt 4]]] [("label", EStr "y4")]);
    SAssign (EName "a") (methk (EName "plt") "plot" [EName "tji.time"; meth (EName "tji")
        "get_vec" [ESub (EName "m.y") [EInt 180; EInt 5]]] [("label", EStr "y5")]);
    SAssign (EName "a") (methk (EName "plt") "plot" [EName "tji.time"; meth (EName "tji")
        "get_vec" [ESub (EName "m.y6") [EInt 180]]] [("label", EStr "y6")]);
    SAssign (EName "a") (meth (EName "plt") "legend" []);
    SAssign (EName "a") (meth (EName "plt") "ylabel" [EStr "Concentration (mol/l)"]);
    SAssign (EName "a") (meth (EName "plt") "xlabel" [EStr "time (min)"])
  ];
  (* petsc_chem.ipynb, lines 310-315 *)
  Cell [] [
    SAssign (EName "a") (methk (EName "plt") "plot" [EName "tji.time"; meth (EName "tji")
        "get_vec" [ESub (EName "m.y") [EInt 180; EInt 2]]] [("label", EStr
        "y2 interpolate dt=1")]);
    SAssign (EName "a") (methk (EName "plt") "plot" [EName "tj.time"; meth (EName "tj")
        "get_vec" [ESub (EName "m.y") [EInt 180; EInt 2]]] [("label", EStr "y2 original")]);
    SAssign (EName "a") (meth (EName "plt") "legend" []);
    SAssign (EName "a") (meth (EName "plt") "ylabel" [EStr "Concentration (mol/l)"]);
    SAssign (EName "a") (meth (EName "plt") "xlabel" [EStr "time (min)"]);
    SAssign (EName "a") (meth (EName "plt") "xlim" [EInt 0; EInt 2])
  ]
].

(** PETSc Time-stepping Solver -- PID Control and Steam Example *)
Definition petsc_pid : notebook := [
  (* petsc_pid.ipynb, lines 17-28 *)
  Cell ["header"; "hide-cell"] [];
  (* petsc_pid.ipynb, lines 74-81 *)
  Cell [] [
    SImport "import numpy as np";
    SImport "import matplotlib.pyplot as plt";
    SImport "import pyomo.environ as pyo";
    SImport "import pyomo.dae as pyodae";
    SImport "import idaes.core.solvers.petsc as petsc";
    SImport "import idaes_examples.mod.dae.petsc.pid_steam_tank as pid";
    SImport "from idaes.core.util.math import smooth_max, smooth_min"
  ];
  (* petsc_pid.ipynb, lines 97-98 *)
  Cell [] [];
  (* petsc_pid.ipynb, lines 107-111 *)
  Cell [] [
    SAssign (EName "m") (methk (EName "pid") "create_model" [] [("time_set", EList [EInt 0; EInt
        12]); ("nfe", EInt 1); ("calc_integ", EBool true)])
  ];
  (* petsc_pid.ipynb, lines 127-138 *)
  Cell [] [
    SAssign (EName "result") (methk (EName "petsc") "petsc_dae_by_time_element" [EName "m"]
        [("time", EName "m.fs.time"); ("ts_options", EDict [(EStr "--ts_type", EStr "beuler");
        (EStr "--ts_dt", EFloat 0.1); (EStr "--ts_monitor", EStr EmptyString); (EStr
        "--ts_save_trajectory", EInt 1)])]);
    SAssign (EName "tj") (EName "result.trajectory");
    SAssign (EName "res") (EName "result.results")
  ];
  (* petsc_pid.ipynb, lines 156-158 *)
  Cell [] [
    SAssign (EName "a") (meth (EName "plt") "plot" [EName "tj.time"; meth (EName "tj") "get_vec"
        [ESub (EName "m.fs.valve_1.valve_opening") [EInt 12]]]);
    SAssign (EName "a") (meth (EName "plt") "ylabel" [EStr "valve 1 fraction open"]);
    SAssign (EName "a") (meth (EName "plt") "xlabel" [EStr "time (s)"])
  ];
  (* petsc_pid.ipynb, lines 167-169 *)
  Cell [] [
    SAssign (EName "a") (meth (EName "plt") "plot" [EName "tj.time"; meth (EName "tj") "get_vec"
        [EAttr (ESub (EName "m.fs.tank.control_volume.properties_out") [EInt 12]) "pressure"]]);
    SAssign (EName "a") (meth (EName "plt") "ylabel" [EStr "tank pressure (Pa)"]);
    SAssign (EName "a") (meth (EName "plt") "xlabel" [EStr "time (s)"])
  ];
  (* petsc_pid.ipynb, lines 187-214 *)
  Cell [] [
    SAssign (EName "m") (methk (EName "pid") "create_model" [] [("time_set", EList [EInt 0; EInt
        24]); ("nfe", EInt 1); ("calc_integ", EBool true)]);
    SAssign (EName "m.fs.time_var") (meth (EName "pyo") "Var" [EName "m.fs.time"]);
    SExpr (meth (EAttr (ESub (EName "m.fs.valve_1.control_volume.properties_in") [EInt 0])
        "pressure") "unfix" []);
    SExpr (meth (EAttr (ESub (EName "m.fs.valve_1.control_volume.properties_in") [EInt 24])
        "pressure") "unfix" []);
    SExpr (meth (ESub (EName "m.fs.time_var") [EInt 0]) "fix" [meth (EName "m.fs.time") "first"
        []]);
    SDef [meth (EName "m.fs") "Constraint" [EName "m.fs.time"]] "inlet_pressure_eqn" ["b"; "t"]
        [
      SReturn (ECmp CEq (EAttr (ESub (EName "b.valve_1.control_volume.properties_in") [EName
          "t"]) "pressure") (call "smooth_min" [EInt 600000; call "smooth_max" [EInt 500000;
          EBin OAdd (EBin OMul (EInt 50000) (EBin OSub (ESub (EName "b.time_var") [EName "t"])
          (EInt 10))) (EInt 500000)]]))
    ]
  ];
  (* petsc_pid.ipynb, lines 223-236 *)
  Cell [] [
    SAssign (EName "result") (methk (EName "petsc") "petsc_dae_by_time_element" [EName "m"]
        [("time", EName "m.fs.time"); ("timevar", EName "m.fs.time_var"); ("ts_options", EDict
        [(EStr "--ts_type", EStr "beuler"); (EStr "--ts_dt", EFloat 0.1); (EStr "--ts_monitor",
        EStr EmptyString); (EStr "--ts_save_trajectory", EInt 1)])]);
    SAssign (EName "tj") (EName "result.trajectory");
    SAssign (EName "res") (EName "result.results")
  ];
  (* petsc_pid.ipynb, lines 245-249 *)
  Cell [] [
    SAssign (EName "a") (meth (EName "plt") "plot" [EName "tj.time"; meth (EName "tj") "get_vec"
        [EAttr (ESub (EName "m.fs.valve_1.control_volume.properties_in") [EInt 24])
        "pressure"]]);
    SAssign (EName "a") (meth (EName "plt") "ylabel" [EStr "inlet pressure (Pa)"]);
    SAssign (EName "a") (meth (EName "plt") "xlabel" [EStr "time (s)"])
  ];
  (* petsc_pid.ipynb, lines 258-260 *)
  Cell [] [
    SAssign (EName "a") (meth (EName "plt") "plot" [EName "tj.time"; meth (EName "tj") "get_vec"
        [ESub (EName "m.fs.valve_1.valve_opening") [EInt 24]]]);
    SAssign (EName "a") (meth (EName "plt") "ylabel" [EStr "valve 1 fraction open"]);
    SAssign (EName "a") (meth (EName "plt") "xlabel" [EStr "time (s)"])
  ];
  (* petsc_pid.ipynb, lines 269-271 *)
  Cell [] [
    SAssign (EName "a") (meth (EName "plt") "plot" [EName "tj.time"; meth (EName "tj") "get_vec"
        [EAttr (ESub (EName "m.fs.tank.control_volume.properties_out") [EInt 24]) "pressure"]]);
    SAssign (EName "a") (meth (EName "plt") "ylabel" [EStr "tank pressure (Pa)"]);
    SAssign (EName "a") (meth (EName "plt") "xlabel" [EStr "time (s)"])
  ];
  (* petsc_pid.ipynb, lines 289-320 *)
  Cell [] [
    SAssign (EName "m") (methk (EName "pid") "create_model" [] [("time_set", EList [EInt 0; EInt
        10; EInt 12; EInt 24]); ("nfe", EInt 3); ("calc_integ", EBool true)]);
    SAssign (EName "m.fs.time_var") (meth (EName "pyo") "Var" [EName "m.fs.time"]);
    SExpr (meth (EAttr (ESub (EName "m.fs.valve_1.control_volume.properties_in") [EInt 0])
        "pressure") "fix" [EInt 500000]);
    SExpr (meth (EAttr (ESub (EName "m.fs.valve_1.control_volume.properties_in") [EInt 10])
        "pressure") "fix" [EInt 500000]);
    SExpr (meth (EAttr (ESub (EName "m.fs.valve_1.control_volume.properties_in") [EInt 12])
        "pressure") "set_value" [EInt 600000]);
    SExpr (meth (EAttr (ESub (EName "m.fs.valve_1.control_volume.properties_in") [EInt 12])
        "pressure") "unfix" []);
    SExpr (meth (EAttr (ESub (EName "m.fs.valve_1.control_volume.properties_in") [EInt 24])
        "pressure") "fix" [EInt 600000]);
    SDef [meth (EName "m.fs") "Constraint" [EName "m.fs.time"]] "inlet_pressure_eqn" ["b"; "t"]
        [
      SReturn (ECmp CEq (EAttr (ESub (EName "b.valve_1.control_volume.properties_in") [EName
          "t"]) "pressure") (EBin OAdd (EBin OMul (EInt 50000) (EBin OSub (ESub (EName
          "b.time_var") [EName "t"]) (EInt 10))) (EInt 500000)))
    ];
    SExpr (meth (EName "m.fs.inlet_pressure_eqn") "deactivate" []);
    SExpr (meth (ESub (EName "m.fs.inlet_pressure_eqn") [EInt 12]) "activate" [])
  ];
  (* petsc_pid.ipynb, lines 329-342 *)
  Cell [] [
    SAssign (EName "result") (methk (EName "petsc") "petsc_dae_by_time_element" [EName "m"]
        [("time", EName "m.fs.time"); ("timevar", EName "m.fs.time_var"); ("ts_options", EDict
        [(EStr "--ts_type", EStr "beuler"); (EStr "--ts_dt", EFloat 0.1); (EStr "--ts_monitor",
        EStr EmptyString); (EStr "--ts_save_trajectory", EInt 1)])]);
    SAssign (EName "tj") (EName "result.trajectory");
    SAssign (EName "res") (EName "result.results")
  ];
  (* petsc_pid.ipynb, lines 351-355 *)
  Cell [] [
    SAssign (EName "a") (meth (EName "plt") "plot" [EName "tj.time"; meth (EName "tj") "get_vec"
        [EAttr (ESub (EName "m.fs.valve_1.control_volume.properties_in") [EInt 24])
        "pressure"]]);
    SAssign (EName "a") (meth (EName "plt") "ylabel" [EStr "inlet pressure (Pa)"]);
    SAssign (EName "a") (meth (EName "plt") "xlabel" [EStr "time (s)"])
  ];
  (* petsc_pid.ipynb, lines 364-366 *)
  Cell [] [
    SAssign (EName "a") (meth (EName "plt") "plot" [EName "tj.time"; meth (EName "tj") "get_vec"
        [ESub (EName "m.fs.valve_1.valve_opening") [EInt 24]]]);
    SAssign (EName "a") (meth (EName "plt") "ylabel" [EStr "valve 1 fraction open"]);
    SAssign (EName "a") (meth (EName "plt") "xlabel" [EStr "time (s)"])
  ];
  (* petsc_pid.ipynb, lines 375-377 *)
  Cell [] [
    SAssign (EName "a") (meth (EName "plt") "plot" [EName "tj.time"; meth (EName "tj") "get_vec"
        [EAttr (ESub (EName "m.fs.tank.control_volume.properties_out") [EInt 24]) "pressure"]]);
    SAssign (EName "a") (meth (EName "plt") "ylabel" [EStr "tank pressure (Pa)"]);
    SAssign (EName "a") (meth (EName "plt") "xlabel" [EStr "time (s)"])
  ]
].

(** Autothermal Reformer Flowsheet Optimization with PySMO Surrogate Object *)
Definition pysmo_surrogate : notebook := [
  (* petsc_pid.ipynb, lines 428-439 *)
  Cell ["header"; "hide-cell"] [];
  (* petsc_pid.ipynb, lines 482-490 *)
  Cell [] [
    SImport "from IPython.display import Image";
    SImport "from pathlib import Path";
    SDef [] "datafile_path" ["name"] [
      SReturn (EBin ODiv (call "Path" [EStr ".."]) (EName "name"))
    ];
    SExpr (call "Image" [call "datafile_path" [EStr "AR_PFD.png"]])
  ];
  (* petsc_pid.ipynb, lines 513-541 *)
  Cell [] [
    SImport "import os";
    SImport "import numpy as np";
    SImport "import pandas as pd";
    SImport "from pyomo.environ import (ConcreteModel, SolverFactory, value, Var, Constraint, Set, Objective, maximize)";
    SImport "from pyomo.common.timing import TicTocTimer";
    SImport "from idaes.core.surrogate.sampling.data_utils import split_training_validation";
    SImport "from idaes.core.surrogate.pysmo_surrogate import PysmoPolyTrainer, PysmoSurrogate";
    SImport "from idaes.core.surrogate.plotting.sm_plotter import (surrogate_scatter2D, surrogate_parity, surrogate_residual)";
    SImport "from idaes.core.surrogate.surrogate_block import SurrogateBlock";
    SImport "from idaes.core import FlowsheetBlock";
    SImport "from idaes.core.util.convergence.convergence_base import _run_ipopt_with_stats"
  ];
  (* petsc_pid.ipynb, lines 564-580 *)
  Cell [] [
    SExpr (methk (EName "np") "set_printoptions" [] [("precision", EInt 6); ("suppress", EBool
        true)]);
    SAssign (EName "csv_data") (meth (EName "pd") "read_csv" [call "datafile_path" [EStr
        "reformer-data.csv"]]);
    SAssign (EName "data") (methk (EName "csv_data") "sample" [] [("n", EInt 100)]);
    SAssign (EName "input_data") (ESub (EName "data.iloc") [ESlice None None; ESlice None (Some
        (EInt 2))]);
    SAssign (EName "output_data") (ESub (EName "data.iloc") [ESlice None None; ESlice (Some
        (EInt 2)) None]);
    SAssign (EName "input_labels") (call "list" [EName "input_data.columns"]);
    SAssign (EName "output_labels") (call "list" [EName "output_data.columns"]);
    SAssign (EName "n_data") (EAttr (ESub (EName "data") [ESub (EName "input_labels") [EInt 0]])
        "size");
    SAssign (ETuple [EName "data_training"; EName "data_validation"]) (callk
        "split_training_validation" [EName "data"; EFloat 0.8] [("seed", EName "n_data")])
  ];
  (* petsc_pid.ipynb, lines 607-650 *)
  Cell [] [
    SImport "from io import StringIO";
    SImport "import sys";
    SAssign (EName "stream") (call "StringIO" []);
    SAssign (EName "oldstdout") (EName "sys.stdout");
    SAssign (EName "sys.stdout") (EName "stream");
    SAssign (EName "trainer") (callk "PysmoPolyTrainer" [] [("input_labels", EName
        "input_labels"); ("output_labels", EName "output_labels"); ("training_dataframe", EName
        "data_training")]);
    SAssign (EName "trainer.config.maximum_polynomial_order") (EInt 6);
    SAssign (EName "trainer.config.multinomials") (EBool true);
    SAssign (EName "trainer.config.training_split") (EFloat 0.8);
    SAssign (EName "trainer.config.number_of_crossvalidations") (EInt 10);
    SAssign (EName "poly_train") (meth (EName "trainer") "train_surrogate" []);
    SAssign (ETuple [EName "xmin"; EName "xmax"]) (ETuple [EList [EFloat 0.1; EFloat 0.8]; EList
        [EFloat 0.8; EFloat 1.2]]);
    SAssign (EName "input_bounds") (EDictComp (ESub (EName "input_labels") [EName "i"]) (ETuple
        [ESub (EName "xmin") [EName "i"]; ESub (EName "xmax") [EName "i"]]) "i" (call "range"
        [call "len" [EName "input_labels"]]));
    SAssign (EName "poly_surr") (call "PysmoSurrogate" [EName "poly_train"; EName
        "input_labels"; EName "output_labels"; EName "input_bounds"]);
    SAssign (EName "model") (methk (EName "poly_surr") "save_to_file" [EStr
        "pysmo_poly_surrogate.json"] [("overwrite", EBool true)]);
    SAssign (EName "sys.stdout") (EName "oldstdout");
    SAssign (EName "celloutput") (meth (meth (EName "stream") "getvalue" []) "split" [EStr
        newline]);
    SFor "line" (ESub (EName "celloutput") [ESlice None (Some (EInt 50))]) [
      SExpr (call "print" [EName "line"])
    ];
    SExpr (call "print" [EStr "."]);
    SExpr (call "print" [EStr "."]);
    SExpr (call "print" [EStr "."]);
    SFor "line" (ESub (EName "celloutput") [ESlice (Some (EInt (-50))) None]) [
      SExpr (call "print" [EName "line"])
    ]
  ];
  (* petsc_pid.ipynb, lines 675-678 *)
  Cell [] [
    SExpr (callk "surrogate_scatter2D" [EName "poly_surr"; EName "data_training"] [("filename",
        EStr "pysmo_poly_train_scatter2D.pdf")]);
    SExpr (callk "surrogate_parity" [EName "poly_surr"; EName "data_training"] [("filename",
        EStr "pysmo_poly_train_parity.pdf")]);
    SExpr (callk "surrogate_residual" [EName "poly_surr"; EName "data_training"] [("filename",
        EStr "pysmo_poly_train_residual.pdf")])
  ];
  (* petsc_pid.ipynb, lines 696-699 *)
  Cell [] [
    SExpr (callk "surrogate_scatter2D" [EName "poly_surr"; EName "data_validation"]
        [("filename", EStr "pysmo_poly_val_scatter2D.pdf")]);
    SExpr (callk "surrogate_parity" [EName "poly_surr"; EName "data_validation"] [("filename",
        EStr "pysmo_poly_val_parity.pdf")]);
    SExpr (callk "surrogate_residual" [EName "poly_surr"; EName "data_validation"] [("filename",
        EStr "pysmo_poly_val_residual.pdf")])
  ];
  (* petsc_pid.ipynb, lines 731-796 *)
  Cell [] [
    SAssign (EName "m") (call "ConcreteModel" []);
    SAssign (EName "m.fs") (callk "FlowsheetBlock" [] [("dynamic", EBool false)]);
    SAssign (EName "m.fs.bypass_frac") (callk "Var" [] [("initialize", EFloat 0.80); ("bounds",
        EList [EFloat 0.1; EFloat 0.8]); ("doc", EStr "natural gas bypass fraction")]);
    SAssign (EName "m.fs.ng_steam_ratio") (callk "Var" [] [("initialize", EFloat 0.80);
        ("bounds", EList [EFloat 0.8; EFloat 1.2]); ("doc", EStr
        "natural gas to steam ratio")]);
    SAssign (EName "m.fs.steam_flowrate") (callk "Var" [] [("initialize", EFloat 0.2); ("doc",
        EStr "steam flowrate")]);
    SAssign (EName "m.fs.reformer_duty") (callk "Var" [] [("initialize", EInt 10000); ("doc",
        EStr "reformer heat duty")]);
    SAssign (EName "m.fs.AR") (callk "Var" [] [("initialize", EInt 0); ("doc", EStr
        "AR fraction")]);
    SAssign (EName "m.fs.C2H6") (callk "Var" [] [("initialize", EInt 0); ("doc", EStr
        "C2H6 fraction")]);
    SAssign (EName "m.fs.C3H8") (callk "Var" [] [("initialize", EInt 0); ("doc", EStr
        "C3H8 fraction")]);
    SAssign (EName "m.fs.C4H10") (callk "Var" [] [("initialize", EInt 0); ("doc", EStr
        "C4H10 fraction")]);
    SAssign (EName "m.fs.CH4") (callk "Var" [] [("initialize", EInt 0); ("doc", EStr
        "CH4 fraction")]);
    SAssign (EName "m.fs.CO") (callk "Var" [] [("initialize", EInt 0); ("doc", EStr
        "CO fraction")]);
    SAssign (EName "m.fs.CO2") (callk "Var" [] [("initialize", EInt 0); ("doc", EStr
        "CO2 fraction")]);
    SAssign (EName "m.fs.H2") (callk "Var" [] [("initialize", EInt 0); ("doc", EStr
        "H2 fraction")]);
    SAssign (EName "m.fs.H2O") (callk "Var" [] [("initialize", EInt 0); ("doc", EStr
        "H2O fraction")]);
    SAssign (EName "m.fs.N2") (callk "Var" [] [("initialize", EInt 0); ("doc", EStr
        "N2 fraction")]);
    SAssign (EName "m.fs.O2") (callk "Var" [] [("initialize", EInt 0); ("doc", EStr
        "O2 fraction")]);
    SAssign (EName "inputs") (EList [EName "m.fs.bypass_frac"; EName "m.fs.ng_steam_ratio"]);
    SAssign (EName "outputs") (EList [EName "m.fs.steam_flowrate"; EName "m.fs.reformer_duty";
        EName "m.fs.AR"; EName "m.fs.C2H6"; EName "m.fs.C4H10"; EName "m.fs.C3H8"; EName
        "m.fs.CH4"; EName "m.fs.CO"; EName "m.fs.CO2"; EName "m.fs.H2"; EName "m.fs.H2O"; EName
        "m.fs.N2"; EName "m.fs.O2"]);
    SAssign (EName "stream") (call "StringIO" []);
    SAssign (EName "oldstdout") (EName "sys.stdout");
    SAssign (EName "sys.stdout") (EName "stream");
    SAssign (EName "surrogate") (meth (EName "PysmoSurrogate") "load_from_file" [EStr
        "pysmo_poly_surrogate.json"]);
    SAssign (EName "m.fs.surrogate") (callk "SurrogateBlock" [] [("concrete", EBool true)]);
    SExpr (methk (EName "m.fs.surrogate") "build_model" [EName "surrogate"] [("input_vars",
        EName "inputs"); ("output_vars", EName "outputs")]);
    SAssign (EName "sys.stdout") (EName "oldstdout");
    SExpr (meth (EName "m.fs.bypass_frac") "fix" [EFloat 0.5]);
    SExpr (meth (EName "m.fs.ng_steam_ratio") "fix" [EInt 1]);
    SAssign (EName "solver") (call "SolverFactory" [EStr "ipopt"]);
    SAssign (ETuple [EName "status_obj"; EName "solved"; EName "iters"; EName "time"; EStar
        (EName "_")]) (call "_run_ipopt_with_stats" [EName "m"; EName "solver"])
  ];
  (* petsc_pid.ipynb, lines 812-830 *)
  Cell [] [
    SExpr (call "print" [EStr "Model status: "; EName "status_obj"]);
    SExpr (call "print" [EStr "Solution optimal: "; EName "solved"]);
    SExpr (call "print" [EStr "IPOPT iterations: "; EName "iters"]);
    SExpr (call "print" [EStr "IPOPT runtime: "; EName "time"]);
    SExpr (call "print" []);
    SExpr (call "print" [EStr "Steam flowrate = "; call "value" [EName "m.fs.steam_flowrate"]]);
    SExpr (call "print" [EStr "Reformer duty = "; call "value" [EName "m.fs.reformer_duty"]]);
    SExpr (call "print" [EStr "Mole Fraction Ar = "; call "value" [EName "m.fs.AR"]]);
    SExpr (call "print" [EStr "Mole Fraction C2H6 = "; call "value" [EName "m.fs.C2H6"]]);
    SExpr (call "print" [EStr "Mole Fraction C3H8 = "; call "value" [EName "m.fs.C3H8"]]);
    SExpr (call "print" [EStr "Mole Fraction C4H10 = "; call "value" [EName "m.fs.C4H10"]]);
    SExpr (call "print" [EStr "Mole Fraction CH4 = "; call "value" [EName "m.fs.CH4"]]);
    SExpr (call "print" [EStr "Mole Fraction CO = "; call "value" [EName "m.fs.CO"]]);
    SExpr (call "print" [EStr "Mole Fraction CO2 = "; call "value" [EName "m.fs.CO2"]]);
    SExpr (call "print" [EStr "Mole Fraction H2 = "; call "value" [EName "m.fs.H2"]]);
    SExpr (call "print" [EStr "Mole Fraction H2O = "; call "value" [EName "m.fs.H2O"]]);
    SExpr (call "print" [EStr "Mole Fraction N2 = "; call "value" [EName "m.fs.N2"]]);
    SExpr (call "print" [EStr "Mole Fraction O2 = "; call "value" [EName "m.fs.O2"]])
  ];
  (* petsc_pid.ipynb, lines 851-870 *)
  Cell [] [
    SExpr (meth (EName "m.fs.bypass_frac") "unfix" []);
    SExpr (meth (EName "m.fs.ng_steam_ratio") "unfix" []);
    SAssign (EName "m.fs.obj") (callk "Objective" [] [("expr", EName "m.fs.H2"); ("sense", EName
        "maximize")]);
    SAssign (EName "m.fs.con") (callk "Constraint" [] [("expr", ECmp CLe (EName "m.fs.N2")
        (EFloat 0.34))]);
    SAssign (EName "tmr") (call "TicTocTimer" []);
    SAssign (EName "status") (methk (EName "solver") "solve" [EName "m"] [("tee", EBool true)]);
    SAssign (EName "solve_time") (meth (EName "tmr") "toc" [EStr "solve"]);
    SAssert (ECmp CLe (call "abs" [EBin OSub (call "value" [EName "m.fs.H2"]) (EFloat 0.33)])
        (EFloat 0.01));
    SAssert (call "value" [ECmp CLe (EName "m.fs.N2") (EBin OAdd (EFloat 0.4) (EFloat 1e-8))]);
    SExpr (call "print" [EStr "Model status: "; EName "status"]);
    SExpr (call "print" [EStr "Solve time: "; EName "solve_time"]);
    SFor "var" (EName "inputs") [
      SExpr (call "print" [EName "var.name"; EStr ": "; call "value" [EName "var"]])
    ];
    SFor "var" (EName "outputs") [
      SExpr (call "print" [EName "var.name"; EStr ": "; call "value" [EName "var"]])
    ]
  ]
].

(** Autothermal Reformer Flowsheet Optimization with ALAMO Surrogate Object *)
Definition alamo_surrogate : notebook := [
  (* petsc_pid.ipynb, lines 916-927 *)
  Cell ["header"; "hide-cell"] [];
  (* petsc_pid.ipynb, lines 970-978 *)
  Cell [] [
    SImport "from IPython.display import Image";
    SImport "from pathlib import Path";
    SDef [] "datafile_path" ["name"] [
      SReturn (EBin ODiv (call "Path" [EStr ".."]) (EName "name"))
    ];
    SExpr (call "Image" [call "datafile_path" [EStr "AR_PFD.png"]])
  ];
  (* petsc_pid.ipynb, lines 1001-1029 *)
  Cell [] [
    SImport "import os";
    SImport "import numpy as np";
    SImport "import pandas as pd";
    SImport "from pyomo.environ import (ConcreteModel, SolverFactory, value, Var, Constraint, Set, Objective, maximize)";
    SImport "from pyomo.common.timing import TicTocTimer";
    SImport "from idaes.core.surrogate.sampling.data_utils import split_training_validation";
    SImport "from idaes.core.surrogate.alamopy import AlamoTrainer, AlamoSurrogate";
    SImport "from idaes.core.surrogate.plotting.sm_plotter import (surrogate_scatter2D, surrogate_parity, surrogate_residual)";
    SImport "from idaes.core.surrogate.surrogate_block import SurrogateBlock";
    SImport "from idaes.core import FlowsheetBlock";
    SImport "from idaes.core.util.convergence.convergence_base import _run_ipopt_with_stats"
  ];
  (* petsc_pid.ipynb, lines 1052-1068 *)
  Cell [] [
    SExpr (methk (EName "np") "set_printoptions" [] [("precision", EInt 6); ("suppress", EBool
        true)]);
    SAssign (EName "csv_data") (meth (EName "pd") "read_csv" [call "datafile_path" [EStr
        "reformer-data.csv"]]);
    SAssign (EName "data") (methk (EName "csv_data") "sample" [] [("n", EInt 100)]);
    SAssign (EName "input_data") (ESub (EName "data.iloc") [ESlice None None; ESlice None (Some
        (EInt 2))]);
    SAssign (EName "output_data") (ESub (EName "data.iloc") [ESlice None None; ESlice (Some
        (EInt 2)) None]);
    SAssign (EName "input_labels") (EName "input_data.columns");
    SAssign (EName "output_labels") (EName "output_data.columns");
    SAssign (EName "n_data") (EAttr (ESub (EName "data") [ESub (EName "input_labels") [EInt 0]])
        "size");
    SAssign (ETuple [EName "data_training"; EName "data_validation"]) (callk
        "split_training_validation" [EName "data"; EFloat 0.8] [("seed", EName "n_data")])
  ];
  (* petsc_pid.ipynb, lines 1095-1160 *)
  Cell [] [
    SImport "from io import StringIO";
    SImport "import sys";
    SAssign (EName "stream") (call "StringIO" []);
    SAssign (EName "oldstdout") (EName "sys.stdout");
    SAssign (EName "sys.stdout") (EName "stream");
    SAssign (EName "trainer") (callk "AlamoTrainer" [] [("input_labels", EName "input_labels");
        ("output_labels", EName "output_labels"); ("training_dataframe", EName
        "data_training")]);
    SAssign (EName "trainer.config.constant") (EBool true);
    SAssign (EName "trainer.config.linfcns") (EBool true);
    SAssign (EName "trainer.config.multi2power") (EList [EInt 1; EInt 2]);
    SAssign (EName "trainer.config.monomialpower") (EList [EInt 2; EInt 3]);
    SAssign (EName "trainer.config.ratiopower") (EList [EInt 1; EInt 2]);
    SAssign (EName "trainer.config.maxterms") (EBin OMul (EList [EInt 10]) (call "len" [EName
        "output_labels"]));
    SAssign (EName "trainer.config.filename") (meth (EName "os.path") "join" [meth (EName "os")
        "getcwd" []; EStr "alamo_run.alm"]);
    SAssign (EName "trainer.config.overwrite_files") (EBool true);
    SAssign (EName "has_alamo") (EBool true);
    STry [
      SAssign (ETuple [EName "success"; EName "alm_surr"; EName "msg"]) (meth (EName "trainer")
          "train_surrogate" [])
    ] "FileNotFoundError" "err" [
      SIf (ECmp CIn (EStr "Could not find ALAMO") (call "str" [EName "err"])) [
        SExpr (call "print" [EStr
            "ALAMO not found. You must install ALAMO to use this notebook"]);
        SAssign (EName "has_alamo") (EBool false)
      ] [
        SRaise
      ]
    ];
    SIf (EName "has_alamo") [
      SAssign (EName "model") (methk (EName "alm_surr") "save_to_file" [EStr
          "alamo_surrogate.json"] [("overwrite", EBool true)]);
      SAssign (EName "surrogate_expressions") (ESub (EName "trainer._results") [EStr "Model"]);
      SAssign (EName "input_labels") (EName "trainer._input_labels");
      SAssign (EName "output_labels") (EName "trainer._output_labels");
      SAssign (ETuple [EName "xmin"; EName "xmax"]) (ETuple [EList [EFloat 0.1; EFloat 0.8];
          EList [EFloat 0.8; EFloat 1.2]]);
      SAssign (EName "input_bounds") (EDictComp (ESub (EName "input_labels") [EName "i"])
          (ETuple [ESub (EName "xmin") [EName "i"]; ESub (EName "xmax") [EName "i"]]) "i" (call
          "range" [call "len" [EName "input_labels"]]));
      SAssign (EName "alm_surr") (call "AlamoSurrogate" [EName "surrogate_expressions"; EName
          "input_labels"; EName "output_labels"; EName "input_bounds"]);
      SAssign (EName "sys.stdout") (EName "oldstdout");
      SAssign (EName "celloutput") (meth (meth (EName "stream") "getvalue" []) "split" [EStr
          newline]);
      SFor "line" (ESub (EName "celloutput") [ESlice None (Some (EInt 50))]) [
        SExpr (call "print" [EName "line"])
      ];
      SExpr (call "print" [EStr "."]);
      SExpr (call "print" [EStr "."]);
      SExpr (call "print" [EStr "."]);
      SFor "line" (ESub (EName "celloutput") [ESlice (Some (EInt (-50))) None]) [
        SExpr (call "print" [EName "line"])
      ]
    ] []
  ];
  (* petsc_pid.ipynb, lines 1185-1189 *)
  Cell [] [
    SIf (EName "has_alamo") [
      SExpr (callk "surrogate_scatter2D" [EName "alm_surr"; EName "data_training"] [("filename",
          EStr "alamo_train_scatter2D.pdf")]);
      SExpr (callk "surrogate_parity" [EName "alm_surr"; EName "data_training"] [("filename",
          EStr "alamo_train_parity.pdf")]);
      SExpr (callk "surrogate_residual" [EName "alm_surr"; EName "data_training"] [("filename",
          EStr "alamo_train_residual.pdf")])
    ] []
  ];
  (* petsc_pid.ipynb, lines 1207-1211 *)
  Cell [] [
    SIf (EName "has_alamo") [
      SExpr (callk "surrogate_scatter2D" [EName "alm_surr"; EName "data_validation"]
          [("filename", EStr "alamo_val_scatter2D.pdf")]);
      SExpr (callk "surrogate_parity" [EName "alm_surr"; EName "data_validation"] [("filename",
          EStr "alamo_val_parity.pdf")]);
      SExpr (callk "surrogate_residual" [EName "alm_surr"; EName "data_validation"]
          [("filename", EStr "alamo_val_residual.pdf")])
    ] []
  ];
  (* petsc_pid.ipynb, lines 1241-1300 *)
  Cell [] [
    SIf (EName "has_alamo") [
      SAssign (EName "m") (call "ConcreteModel" []);
      SAssign (EName "m.fs") (callk "FlowsheetBlock" [] [("dynamic", EBool false)]);
      SAssign (EName "m.fs.bypass_frac") (callk "Var" [] [("initialize", EFloat 0.80);
          ("bounds", EList [EFloat 0.1; EFloat 0.8]); ("doc", EStr
          "natural gas bypass fraction")]);
      SAssign (EName "m.fs.ng_steam_ratio") (callk "Var" [] [("initialize", EFloat 0.80);
          ("bounds", EList [EFloat 0.8; EFloat 1.2]); ("doc", EStr
          "natural gas to steam ratio")]);
      SAssign (EName "m.fs.steam_flowrate") (callk "Var" [] [("initialize", EFloat 0.2); ("doc",
          EStr "steam flowrate")]);
      SAssign (EName "m.fs.reformer_duty") (callk "Var" [] [("initialize", EInt 10000); ("doc",
          EStr "reformer heat duty")]);
      SAssign (EName "m.fs.AR") (callk "Var" [] [("initialize", EInt 0); ("doc", EStr
          "AR fraction")]);
      SAssign (EName "m.fs.C2H6") (callk "Var" [] [("initialize", EInt 0); ("doc", EStr
          "C2H6 fraction")]);
      SAssign (EName "m.fs.C3H8") (callk "Var" [] [("initialize", EInt 0); ("doc", EStr
          "C3H8 fraction")]);
      SAssign (EName "m.fs.C4H10") (callk "Var" [] [("initialize", EInt 0); ("doc", EStr
          "C4H10 fraction")]);
      SAssign (EName "m.fs.CH4") (callk "Var" [] [("initialize", EInt 0); ("doc", EStr
          "CH4 fraction")]);
      SAssign (EName "m.fs.CO") (callk "Var" [] [("initialize", EInt 0); ("doc", EStr
          "CO fraction")]);
      SAssign (EName "m.fs.CO2") (callk "Var" [] [("initialize", EInt 0); ("doc", EStr
          "CO2 fraction")]);
      SAssign (EName "m.fs.H2") (callk "Var" [] [("initialize", EInt 0); ("doc", EStr
          "H2 fraction")]);
      SAssign (EName "m.fs.H2O") (callk "Var" [] [("initialize", EInt 0); ("doc", EStr
          "H2O fraction")]);
      SAssign (EName "m.fs.N2") (callk "Var" [] [("initialize", EInt 0); ("doc", EStr
          "N2 fraction")]);
      SAssign (EName "m.fs.O2") (callk "Var" [] [("initialize", EInt 0); ("doc", EStr
          "O2 fraction")]);
      SAssign (EName "inputs") (EList [EName "m.fs.bypass_frac"; EName "m.fs.ng_steam_ratio"]);
      SAssign (EName "outputs") (EList [EName "m.fs.steam_flowrate"; EName "m.fs.reformer_duty";
          EName "m.fs.AR"; EName "m.fs.C2H6"; EName "m.fs.C4H10"; EName "m.fs.C3H8"; EName
          "m.fs.CH4"; EName "m.fs.CO"; EName "m.fs.CO2"; EName "m.fs.H2"; EName "m.fs.H2O";
          EName "m.fs.N2"; EName "m.fs.O2"]);
      SAssign (EName "surrogate") (meth (EName "AlamoSurrogate") "load_from_file" [EStr
          "alamo_surrogate.json"]);
      SAssign (EName "m.fs.surrogate") (call "SurrogateBlock" []);
      SExpr (methk (EName "m.fs.surrogate") "build_model" [EName "surrogate"] [("input_vars",
          EName "inputs"); ("output_vars", EName "outputs")]);
      SExpr (meth (EName "m.fs.bypass_frac") "fix" [EFloat 0.5]);
      SExpr (meth (EName "m.fs.ng_steam_ratio") "fix" [EInt 1]);
      SAssign (EName "solver") (call "SolverFactory" [EStr "ipopt"]);
      SAssign (EList [EName "status_obj"; EName "solved"; EName "iters"; EName "time"]) (call
          "_run_ipopt_with_stats" [EName "m"; EName "solver"])
    ] [
      SAssign (EName "status_obj") (ENone)
    ]
  ];
  (* petsc_pid.ipynb, lines 1316-1335 *)
  Cell [] [
    SIf (EName "status_obj") [
      SExpr (call "print" [EStr "Model status: "; EName "status_obj"]);
      SExpr (call "print" [EStr "Solution optimal: "; EName "solved"]);
      SExpr (call "print" [EStr "IPOPT iterations: "; EName "iters"]);
      SExpr (call "print" [EStr "IPOPT runtime: "; EName "time"]);
      SExpr (call "print" []);
      SExpr (call "print" [EStr "Steam flowrate = "; call "value" [EName
          "m.fs.steam_flowrate"]]);
      SExpr (call "print" [EStr "Reformer duty = "; call "value" [EName "m.fs.reformer_duty"]]);
      SExpr (call "print" [EStr "Mole Fraction Ar = "; call "value" [EName "m.fs.AR"]]);
      SExpr (call "print" [EStr "Mole Fraction C2H6 = "; call "value" [EName "m.fs.C2H6"]]);
      SExpr (call "print" [EStr "Mole Fraction C3H8 = "; call "value" [EName "m.fs.C3H8"]]);
      SExpr (call "print" [EStr "Mole Fraction C4H10 = "; call "value" [EName "m.fs.C4H10"]]);
      SExpr (call "print" [EStr "Mole Fraction CH4 = "; call "value" [EName "m.fs.CH4"]]);
      SExpr (call "print" [EStr "Mole Fraction CO = "; call "value" [EName "m.fs.CO"]]);
      SExpr (call "print" [EStr "Mole Fraction CO2 = "; call "value" [EName "m.fs.CO2"]]);
      SExpr (call "print" [EStr "Mole Fraction H2 = "; call "value" [EName "m.fs.H2"]]);
      SExpr (call "print" [EStr "Mole Fraction H2O = "; call "value" [EName "m.fs.H2O"]]);
      SExpr (call "print" [EStr "Mole Fraction N2 = "; call "value" [EName "m.fs.N2"]]);
      SExpr (call "print" [EStr "Mole Fraction O2 = "; call "value" [EName "m.fs.O2"]])
    ] []
  ];
  (* petsc_pid.ipynb, lines 1356-1376 *)
  Cell [] [
    SIf (EName "has_alamo") [
      SExpr (meth (EName "m.fs.bypass_frac") "unfix" []);
      SExpr (meth (EName "m.fs.ng_steam_ratio") "unfix" []);
      SAssign (EName "m.fs.obj") (callk "Objective" [] [("expr", EName "m.fs.H2"); ("sense",
          EName "maximize")]);
      SAssign (EName "m.fs.con") (callk "Constraint" [] [("expr", ECmp CLe (EName "m.fs.N2")
          (EFloat 0.34))]);
      SAssign (EName "tmr") (call "TicTocTimer" []);
      SAssign (EName "status") (methk (EName "solver") "solve" [EName "m"] [("tee", EBool
          true)]);
      SAssign (EName "solve_time") (meth (EName "tmr") "toc" [EStr "solve"]);
      SAssert (ECmp CLe (call "abs" [EBin OSub (call "value" [EName "m.fs.H2"]) (EFloat 0.33)])
          (EFloat 0.01));
      SAssert (call "value" [ECmp CLe (EName "m.fs.N2") (EBin OAdd (EFloat 0.4) (EFloat
          1e-8))]);
      SExpr (call "print" [EStr "Model status: "; EName "status"]);
      SExpr (call "print" [EStr "Solve time: "; EName "solve_time"]);
      SFor "var" (EName "inputs") [
        SExpr (call "print" [EName "var.name"; EStr ": "; call "value" [EName "var"]])
      ];
      SFor "var" (EName "outputs") [
        SExpr (call "print" [EName "var.name"; EStr ": "; call "value" [EName "var"]])
      ]
    ] []
  ]
].

(** Pump Unit Model with IAPWS Property Package *)
Definition pump : notebook := [
  (* pump_test.ipynb, lines 14-25 *)
  Cell ["header"; "hide-cell"] [];
  (* pump_test.ipynb, lines 86-108 *)
  Cell [] [
    SImport "from pyomo.environ import ConcreteModel, SolverFactory, value, units";
    SImport "from idaes.core import FlowsheetBlock";
    SImport "import idaes.logger as idaeslog";
    SAssign (EName "m") (call "ConcreteModel" []);
    SAssign (EName "m.fs") (callk "FlowsheetBlock" [] [("dynamic", EBool false)]);
    SImport "from idaes.models.properties import iapws95";
    SImport "from idaes.models.properties.helmholtz.helmholtz import PhaseType";
    SAssign (EName "m.fs.properties") (methk (EName "iapws95") "Iapws95ParameterBlock" []
        [("phase_presentation", EName "PhaseType.L")])
  ];
  (* pump_test.ipynb, lines 131-136 *)
  Cell [] [
    SImport "from idaes.models.unit_models.pressure_changer import Pump";
    SAssign (EName "m.fs.pump_case_1") (callk "Pump" [] [("property_package", EName
        "m.fs.properties")])
  ];
  (* pump_test.ipynb, lines 145-151 *)
  Cell [] [
    SImport "from idaes.core.util.model_statistics import degrees_of_freedom";
    SAssign (EName "DOF_initial") (call "degrees_of_freedom" [EName "m"]);
    SExpr (call "print" [meth (EStr "The initial DOF is {0}") "format" [EName "DOF_initial"]])
  ];
  (* pump_test.ipynb, lines 164-164 *)
  Cell ["testing"] [
    SAssert (ECmp CEq (EName "DOF_initial") (EInt 5))
  ];
  (* pump_test.ipynb, lines 180-187 *)
  Cell [] [
    SExpr (meth (ESub (EName "m.fs.pump_case_1.inlet.flow_mol") [EInt 0]) "fix" [EInt 100]);
    SExpr (meth (ESub (EName "m.fs.pump_case_1.inlet.enth_mol") [EInt 0]) "fix" [call "value"
        [methk (EName "iapws95") "htpx" [] [("T", EBin OMul (EFloat 298.15) (EName "units.K"));
        ("P", EBin OMul (EInt 101325) (EName "units.Pa"))]]]);
    SExpr (meth (ESub (EName "m.fs.pump_case_1.inlet.pressure") [EInt 0]) "fix" [EInt 101325])
  ];
  (* pump_test.ipynb, lines 203-209 *)
  Cell [] [
    SExpr (meth (EName "m.fs.pump_case_1.deltaP") "fix" [EInt 100000]);
    SExpr (meth (EName "m.fs.pump_case_1.efficiency_pump") "fix" [EFloat 0.8]);
    SAssign (EName "DOF_final") (call "degrees_of_freedom" [EName "m"]);
    SExpr (call "print" [meth (EStr "The final DOF is {0}") "format" [EName "DOF_final"]])
  ];
  (* pump_test.ipynb, lines 222-222 *)
  Cell ["testing"] [
    SAssert (ECmp CEq (EName "DOF_final") (EInt 0))
  ];
  (* pump_test.ipynb, lines 238-239 *)
  Cell [] [
    SExpr (methk (EName "m.fs.pump_case_1") "initialize" [] [("outlvl", EName "idaeslog.INFO")])
  ];
  (* pump_test.ipynb, lines 255-258 *)
  Cell [] [
    SAssign (EName "opt") (call "SolverFactory" [EStr "ipopt"]);
    SAssign (EName "solve_status") (methk (EName "opt") "solve" [EName "m"] [("tee", EBool
        true)])
  ];
  (* pump_test.ipynb, lines 278-282 *)
  Cell ["testing"] [
    SImport "from pyomo.opt import TerminationCondition, SolverStatus";
    SAssert (ECmp CEq (EName "solve_status.solver.termination_condition") (EName
        "TerminationCondition.optimal"));
    SAssert (ECmp CEq (EName "solve_status.solver.status") (EName "SolverStatus.ok"))
  ];
  (* pump_test.ipynb, lines 298-299 *)
  Cell [] [
    SExpr (meth (EName "m.fs.pump_case_1") "report" [])
  ];
  (* pump_test.ipynb, lines 312-316 *)
  Cell ["testing"] [
    SImport "import pytest";
    SAssert (ECmp CEq (EAttr (ESub (EName "m.fs.pump_case_1.outlet.pressure") [EInt 0]) "value")
        (methk (EName "pytest") "approx" [EInt 201325] [("abs", EFloat 1e-2)]));
    SAssert (ECmp CEq (EAttr (ESub (EName "m.fs.pump_case_1.work_mechanical") [EInt 0]) "value")
        (methk (EName "pytest") "approx" [EFloat 225.85] [("abs", EFloat 1e-2)]))
  ];
  (* pump_test.ipynb, lines 339-345 *)
  Cell [] [
    SAssign (EName "m.fs.pump_case_2") (callk "Pump" [] [("property_package", EName
        "m.fs.properties")]);
    SAssign (EName "DOF_initial") (call "degrees_of_freedom" [EName "m.fs.pump_case_2"]);
    SExpr (call "print" [meth (EStr "The initial DOF is {0}") "format" [EName "DOF_initial"]])
  ];
  (* pump_test.ipynb, lines 358-358 *)
  Cell ["testing"] [
    SAssert (ECmp CEq (EName "DOF_initial") (EInt 5))
  ];
  (* pump_test.ipynb, lines 374-381 *)
  Cell [] [
    SExpr (meth (ESub (EName "m.fs.pump_case_2.inlet.flow_mol") [EInt 0]) "fix" [EInt 100]);
    SExpr (meth (ESub (EName "m.fs.pump_case_2.inlet.enth_mol") [EInt 0]) "fix" [call "value"
        [methk (EName "iapws95") "htpx" [] [("T", EBin OMul (EFloat 298.15) (EName "units.K"));
        ("P", EBin OMul (EInt 101325) (EName "units.Pa"))]]]);
    SExpr (meth (ESub (EName "m.fs.pump_case_2.inlet.pressure") [EInt 0]) "fix" [EInt 101325])
  ];
  (* pump_test.ipynb, lines 397-401 *)
  Cell [] [
    SExpr (meth (ESub (EName "m.fs.pump_case_2.outlet.pressure") [EInt 0]) "fix" [EInt 201325]);
    SExpr (meth (EName "m.fs.pump_case_2.efficiency_pump") "fix" [EFloat 0.8])
  ];
  (* pump_test.ipynb, lines 410-411 *)
  Cell [] [
    SAssign (EName "DOF_final") (call "degrees_of_freedom" [EName "m.fs.pump_case_2"]);
    SExpr (call "print" [meth (EStr "The final degrees of freedom is: {0}") "format" [EName
        "DOF_final"]])
  ];
  (* pump_test.ipynb, lines 424-424 *)
  Cell ["testing"] [
    SAssert (ECmp CEq (EName "DOF_final") (EInt 0))
  ];
  (* pump_test.ipynb, lines 440-441 *)
  Cell [] [
    SExpr (methk (EName "m.fs.pump_case_2") "initialize" [] [("outlvl", EName "idaeslog.INFO")])
  ];
  (* pump_test.ipynb, lines 457-460 *)
  Cell [] [
    SAssign (EName "opt") (call "SolverFactory" [EStr "ipopt"]);
    SAssign (EName "solve_status") (methk (EName "opt") "solve" [EName "m.fs.pump_case_2"]
        [("tee", EBool true)])
  ];
  (* pump_test.ipynb, lines 473-477 *)
  Cell ["testing"] [
    SImport "from pyomo.opt import TerminationCondition, SolverStatus";
    SAssert (ECmp CEq (EName "solve_status.solver.termination_condition") (EName
        "TerminationCondition.optimal"));
    SAssert (ECmp CEq (EName "solve_status.solver.status") (EName "SolverStatus.ok"))
  ];
  (* pump_test.ipynb, lines 493-494 *)
  Cell [] [
    SExpr (meth (EName "m.fs.pump_case_2") "report" [])
  ];
  (* pump_test.ipynb, lines 507-509 *)
  Cell ["testing"] [
    SAssert (ECmp CEq (EAttr (ESub (EName "m.fs.pump_case_2.deltaP") [EInt 0]) "value") (methk
        (EName "pytest") "approx" [EInt 100000] [("abs", EFloat 1e-2)]));
    SAssert (ECmp CEq (EAttr (ESub (EName "m.fs.pump_case_2.work_mechanical") [EInt 0]) "value")
        (methk (EName "pytest") "approx" [EFloat 225.85] [("abs", EFloat 1e-2)]))
  ]
].

(** T-x-y diagram of the benzene-toluene property package *)
Definition txy_diagram : notebook := [
  (* pump_test.ipynb, lines 548-559 *)
  Cell ["header"; "hide-cell"] [];
  (* pump_test.ipynb, lines 605-612 *)
  Cell [] [
    SImport "from pyomo.environ import ConcreteModel";
    SImport "import idaes.logger as idaeslog";
    SImport "from idaes.models.properties.modular_properties import GenericParameterBlock"
  ];
  (* pump_test.ipynb, lines 630-648 *)
  Cell [] [
    SImport "import logging";
    SImport "from pyomo.environ import units as pyunits";
    SImport "from idaes.core import LiquidPhase, VaporPhase, Component";
    SImport "from idaes.models.properties.modular_properties.state_definitions import FTPx";
    SImport "from idaes.models.properties.modular_properties.eos.ideal import Ideal";
    SImport "from idaes.models.properties.modular_properties.phase_equil import SmoothVLE";
    SImport "from idaes.models.properties.modular_properties.phase_equil.bubble_dew import (IdealBubbleDew)";
    SImport "from idaes.models.properties.modular_properties.phase_equil.forms import fugacity";
    SImport "from idaes.models.properties.modular_properties.pure import Perrys";
    SImport "from idaes.models.properties.modular_properties.pure import RPP4"
  ];
  (* pump_test.ipynb, lines 666-781 *)
  Cell [] [
    SAssign (EName "configuration") (EDict [(EStr "components", EDict [(EStr "benzene", EDict
        [(EStr "type", EName "Component"); (EStr "elemental_composition", EDict [(EStr "C", EInt
        6); (EStr "H", EInt 6)]); (EStr "dens_mol_liq_comp", EName "Perrys"); (EStr
        "enth_mol_liq_comp", EName "Perrys"); (EStr "enth_mol_ig_comp", EName "RPP4"); (EStr
        "pressure_sat_comp", EName "RPP4"); (EStr "phase_equilibrium_form", EDict [(ETuple [EStr
        "Vap"; EStr "Liq"], EName "fugacity")]); (EStr "parameter_data", EDict [(EStr "mw",
        ETuple [EFloat 78.1136e-3; EBin ODiv (EName "pyunits.kg") (EName "pyunits.mol")]); (EStr
        "pressure_crit", ETuple [EFloat 48.9e5; EName "pyunits.Pa"]); (EStr "temperature_crit",
        ETuple [EFloat 562.2; EName "pyunits.K"]); (EStr "dens_mol_liq_comp_coeff", EDict [(EStr
        "eqn_type", EInt 1); (EStr "1", ETuple [EFloat 1.0162; EBin OMul (EName "pyunits.kmol")
        (EBin OPow (EName "pyunits.m") (EInt (-3)))]); (EStr "2", ETuple [EFloat 0.2655;
        ENone]); (EStr "3", ETuple [EFloat 562.16; EName "pyunits.K"]); (EStr "4", ETuple
        [EFloat 0.28212; ENone])]); (EStr "cp_mol_ig_comp_coeff", EDict [(EStr "A", ETuple
        [EFloat (-3.392e1); EBin ODiv (EBin ODiv (EName "pyunits.J") (EName "pyunits.mol"))
        (EName "pyunits.K")]); (EStr "B", ETuple [EFloat 4.739e-1; EBin ODiv (EBin ODiv (EName
        "pyunits.J") (EName "pyunits.mol")) (EBin OPow (EName "pyunits.K") (EInt 2))]); (EStr
        "C", ETuple [EFloat (-3.017e-4); EBin ODiv (EBin ODiv (EName "pyunits.J") (EName
        "pyunits.mol")) (EBin OPow (EName "pyunits.K") (EInt 3))]); (EStr "D", ETuple [EFloat
        7.130e-8; EBin ODiv (EBin ODiv (EName "pyunits.J") (EName "pyunits.mol")) (EBin OPow
        (EName "pyunits.K") (EInt 4))])]); (EStr "cp_mol_liq_comp_coeff", EDict [(EStr "1",
        ETuple [EFloat 1.29e2; EBin ODiv (EBin ODiv (EName "pyunits.J") (EName "pyunits.kmol"))
        (EName "pyunits.K")]); (EStr "2", ETuple [EFloat (-1.7e-1); EBin ODiv (EBin ODiv (EName
        "pyunits.J") (EName "pyunits.kmol")) (EBin OPow (EName "pyunits.K") (EInt 2))]); (EStr
        "3", ETuple [EFloat 6.48e-4; EBin ODiv (EBin ODiv (EName "pyunits.J") (EName
        "pyunits.kmol")) (EBin OPow (EName "pyunits.K") (EInt 3))]); (EStr "4", ETuple [EInt 0;
        EBin ODiv (EBin ODiv (EName "pyunits.J") (EName "pyunits.kmol")) (EBin OPow (EName
        "pyunits.K") (EInt 4))]); (EStr "5", ETuple [EInt 0; EBin ODiv (EBin ODiv (EName
        "pyunits.J") (EName "pyunits.kmol")) (EBin OPow (EName "pyunits.K") (EInt 5))])]); (EStr
        "enth_mol_form_liq_comp_ref", ETuple [EFloat 49.0e3; EBin ODiv (EName "pyunits.J")
        (EName "pyunits.mol")]); (EStr "enth_mol_form_vap_comp_ref", ETuple [EFloat 82.9e3; EBin
        ODiv (EName "pyunits.J") (EName "pyunits.mol")]); (EStr "pressure_sat_comp_coeff", EDict
        [(EStr "A", ETuple [EFloat (-6.98273); ENone]); (EStr "B", ETuple [EFloat 1.33213;
        ENone]); (EStr "C", ETuple [EFloat (-2.62863); ENone]); (EStr "D", ETuple [EFloat
        (-3.33399); ENone])])])]); (EStr "toluene", EDict [(EStr "type", EName "Component");
        (EStr "elemental_composition", EDict [(EStr "C", EInt 7); (EStr "H", EInt 8)]); (EStr
        "dens_mol_liq_comp", EName "Perrys"); (EStr "enth_mol_liq_comp", EName "Perrys"); (EStr
        "enth_mol_ig_comp", EName "RPP4"); (EStr "pressure_sat_comp", EName "RPP4"); (EStr
        "phase_equilibrium_form", EDict [(ETuple [EStr "Vap"; EStr "Liq"], EName "fugacity")]);
        (EStr "parameter_data", EDict [(EStr "mw", ETuple [EFloat 92.1405e-3; EBin ODiv (EName
        "pyunits.kg") (EName "pyunits.mol")]); (EStr "pressure_crit", ETuple [EFloat 41e5; EName
        "pyunits.Pa"]); (EStr "temperature_crit", ETuple [EFloat 591.8; EName "pyunits.K"]);
        (EStr "dens_mol_liq_comp_coeff", EDict [(EStr "eqn_type", EInt 1); (EStr "1", ETuple
        [EFloat 0.8488; EBin OMul (EName "pyunits.kmol") (EBin OPow (EName "pyunits.m") (EInt
        (-3)))]); (EStr "2", ETuple [EFloat 0.26655; ENone]); (EStr "3", ETuple [EFloat 591.8;
        EName "pyunits.K"]); (EStr "4", ETuple [EFloat 0.2878; ENone])]); (EStr
        "cp_mol_ig_comp_coeff", EDict [(EStr "A", ETuple [EFloat (-2.435e1); EBin ODiv (EBin
        ODiv (EName "pyunits.J") (EName "pyunits.mol")) (EName "pyunits.K")]); (EStr "B", ETuple
        [EFloat 5.125e-1; EBin ODiv (EBin ODiv (EName "pyunits.J") (EName "pyunits.mol")) (EBin
        OPow (EName "pyunits.K") (EInt 2))]); (EStr "C", ETuple [EFloat (-2.765e-4); EBin ODiv
        (EBin ODiv (EName "pyunits.J") (EName "pyunits.mol")) (EBin OPow (EName "pyunits.K")
        (EInt 3))]); (EStr "D", ETuple [EFloat 4.911e-8; EBin ODiv (EBin ODiv (EName
        "pyunits.J") (EName "pyunits.mol")) (EBin OPow (EName "pyunits.K") (EInt 4))])]); (EStr
        "cp_mol_liq_comp_coeff", EDict [(EStr "1", ETuple [EFloat 1.40e2; EBin ODiv (EBin ODiv
        (EName "pyunits.J") (EName "pyunits.kmol")) (EName "pyunits.K")]); (EStr "2", ETuple
        [EFloat (-1.52e-1); EBin ODiv (EBin ODiv (EName "pyunits.J") (EName "pyunits.kmol"))
        (EBin OPow (EName "pyunits.K") (EInt 2))]); (EStr "3", ETuple [EFloat 6.95e-4; EBin ODiv
        (EBin ODiv (EName "pyunits.J") (EName "pyunits.kmol")) (EBin OPow (EName "pyunits.K")
        (EInt 3))]); (EStr "4", ETuple [EInt 0; EBin ODiv (EBin ODiv (EName "pyunits.J") (EName
        "pyunits.kmol")) (EBin OPow (EName "pyunits.K") (EInt 4))]); (EStr "5", ETuple [EInt 0;
        EBin ODiv (EBin ODiv (EName "pyunits.J") (EName "pyunits.kmol")) (EBin OPow (EName
        "pyunits.K") (EInt 5))])]); (EStr "enth_mol_form_liq_comp_ref", ETuple [EFloat 12.0e3;
        EBin ODiv (EName "pyunits.J") (EName "pyunits.mol")]); (EStr
        "enth_mol_form_vap_comp_ref", ETuple [EFloat 50.1e3; EBin ODiv (EName "pyunits.J")
        (EName "pyunits.mol")]); (EStr "pressure_sat_comp_coeff", EDict [(EStr "A", ETuple
        [EFloat (-7.28607); ENone]); (EStr "B", ETuple [EFloat 1.38091; ENone]); (EStr "C",
        ETuple [EFloat (-2.83433); ENone]); (EStr "D", ETuple [EFloat (-2.79168);
        ENone])])])])]); (EStr "phases", EDict [(EStr "Liq", EDict [(EStr "type", EName
        "LiquidPhase"); (EStr "equation_of_state", EName "Ideal")]); (EStr "Vap", EDict [(EStr
        "type", EName "VaporPhase"); (EStr "equation_of_state", EName "Ideal")])]); (EStr
        "base_units", EDict [(EStr "time", EName "pyunits.s"); (EStr "length", EName
        "pyunits.m"); (EStr "mass", EName "pyunits.kg"); (EStr "amount", EName "pyunits.mol");
        (EStr "temperature", EName "pyunits.K")]); (EStr "state_definition", EName "FTPx");
        (EStr "state_bounds", EDict [(EStr "flow_mol", ETuple [EInt 0; EInt 100; EInt 1000; EBin
        ODiv (EName "pyunits.mol") (EName "pyunits.s")]); (EStr "temperature", ETuple [EInt 150;
        EInt 300; EInt 450; EName "pyunits.K"]); (EStr "pressure", ETuple [EFloat 5e4; EFloat
        1e5; EFloat 1e6; EName "pyunits.Pa"])]); (EStr "pressure_ref", ETuple [EFloat 1e5; EName
        "pyunits.Pa"]); (EStr "temperature_ref", ETuple [EInt 300; EName "pyunits.K"]); (EStr
        "phases_in_equilibrium", EList [ETuple [EStr "Vap"; EStr "Liq"]]); (EStr
        "phase_equilibrium_state", EDict [(ETuple [EStr "Vap"; EStr "Liq"], EName
        "SmoothVLE")]); (EStr "bubble_dew_method", EName "IdealBubbleDew"); (EStr
        "default_scaling_factors", EDict [(EStr "mole_frac_comp[benzene]", EInt 1)])])
  ];
  (* pump_test.ipynb, lines 799-803 *)
  Cell [] [
    SAssign (EName "model") (call "ConcreteModel" []);
    SAssign (EName "model.params") (callk "GenericParameterBlock" [] [("**", EName
        "configuration")])
  ];
  (* pump_test.ipynb, lines 821-821 *)
  Cell [] [
    SImport "from idaes.core.util.phase_equilibria import Txy_diagram"
  ];
  (* pump_test.ipynb, lines 844-856 *)
  Cell [] [
    SExpr (callk "Txy_diagram" [EName "model"; EStr "benzene"; EStr "toluene"; EInt 101325]
        [("num_points", EInt 25); ("temperature", EFloat 150.15); ("figure_name", ENone);
        ("print_legend", EBool true); ("include_pressure", EBool false); ("print_level", EName
        "idaeslog.CRITICAL"); ("solver_op", EDict [(EStr "tol", EFloat 1e-6)])])
  ]
].

(** The six notebooks of the repository, in the order of the source files. *)
Definition notebooks : list (string * notebook) :=
  [("petsc_chem", petsc_chem); ("petsc_pid", petsc_pid);
   ("pysmo_surrogate", pysmo_surrogate); ("alamo_surrogate", alamo_surrogate);
   ("pump", pump); ("txy_diagram", txy_diagram)].

(** ** Traversals *)

(** A statement followed by the statements nested in it, in source order. *)
Fixpoint flat (s : stmt) : list stmt :=
  s :: match s with
       | SDef _ _ _ b => flat_map flat b
       | SFor _ _ b => flat_map flat b
       | SIf _ b e => flat_map flat b ++ flat_map flat e
       | STry b _ _ h => flat_map flat b ++ flat_map flat h
       | _ => []
       end.

Definition top_stmts (nb : notebook) : list stmt := flat_map source nb.

Definition all_stmts (nb : notebook) : list stmt := flat_map flat (top_stmts nb).

(** An expression followed by its sub-expressions. *)
Fixpoint subexprs (e : expr) : list expr :=
  e :: match e with
       | EAttr a _ => subexprs a
       | ESub a ix => subexprs a ++ flat_map subexprs ix
       | ESlice lo hi =>
           match lo with Some a => subexprs a | None => [] end
           ++ match hi with Some a => subexprs a | None => [] end
       | ECall f args kw =>
           subexprs f ++ flat_map subexprs args
           ++ flat_map (fun p => match p with (_, a) => subexprs a end) kw
       | EBin _ l r => subexprs l ++ subexprs r
       | ECmp _ l r => subexprs l ++ subexprs r
       | EList es => flat_map subexprs es
       | ETuple es => flat_map subexprs es
       | EDict kvs => flat_map (fun p => match p with (k, v) => subexprs k ++ subexprs v end) kvs
       | EFmt ps => flat_map subexprs ps
       | EListComp a _ it => subexprs a ++ subexprs it
       | EDictComp k v _ it => subexprs k ++ subexprs v ++ subexprs it
       | EStar a => subexprs a
       | _ => []
       end.

(** The expressions a statement holds itself (not those of nested statements). *)
Definition own_exprs (s : stmt) : list expr :=
  match s with
  | SAssign t v => [t; v]
  | SExpr e | SAssert e | SReturn e => [e]
  | SDef ds _ _ _ => ds
  | SFor _ it _ => [it]
  | SIf c _ _ => [c]
  | SImport _ | SRaise | STry _ _ _ _ => []
  end.

Definition stmt_exprs (s : stmt) : list expr := flat_map subexprs (own_exprs s).

Definition all_exprs (nb : notebook) : list expr := flat_map stmt_exprs (all_stmts nb).

(** The function a call names: [f] in [f(...)], [m] in [o.m(...)]. *)
Definition callee (e : expr) : option string :=
  match e with
  | ECall (EName f) _ _ => Some f
  | ECall (EAttr _ m) _ _ => Some m
  | _ => None
  end.

Definition calls (f : string) (e : expr) : bool :=
  match callee e with Some g => String.eqb f g | None => false end.

Definition kwarg (k : string) (e : expr) : option expr :=
  match e with
  | ECall _ _ kw => snd <$> find (fun p => String.eqb k (fst p)) (rev kw)
  | _ => None
  end.

Definition asserts (nb : notebook) : list expr :=
  flat_map (fun s => match s with SAssert e => [e] | _ => [] end) (all_stmts nb).

Definition mentions (x : string) (e : expr) : bool :=
  existsb (fun a => match a with EName y => String.eqb x y | _ => false end) (subexprs e).

Definition asserts_on (x : string) (nb : notebook) : list expr :=
  filter (fun e => mentions x e) (asserts nb).

(** ** PETSc time-stepping options *)

Definition is_petsc_solve (e : expr) : bool :=
  match e with
  | ECall (EAttr (EName "petsc") "petsc_dae_by_time_element") _ _ => true
  | _ => false
  end.

Definition petsc_solves (nb : notebook) : list expr := filter is_petsc_solve (all_exprs nb).

(** A dict display with string keys, read as Python builds it: a later
    entry replaces an earlier one with the same key. *)
Definition dict_of (e : expr) : option (gmap string expr) :=
  match e with
  | EDict kvs =>
      foldl (fun acc p =>
               match acc, p with
               | Some d, (EStr k, v) => Some (<[k := v]> d)
               | _, _ => None
               end) (Some ∅) kvs
  | _ => None
  end.

Definition ts_options (e : expr) : option (gmap string expr) :=
  kwarg "ts_options" e ≫= dict_of.

Definition ts_options_ok (e : expr) : bool :=
  match ts_options e with
  | Some d =>
      bool_decide (is_Some (d !! "--ts_type")) && bool_decide (is_Some (d !! "--ts_dt"))
      && match d !! "--ts_save_trajectory" with Some (EInt 1) => true | _ => false end
  | None => false
  end.

(** ** Numeric evaluation of assertion and constraint expressions *)

Inductive value : Type :=
| VNum (q : Q)
| VBool (b : bool)
| VApprox (expected tol : Q).   (* pytest.approx(expected, abs=tol) *)

(** A model variable or a Python name: its dotted name and its indices. *)
Definition var_id : Type := string * list Z.

Definition arith (op : binop) (a b : Q) : option Q :=
  match op with
  | OAdd => Some (a + b)%Q
  | OSub => Some (a - b)%Q
  | OMul => Some (a * b)%Q
  | ODiv => if Qeq_bool b 0 then None else Some (a / b)%Q
  | OPow => None
  end.

Definition compare (op : cmpop) (a b : Q) : option bool :=
  match op with
  | CEq => Some (Qeq_bool a b)
  | CLe => Some (Qle_bool a b)
  | CLt => Some (negb (Qle_bool b a))
  | CIn => None
  end.

(** [pytest.approx] is pytest's, not the repository's: with [abs] given and
    [rel] left out, [actual == approx(expected, abs=tol)] holds when
    [|actual - expected| <= tol]. *)
Definition approx_eq (actual expected tol : Q) : bool :=
  Qle_bool (Qabs (actual - expected)) tol.

Section Eval.
(** The two smoothing functions of [idaes.core.util.math], the integer
    locals of a rule (its index [t]) and the values of the variables. *)
Variables smooth_min smooth_max : Q -> Q -> Q.
Variable locals : gmap string Z.
Variable vals : gmap var_id Q.

Definition index_value (e : expr) : option Z :=
  match e with
  | EInt n => Some n
  | EName x => locals !! x
  | _ => None
  end.

Definition var_ref (e : expr) : option var_id :=
  match e with
  | EName x => Some (x, [])
  | ESub (EName x) ix => (fun l => (x, l)) <$> mapM index_value ix
  | _ => None
  end.

Definition read (e : expr) : option value :=
  VNum <$> (var_ref e ≫= fun r => vals !! r).

Definition num1 (f : Q -> Q) (a : option value) : option value :=
  match a with Some (VNum x) => Some (VNum (f x)) | _ => None end.

Definition num2 (f : Q -> Q -> Q) (a b : option value) : option value :=
  match a, b with Some (VNum x), Some (VNum y) => Some (VNum (f x y)) | _, _ => None end.

Fixpoint eval (e : expr) : option value :=
  match e with
  | EBool b => Some (VBool b)
  | EInt n => Some (VNum (inject_Z n))
  | EFloat q => Some (VNum q)
  | EName _ | ESub _ _ => read e
  | EAttr r a => if String.eqb a "value" then read r else None
  | ECall (EName f) [a] [] =>
      if String.eqb f "value" then eval a
      else if String.eqb f "abs" then num1 Qabs (eval a)
      else None
  | ECall (EName f) [a; b] [] =>
      if String.eqb f "smooth_min" then num2 smooth_min (eval a) (eval b)
      else if String.eqb f "smooth_max" then num2 smooth_max (eval a) (eval b)
      else None
  | ECall (EAttr (EName o) f) [a] [] =>
      if String.eqb o "pyo" && String.eqb f "value" then eval a else None
  | ECall (EAttr (EName o) f) [a] [(k, t)] =>
      if String.eqb o "pytest" && String.eqb f "approx" && String.eqb k "abs" then
        match eval a, eval t with
        | Some (VNum c), Some (VNum d) => Some (VApprox c d)
        | _, _ => None
        end
      else None
  | EBin op a b =>
      match eval a, eval b with
      | Some (VNum x), Some (VNum y) => VNum <$> arith op x y
      | _, _ => None
      end
  | ECmp op a b =>
      match eval a, eval b with
      | Some (VNum x), Some (VNum y) => VBool <$> compare op x y
      | Some (VNum x), Some (VApprox c d) =>
          match op with CEq => Some (VBool (approx_eq x c d)) | _ => None end
      | _, _ => None
      end
  | _ => None
  end.

(** An [assert] passes when its test evaluates to [True]. *)
Definition accepts (e : expr) : bool :=
  match eval e with Some (VBool true) => true | _ => false end.
End Eval.

(** ** The inlet-pressure ramp of the PID notebook

    [pid.create_model] lives in [idaes_examples.mod.dae.petsc.pid_steam_tank];
    what it leaves behind for the inlet pressure (which time points are fixed,
    at which values) is the initial [pstate] and is left arbitrary. *)

Record pstate : Type := PState {
  p_val : gmap Z Q;          (* value of the inlet pressure at each time point *)
  p_fixed : gset Z;          (* time points where it is fixed *)
  c_rule : option expr;      (* right-hand side of inlet_pressure_eqn, once declared *)
  c_active : gset Z          (* time points where inlet_pressure_eqn is active *)
}.

Definition inlet_pressure_var : string := "m.fs.valve_1.control_volume.properties_in".

Definition literal (e : expr) : option Q :=
  match e with
  | EInt n => Some (inject_Z n)
  | EFloat q => Some q
  | _ => None
  end.

(** [@m.fs.Constraint(m.fs.time) def inlet_pressure_eqn(b, t): return lhs == rhs]
    with [lhs] the inlet pressure at [t]: the rule's right-hand side. *)
Definition pressure_rule (s : stmt) : option expr :=
  match s with
  | SDef [ECall (EAttr (EName "m.fs") "Constraint") [EName "m.fs.time"] []]
         "inlet_pressure_eqn" ["b"; "t"]
         [SReturn (ECmp CEq
            (EAttr (ESub (EName "b.valve_1.control_volume.properties_in") [EName "t"])
                   "pressure") rhs)] => Some rhs
  | _ => None
  end.

(** One statement's effect on the inlet-pressure bookkeeping of a model whose
    time points are [times]; a statement about anything else changes nothing.
    A constraint is active at every index when it is declared. *)
Definition exec_pressure (times : list Z) (s : stmt) (st : pstate) : pstate :=
  match pressure_rule s with
  | Some rhs => PState (p_val st) (p_fixed st) (Some rhs) (list_to_set times)
  | None =>
      match s with
      | SExpr (ECall (EAttr (EAttr (ESub (EName x) [EInt k]) "pressure") f) args []) =>
          if negb (String.eqb x inlet_pressure_var) then st
          else
            match args with
            | [] =>
                if String.eqb f "unfix"
                then PState (p_val st) (p_fixed st ∖ {[k]}) (c_rule st) (c_active st)
                else st
            | [a] =>
                match literal a with
                | Some v =>
                    if String.eqb f "fix"
                    then PState (<[k := v]> (p_val st)) ({[k]} ∪ p_fixed st)
                                (c_rule st) (c_active st)
                    else if String.eqb f "set_value"
                    then PState (<[k := v]> (p_val st)) (p_fixed st) (c_rule st) (c_active st)
                    else st
                | None => st
                end
            | _ => st
            end
      | SExpr (ECall (EAttr (EName "m.fs.inlet_pressure_eqn") f) [] []) =>
          if String.eqb f "deactivate"
          then PState (p_val st) (p_fixed st) (c_rule st) ∅
          else if String.eqb f "activate"
          then PState (p_val st) (p_fixed st) (c_rule st) (list_to_set times)
          else st
      | SExpr (ECall (EAttr (ESub (EName "m.fs.inlet_pressure_eqn") [EInt k]) f) [] []) =>
          if String.eqb f "deactivate"
          then PState (p_val st) (p_fixed st) (c_rule st) (c_active st ∖ {[k]})
          else if String.eqb f "activate"
          then PState (p_val st) (p_fixed st) (c_rule st) ({[k]} ∪ c_active st)
          else st
      | _ => st
      end
  end.

(** The [time_set] of [m = pid.create_model(time_set=[...], ...)]. *)
Definition create_model_times (s : stmt) : option (list Z) :=
  match s with
  | SAssign (EName "m") (ECall (EAttr (EName "pid") "create_model") [] _ as c) =>
      match kwarg "time_set" c with
      | Some (EList ts) => mapM (fun e => match e with EInt n => Some n | _ => None end) ts
      | _ => None
      end
  | _ => None
  end.

Definition starts_model (s : stmt) : bool := bool_decide (is_Some (create_model_times s)).

Fixpoint until_next_model (ss : list stmt) : list stmt :=
  match ss with
  | [] => []
  | s :: r => if starts_model s then [] else s :: until_next_model r
  end.

(** The models a notebook builds one after the other, each with its time
    points and the statements up to the next [create_model]. *)
Fixpoint models (ss : list stmt) : list (list Z * list stmt) :=
  match ss with
  | [] => []
  | s :: r =>
      match create_model_times s with
      | Some ts => (ts, until_next_model r) :: models r
      | None => models r
      end
  end.

Definition run_pressure (init : pstate) (m : list Z * list stmt) : pstate :=
  foldl (fun st s => exec_pressure (fst m) s st) init (snd m).

(** The value the rule's right-hand side takes at time point [k] when the
    time variable [time_var[k]] holds [tau]; [b] is the flowsheet. *)
Definition rule_value (smin smax : Q -> Q -> Q) (rhs : expr) (k : Z) (tau : Q) : option Q :=
  match eval smin smax {["t" := k]} {[("b.time_var", [k]) := tau]} rhs with
  | Some (VNum q) => Some q
  | _ => None
  end.

(** The inlet pressure the model prescribes at time point [k]: its fixed
    value, or what the active constraint demands; [None] when it is left to
    the solver. *)
Definition prescribed (smin smax : Q -> Q -> Q) (st : pstate) (k : Z) (tau : Q) : option Q :=
  if bool_decide (k ∈ p_fixed st) then p_val st !! k
  else if bool_decide (k ∈ c_active st) then c_rule st ≫= fun rhs => rule_value smin smax rhs k tau
  else None.

(** Integration by time element: between two time points the equations are
    those of the element's end point (the notebook: "For the time section
    from 10 to 12s, the constraints are defined by time 12"). *)
Definition element_end (times : list Z) (tau : Q) : option Z :=
  find (fun k => Qle_bool tau (inject_Z k)) times.

Definition inlet_pressure (smin smax : Q -> Q -> Q) (init : pstate) (m : list Z * list stmt)
    (tau : Q) : option Q :=
  element_end (fst m) tau ≫= fun k => prescribed smin smax (run_pressure init m) k tau.

Definition pid_models : list (list Z * list stmt) := models (top_stmts petsc_pid).

(** The second model ramps with [smooth_min]/[smooth_max] over one time
    element, the third integrates in three elements. *)
Definition single_element : list Z * list stmt := nth 1 pid_models ([], []).

Definition three_element : list Z * list stmt := nth 2 pid_models ([], []).

(** The claim's words: [x] clamped to the interval [[lo, hi]]. *)
Definition clamp (lo hi x : Q) : Q :=
  if Qlt_le_dec x lo then lo else if Qlt_le_dec hi x then hi else x.

(** The ramp the notebook describes: from 500000 Pa at 10 s, 50000 Pa/s. *)
Definition ramp (tau : Q) : Q := (50000 * (tau - 10) + 500000)%Q.

(** The two right-hand sides of [inlet_pressure_eqn], as the cells write them. *)
Definition inlet_pressure_eqn_linear : expr :=
  EBin OAdd (EBin OMul (EInt 50000) (EBin OSub (ESub (EName "b.time_var") [EName "t"]) (EInt 10)))
            (EInt 500000).

Definition inlet_pressure_eqn_smooth : expr :=
  call "smooth_min" [EInt 600000; call "smooth_max" [EInt 500000; inlet_pressure_eqn_linear]].

(** The time points the two ramp models have in common. *)
Definition shared_times : list Z :=
  List.filter (fun k => existsb (Z.eqb k) (fst three_element)) (fst single_element).

(** ** Degrees of freedom of the pump cases

    [Pump], [Iapws95ParameterBlock] and [degrees_of_freedom] are IDAES's.  A
    unit model is taken as the set of its variables (named relative to the
    block, with their indices) and the number of its equality constraints;
    [degrees_of_freedom], as the notebook puts it, is the number of
    variables not fixed minus the number of constraints. *)

Record unit_model : Type := UnitModel { um_vars : gset var_id; um_eqs : nat }.

Record block : Type := Block { b_name : string; b_unit : unit_model; b_fixed : gset var_id }.

Record mstate : Type := MState {
  blocks : list block;               (* in the order they were attached *)
  ints : gmap string Z;              (* Python names bound to a DOF count *)
  dof_log : list (string * Z)        (* every degrees_of_freedom result, oldest first *)
}.

Definition dof_block (b : block) : Z :=
  Z.of_nat (size (um_vars (b_unit b) ∖ b_fixed b)) - Z.of_nat (um_eqs (b_unit b)).

(** [strip_prefix p s]: the rest of [s] after its prefix [p]. *)
Fixpoint strip_prefix (p s : string) : option string :=
  match p, s with
  | EmptyString, _ => Some s
  | String a p', String b s' => if Ascii.eqb a b then strip_prefix p' s' else None
  | String _ _, EmptyString => None
  end.

(** [relative c x]: the name of [x] as seen from the component [c] above it. *)
Definition relative (c x : string) : option string :=
  match strip_prefix c x with
  | Some rest => strip_prefix "." rest
  | None => None
  end.

(** [b] is the component [target] or lies below it. *)
Definition within (target : string) (b : block) : bool :=
  String.eqb target (b_name b)
  || match relative target (b_name b) with Some _ => true | None => false end.

Definition degrees_of_freedom (target : string) (st : mstate) : Z :=
  foldr (fun b acc => dof_block b + acc)%Z 0%Z (List.filter (within target) (blocks st)).

(** What a statement means for the count. *)
Inductive dof_action : Type :=
| AAttach (name unit : string)               (* name = Unit(...) *)
| AFixVar (var : string) (ix : list Z)       (* var[ix].fix(v) *)
| AFixAll (var : string)                     (* var.fix(v): every member of var *)
| AMeasure (x target : string)               (* x = degrees_of_freedom(target) *)
| ACheck (x : string) (n : Z)                (* assert x == n *)
| AOther.

Definition int_lits (es : list expr) : option (list Z) :=
  mapM (fun e => match e with EInt n => Some n | _ => None end) es.

Definition dof_action_of (s : stmt) : dof_action :=
  match s with
  | SAssign (EName x) (ECall (EName "degrees_of_freedom") [EName target] []) =>
      AMeasure x target
  | SAssign (EName x) (ECall _ _ _ as c) =>
      match callee c with Some u => AAttach x u | None => AOther end
  | SExpr (ECall (EAttr (ESub (EName x) ix) "fix") [_] []) =>
      match int_lits ix with Some l => AFixVar x l | None => AOther end
  | SExpr (ECall (EAttr (EName x) "fix") [_] []) => AFixAll x
  | SAssert (ECmp CEq (EName x) (EInt n)) => ACheck x n
  | _ => AOther
  end.

Section Pump.
(** The two IDAES components the notebook attaches. *)
Variables Pump Iapws95ParameterBlock : unit_model.

(** [ConcreteModel], [FlowsheetBlock] and the solver objects hold no
    variables of their own. *)
Definition library (unit : string) : option unit_model :=
  if String.eqb unit "Pump" then Some Pump
  else if String.eqb unit "Iapws95ParameterBlock" then Some Iapws95ParameterBlock
  else None.

(** Fix the members [vs] of the first block whose name is a prefix of the
    dotted name; [None] (Python raises) when no block has them. *)
Fixpoint fix_in (sel : string -> unit_model -> gset var_id) (var : string) (bs : list block)
    : option (list block) :=
  match bs with
  | [] => None
  | b :: r =>
      match relative (b_name b) var with
      | Some rel =>
          let vs := sel rel (b_unit b) in
          if bool_decide (vs = ∅) then None
          else Some (Block (b_name b) (b_unit b) (vs ∪ b_fixed b) :: r)
      | None => (fun r' => b :: r') <$> fix_in sel var r
      end
  end.

Definition one_var (ix : list Z) (rel : string) (u : unit_model) : gset var_id :=
  if bool_decide ((rel, ix) ∈ um_vars u) then {[(rel, ix)]} else ∅.

Definition members (rel : string) (u : unit_model) : gset var_id :=
  filter (fun v => fst v = rel) (um_vars u).

Definition do_dof (a : dof_action) (st : mstate) : option mstate :=
  match a with
  | AAttach name unit =>
      match library unit with
      | Some u => Some (MState (blocks st ++ [Block name u ∅]) (ints st) (dof_log st))
      | None => Some st
      end
  | AFixVar var ix =>
      (fun bs => MState bs (ints st) (dof_log st)) <$> fix_in (one_var ix) var (blocks st)
  | AFixAll var =>
      (fun bs => MState bs (ints st) (dof_log st)) <$> fix_in members var (blocks st)
  | AMeasure x target =>
      let d := degrees_of_freedom target st in
      Some (MState (blocks st) (<[x := d]> (ints st)) (dof_log st ++ [(x, d)]))
  | ACheck x n =>
      match ints st !! x with
      | Some d => if bool_decide (d = n) then Some st else None
      | None => Some st
      end
  | AOther => Some st
  end.

Fixpoint run_dof (acts : list dof_action) (st : mstate) : option mstate :=
  match acts with
  | [] => Some st
  | a :: rest => do_dof a st ≫= run_dof rest
  end.
End Pump.

Definition counts (a : dof_action) : bool :=
  match a with AOther => false | _ => true end.

Definition dof_actions (nb : notebook) : list dof_action :=
  List.filter counts (map dof_action_of (top_stmts nb)).

Definition empty_model : mstate := MState [] ∅ [].

(** The variables each pump case fixes, relative to its block. *)
Definition inlet_conditions : gset var_id :=
  {[ ("inlet.flow_mol", [0%Z]); ("inlet.enth_mol", [0%Z]); ("inlet.pressure", [0%Z]) ]}.

Definition case_1_fixed : gset var_id :=
  inlet_conditions ∪ {[ ("deltaP", [0%Z]); ("efficiency_pump", [0%Z]) ]}.

Definition case_2_fixed : gset var_id :=
  inlet_conditions ∪ {[ ("outlet.pressure", [0%Z]); ("efficiency_pump", [0%Z]) ]}.

(** An instance for illustration: a pressure changer with three state
    variables at each port, [deltaP], [ratioP], two work terms and the
    efficiency, tied by six equations. *)
Definition sample_pump : unit_model :=
  UnitModel
    {[ ("inlet.flow_mol", [0%Z]); ("inlet.enth_mol", [0%Z]); ("inlet.pressure", [0%Z]);
       ("outlet.flow_mol", [0%Z]); ("outlet.enth_mol", [0%Z]); ("outlet.pressure", [0%Z]);
       ("deltaP", [0%Z]); ("ratioP", [0%Z]); ("work_mechanical", [0%Z]);
       ("work_fluid", [0%Z]); ("efficiency_pump", [0%Z]) ]}
    6.

Definition sample_properties : unit_model := UnitModel ∅ 0.

(** ** Surrogate files and the ALAMO guard

    What the surrogate notebooks do with their trained surrogate, followed
    through assignments, [if], [try]/[except] and the bare [raise].  The
    trainers, [save_to_file] and [load_from_file] are IDAES's: an object is
    known by where it came from, and a file holds the object saved to it. *)

Inductive obj : Type :=
| OTrained                                   (* what trainer.train_surrogate() returned *)
| OWrap (cls : string) (inner : obj)         (* Cls(inner, ...) *)
| OLoaded (cls file : string) (saved : obj)  (* Cls.load_from_file(file) *)
| OOther.

Inductive pyval : Type :=
| PBool (b : bool)
| PNone
| PObj (o : obj)
| PExc (msg : string).                       (* the exception bound by except ... as *)

Record exn : Type := Exn { exn_class : string; exn_msg : string }.

(** The Python names in scope and the working directory: what each name is
    bound to and what each file name holds, if anything. *)
Definition scope : Type := string -> option pyval.

Definition directory : Type := string -> option obj.

Definition write (f : string) (o : obj) (d : directory) : directory :=
  fun g => if String.eqb g f then Some o else d g.

Record sstate : Type := SState {
  vars : scope;
  files : directory;
  attached : list obj;                       (* arguments of SurrogateBlock.build_model *)
  asserted : nat                             (* assert statements run so far *)
}.

Inductive outcome : Type :=
| Done (st : sstate)
| Raised (e : exn) (st : sstate).

(** How [trainer.train_surrogate()] ends: it depends on the installed
    trainer, not on the notebook. *)
Inductive training : Type :=
| TrainOk
| TrainRaises (e : exn).

Fixpoint contains (needle hay : string) : bool :=
  String.prefix needle hay
  || match hay with
     | EmptyString => false
     | String _ rest => contains needle rest
     end.

Definition truthy (v : pyval) : bool :=
  match v with
  | PBool b => b
  | PNone => false
  | PObj _ | PExc _ => true
  end.

Definition bind_name (x : string) (v : pyval) (st : sstate) : sstate :=
  SState (fun y => if String.eqb y x then Some v else vars st y) (files st) (attached st)
         (asserted st).

Definition name_error (x : string) : exn := Exn "NameError" x.

Definition obj_of (st : sstate) (e : expr) : obj :=
  match e with
  | EName x => match vars st x with Some (PObj o) => o | _ => OOther end
  | _ => OOther
  end.

(** The names an assignment target binds. *)
Definition target_names (t : expr) : list string :=
  match t with
  | EName x => [x]
  | ETuple es | EList es =>
      flat_map (fun e => match e with
                         | EName x => [x]
                         | EStar (EName x) => [x]
                         | _ => []
                         end) es
  | _ => []
  end.

Definition bind_all (xs : list string) (v : pyval) (st : sstate) : sstate :=
  foldl (fun s x => bind_name x v s) st xs.

(** The test of an [if]: a name, or [text in str(err)]. *)
Definition branch_test (c : expr) (st : sstate) : option bool :=
  match c with
  | EName x => truthy <$> vars st x
  | ECmp CIn (EStr s) (ECall (EName "str") [EName x] []) =>
      match vars st x with
      | Some (PExc msg) => Some (contains s msg)
      | _ => None
      end
  | _ => None
  end.

Definition overwrites (c : expr) : bool :=
  match kwarg "overwrite" c with Some (EBool true) => true | _ => false end.

Section Surrogate.
Variable train : training.

(** An assignment [t = v]. *)
Definition assign (t v : expr) (st : sstate) : outcome :=
  match v with
  | EBool b => Done (bind_all (target_names t) (PBool b) st)
  | ENone => Done (bind_all (target_names t) PNone st)
  | ECall (EAttr (EName "trainer") "train_surrogate") [] [] =>
      match train with
      | TrainOk =>
          match t with
          | ETuple [EName ok; EName s; EName msg] =>
              (* ALAMO: success, surrogate, message *)
              Done (bind_name msg (PObj OOther)
                      (bind_name s (PObj OTrained) (bind_name ok (PBool true) st)))
          | _ => Done (bind_all (target_names t) (PObj OTrained) st)
          end
      | TrainRaises e => Raised e st
      end
  | ECall (EAttr (EName x) "save_to_file") [EStr f] _ =>
      match vars st x with
      | Some (PObj o) =>
          if overwrites v || match files st f with None => true | Some _ => false end
          then Done (bind_all (target_names t) (PObj OOther)
                       (SState (vars st) (write f o (files st)) (attached st) (asserted st)))
          else Raised (Exn "FileExistsError" f) st
      | _ => Raised (name_error x) st
      end
  | ECall (EAttr (EName cls) "load_from_file") [EStr f] [] =>
      match files st f with
      | Some o => Done (bind_all (target_names t) (PObj (OLoaded cls f o)) st)
      | None => Raised (Exn "FileNotFoundError" f) st
      end
  | ECall (EName cls) (a :: _) [] =>
      if String.eqb cls "PysmoSurrogate" || String.eqb cls "AlamoSurrogate"
      then Done (bind_all (target_names t) (PObj (OWrap cls (obj_of st a))) st)
      else Done (bind_all (target_names t) (PObj OOther) st)
  | _ => Done (bind_all (target_names t) (PObj OOther) st)
  end.

Definition run_stmts (f : stmt -> sstate -> outcome) : list stmt -> sstate -> outcome :=
  fix go (l : list stmt) (st : sstate) : outcome :=
    match l with
    | [] => Done st
    | s :: r =>
        match f s st with
        | Done st' => go r st'
        | Raised e st' => Raised e st'
        end
    end.

(** [cur] is the exception being handled, for the bare [raise].  A loop
    body runs an unknown number of times; the bodies of the notebooks'
    loops only print (see [loop_bodies]) and are passed over, as are
    function definitions and imports.  An assertion is counted; whether
    it holds is the solver's affair. *)
Fixpoint exec (cur : option exn) (s : stmt) (st : sstate) : outcome :=
  match s with
  | SAssign t v => assign t v st
  | SExpr (ECall (EAttr (EName "m.fs.surrogate") "build_model") (a :: _) _) =>
      Done (SState (vars st) (files st) (attached st ++ [obj_of st a]) (asserted st))
  | SAssert _ => Done (SState (vars st) (files st) (attached st) (S (asserted st)))
  | SIf c b e =>
      match branch_test c st with
      | Some true => run_stmts (exec cur) b st
      | Some false => run_stmts (exec cur) e st
      | None => Raised (name_error "if") st
      end
  | STry b cls x h =>
      match run_stmts (exec cur) b st with
      | Done st' => Done st'
      | Raised e st' =>
          if String.eqb (exn_class e) cls
          then run_stmts (exec (Some e)) h (bind_name x (PExc (exn_msg e)) st')
          else Raised e st'
      end
  | SRaise =>
      match cur with
      | Some e => Raised e st
      | None => Raised (Exn "RuntimeError" "No active exception to reraise") st
      end
  | _ => Done st
  end.

Definition run_surrogate (nb : notebook) (st : sstate) : outcome :=
  run_stmts (exec None) (top_stmts nb) st.
End Surrogate.

Definition fresh (d : directory) : sstate := SState (fun _ => None) d [] 0.

(** The file names passed to the method [m] anywhere in a notebook. *)
Definition file_args (m : string) (nb : notebook) : list string :=
  flat_map (fun e => match e with
                     | ECall (EAttr _ f) (EStr name :: _) _ =>
                         if String.eqb f m then [name] else []
                     | _ => []
                     end) (all_exprs nb).

Definition is_print (s : stmt) : bool :=
  match s with
  | SExpr (ECall (EName "print") _ _) => true
  | _ => false
  end.

Definition loop_bodies (nb : notebook) : list (list stmt) :=
  flat_map (fun s => match s with SFor _ _ b => [b] | _ => [] end) (all_stmts nb).

Definition finished (o : outcome) : option sstate :=
  match o with Done st => Some st | Raised _ _ => None end.

Definition outcome_exn (o : outcome) : option exn :=
  match o with Raised e _ => Some e | Done _ => None end.

(** The statements before and after the first [try] of a list. *)
Fixpoint split_at_try (l : list stmt) : option (list stmt * stmt * list stmt) :=
  match l with
  | [] => None
  | (STry _ _ _ _ as s) :: r => Some ([], s, r)
  | s :: r =>
      match split_at_try r with
      | Some (a, t, b) => Some (s :: a, t, b)
      | None => None
      end
  end.

(** The statement that guards the ALAMO notebook, and what comes before and
    after it. *)
Definition alamo_guard : stmt :=
  STry [SAssign (ETuple [EName "success"; EName "alm_surr"; EName "msg"])
                (meth (EName "trainer") "train_surrogate" [])]
       "FileNotFoundError" "err"
       [SIf (ECmp CIn (EStr "Could not find ALAMO") (call "str" [EName "err"]))
            [SExpr (call "print"
                         [EStr "ALAMO not found. You must install ALAMO to use this notebook"]);
             SAssign (EName "has_alamo") (EBool false)]
            [SRaise]].

Definition alamo_before : list stmt :=
  match split_at_try (top_stmts alamo_surrogate) with Some (a, _, _) => a | None => [] end.

Definition alamo_after : list stmt :=
  match split_at_try (top_stmts alamo_surrogate) with Some (_, _, b) => b | None => [] end.

(** ** Error-handling constructs *)

Inductive handling : Type :=
| HAssert                       (* assert ... *)
| HTry (exc : string)           (* try: ... except exc as ...: *)
| HRaise                        (* raise *)
| HBranch (test : expr).        (* if ...: *)

Definition handling_of (s : stmt) : list handling :=
  match s with
  | SAssert _ => [HAssert]
  | STry _ exc _ _ => [HTry exc]
  | SRaise => [HRaise]
  | SIf c _ _ => [HBranch c]
  | _ => []
  end.

Definition error_handling (nb : notebook) : list handling :=
  flat_map handling_of (all_stmts nb).

Definition is_assert (h : handling) : bool :=
  match h with HAssert => true | _ => false end.

(** As the specification has it: assertions are all there is. *)
Definition only_assertions (nb : notebook) : Prop :=
  forallb is_assert (error_handling nb) = true.

(** What an assertion compares. *)
Inductive check : Type :=
| KStatus          (* solver status against TerminationCondition / SolverStatus *)
| KTolerance       (* a number against a reference, within a tolerance *)
| KExact           (* a number against a literal, exactly *)
| KBound.          (* a variable against an upper bound *)

Definition is_number (e : expr) : bool :=
  match e with EInt _ | EFloat _ => true | _ => false end.

Definition check_of (a : expr) : option check :=
  match a with
  | ECmp CEq (EName _) (EName r) =>
      if String.prefix "TerminationCondition." r || String.prefix "SolverStatus." r
      then Some KStatus else None
  | ECmp CEq (EName _) (EInt _) => Some KExact
  | ECmp CEq _ (ECall (EAttr (EName "pytest") "approx") [c] [("abs", t)]) =>
      if is_number c && is_number t then Some KTolerance else None
  | ECmp (CLe | CLt) (ECall (EName "abs") _ _ | EBin ODiv (ECall (EName "abs") _ _) _) t =>
      if is_number t then Some KTolerance else None
  | ECall (EName "value") [ECmp CLe (EName _) _] [] => Some KBound
  | _ => None
  end.

(** ** The five steps of the overview *)



Definition among (f : string) (names : list string) : bool :=
  existsb (String.eqb f) names.






(** ** Functions and arithmetic written in the notebooks *)

Definition local_defs (nb : notebook) : list stmt :=
  List.filter (fun s => match s with SDef _ _ _ _ => true | _ => false end) (all_stmts nb).

Definition def_name (s : stmt) : string :=
  match s with SDef _ n _ _ => n | _ => EmptyString end.

Definition def_body (s : stmt) : list stmt :=
  match s with SDef _ _ _ b => b | _ => [] end.

(** Operators applied to a numeric literal. *)
Definition literal_ops (e : expr) : list binop :=
  flat_map (fun a => match a with
                     | EBin op l r => if is_number l || is_number r then [op] else []
                     | _ => []
                     end) (subexprs e).

Definition def_arithmetic (s : stmt) : list binop :=
  flat_map (fun b => flat_map literal_ops (own_exprs b)) (flat_map flat (def_body s)).

Definition single_return (s : stmt) : bool :=
  match def_body s with [SReturn _] => true | _ => false end.

Definition calls_itself (s : stmt) : bool :=
  existsb (fun b => existsb (calls (def_name s)) (stmt_exprs b)) (flat_map flat (def_body s)).

(** As the specification has it: no function of a notebook computes with
    numbers of its own. *)
Definition no_local_computation (nb : notebook) : Prop :=
  forallb (fun d => match def_arithmetic d with [] => true | _ => false end) (local_defs nb)
  = true.

(** ** What the assertions are about *)










(** ** What the ramp constraint demands, and the values given to [fix] *)

(** What [inlet_pressure_eqn] of the model [m] demands at time point [k]
    when the time variable holds [tau]. *)
Definition demanded (smin smax : Q -> Q -> Q) (init : pstate) (m : list Z * list stmt)
    (k : Z) (tau : Q) : option Q :=
  c_rule (run_pressure init m) ≫= fun rhs => rule_value smin smax rhs k tau.

(** [assert abs(y - pyo.value(x)) / y < tol]: the reference [y], the
    variable [x] and the tolerance. *)
Definition relative_check (a : expr) : option (string * expr * Q) :=
  match a with
  | ECmp CLt
      (EBin ODiv
         (ECall (EName "abs")
            [EBin OSub (EName y) (ECall (EAttr (EName "pyo") "value") [x] [])] [])
         (EName y'))
      (EFloat tol) => if String.eqb y y' then Some (y, x, tol) else None
  | _ => None
  end.

(** The number a statement [x.fix(v)] or [x[i].fix(v)] gives its variable. *)
Definition fixed_value (s : stmt) : option (var_id * Q) :=
  match s with
  | SExpr (ECall (EAttr target "fix") [a] []) =>
      match var_ref ∅ target, literal a with
      | Some r, Some q => Some (r, q)
      | _, _ => None
      end
  | _ => None
  end.

(** The numbers a notebook fixes, a later [fix] replacing an earlier one. *)
Definition fixed_values (nb : notebook) : gmap var_id Q :=
  foldl (fun m s => match fixed_value s with Some (r, q) => <[r := q]> m | None => m end)
        ∅ (all_stmts nb).

(** ** Showing the captured training output

    The surrogate notebooks collect what the trainer writes in a [StringIO],
    split it into lines ([celloutput]) and print the first and the last
    fifty of them. *)

(** A bound of a slice over a sequence of [n] elements: a negative bound
    counts from the end, and every bound is cut to [0 .. n]. *)
Definition slice_bound (n default : Z) (b : option Z) : Z :=
  match b with
  | None => default
  | Some i => if (i <? 0)%Z then Z.max 0 (i + n) else Z.min i n
  end.

(** [l[lo:hi]] as Python takes it. *)
Definition py_slice {A : Type} (l : list A) (lo hi : option Z) : list A :=
  let n := Z.of_nat (length l) in
  let a := slice_bound n 0 lo in
  let b := slice_bound n n hi in
  take (Z.to_nat (b - a)) (drop (Z.to_nat a) l).

Definition slice_index (e : option expr) : option (option Z) :=
  match e with
  | None => Some None
  | Some (EInt n) => Some (Some n)
  | Some _ => None
  end.

(** The lines a statement prints when [x] holds [lines]:
    [for v in x[lo:hi]: print(v)] or [print("text")]. *)
Definition shown (x : string) (lines : list string) (s : stmt) : option (list string) :=
  match s with
  | SFor v (ESub (EName y) [ESlice lo hi]) [SExpr (ECall (EName "print") [EName v'] [])] =>
      if String.eqb y x && String.eqb v v' then
        match slice_index lo, slice_index hi with
        | Some a, Some b => Some (py_slice lines a b)
        | _, _ => None
        end
      else None
  | SExpr (ECall (EName "print") [EStr t] []) => Some [t]
  | _ => None
  end.

Definition show_all (x : string) (lines : list string) (ss : list stmt) : option (list string) :=
  @List.concat string <$> mapM (shown x lines) ss.

(** The statements that follow the assignment to [x] in a block. *)
Fixpoint after_assign (x : string) (ss : list stmt) : option (list stmt) :=
  match ss with
  | [] => None
  | s :: r =>
      match s with
      | SAssign (EName y) _ => if String.eqb y x then Some r else after_assign x r
      | _ => after_assign x r
      end
  end.

(** The statement lists of a notebook: its cells and the bodies nested in
    them. *)
Fixpoint sub_blocks (s : stmt) : list (list stmt) :=
  match s with
  | SDef _ _ _ b | SFor _ _ b => b :: flat_map sub_blocks b
  | SIf _ b e => (b :: flat_map sub_blocks b) ++ (e :: flat_map sub_blocks e)
  | STry b _ _ h => (b :: flat_map sub_blocks b) ++ (h :: flat_map sub_blocks h)
  | _ => []
  end.

Definition stmt_blocks (nb : notebook) : list (list stmt) :=
  flat_map (fun c => source c :: flat_map sub_blocks (source c)) nb.

(** What follows [celloutput = stream.getvalue().split(...)] in its block. *)
Definition celloutput_display (nb : notebook) : list stmt :=
  default [] (head (omap (after_assign "celloutput") (stmt_blocks nb))).

Definition dots : list string := ["."; "."; "."].

(** ** Where printed text goes

    The surrogate notebooks point [sys.stdout] at a [StringIO] while the
    trainer runs and point it back afterwards.  The statements a run
    executes are followed with [exec]; text written by library calls is
    not. *)

(** The statements a run completes, in order.  [step] gives the state after
    each one; a statement that raises ends the list and is not part of it.
    Loops, function definitions and imports stand for themselves, as [exec]
    passes over them. *)
Definition trace_stmts (f : stmt -> sstate -> list stmt) (step : stmt -> sstate -> outcome)
    : list stmt -> sstate -> list stmt :=
  fix go (l : list stmt) (st : sstate) : list stmt :=
    match l with
    | [] => []
    | s :: r =>
        f s st ++ match step s st with
                  | Done st' => go r st'
                  | Raised _ _ => []
                  end
    end.

Section Executed.
Variable train : training.

Fixpoint executed (cur : option exn) (s : stmt) (st : sstate) : list stmt :=
  match s with
  | SIf c b e =>
      match branch_test c st with
      | Some true => trace_stmts (executed cur) (exec train cur) b st
      | Some false => trace_stmts (executed cur) (exec train cur) e st
      | None => []
      end
  | STry b cls x h =>
      trace_stmts (executed cur) (exec train cur) b st
      ++ match run_stmts (exec train cur) b st with
         | Done _ => []
         | Raised e st' =>
             if String.eqb (exn_class e) cls
             then trace_stmts (executed (Some e)) (exec train (Some e)) h
                              (bind_name x (PExc (exn_msg e)) st')
             else []
         end
  | _ => match exec train cur s st with Done _ => [s] | Raised _ _ => [] end
  end.

Definition executed_stmts (nb : notebook) (st : sstate) : list stmt :=
  trace_stmts (executed None) (exec train None) (top_stmts nb) st.
End Executed.

(** What [sys.stdout] can be: the console the notebook started with, or the
    [k]-th [StringIO()] the run created. *)
Inductive sink : Type :=
| Console
| Captured (k : nat).

Record ostate : Type := OState {
  bound : string -> option sink;       (* the names that hold a stream *)
  streams : nat;                       (* StringIO objects created so far *)
  printed : list (sink * stmt)         (* each printing statement, with where it wrote *)
}.

Definition rebind (x : string) (v : option sink) (o : ostate) : ostate :=
  OState (fun y => if String.eqb y x then v else bound o y) (streams o) (printed o).

(** A statement prints when it is a [print] call or a loop of them. *)
Definition prints (s : stmt) : bool :=
  match s with
  | SFor _ _ b => existsb is_print b
  | _ => is_print s
  end.

Definition out_step (o : ostate) (s : stmt) : ostate :=
  match s with
  | SAssign (EName x) (ECall (EName "StringIO") [] []) =>
      OState (bound (rebind x (Some (Captured (streams o))) o)) (S (streams o)) (printed o)
  | SAssign (EName x) (EName y) => rebind x (bound o y) o
  | SAssign t _ => foldl (fun o' x => rebind x None o') o (target_names t)
  | _ =>
      if prints s then
        match bound o "sys.stdout" with
        | Some k => OState (bound o) (streams o) (printed o ++ [(k, s)])
        | None => o
        end
      else o
  end.

Definition console : ostate :=
  OState (fun y => if String.eqb y "sys.stdout" then Some Console else None) 0 [].

(** The streams after a run of the notebook in the directory [d]. *)
Definition stdout_after (train : training) (nb : notebook) (d : directory) : ostate :=
  foldl out_step console (executed_stmts train nb (fresh d)).

Definition alamo_notice : stmt :=
  SExpr (call "print" [EStr "ALAMO not found. You must install ALAMO to use this notebook"]).

(** ** The input bounds handed to the surrogate

    [xmin, xmax = [0.1, 0.8], [0.8, 1.2]] and
    [input_bounds = {input_labels[i]: (xmin[i], xmax[i])
                     for i in range(len(input_labels))}],
    evaluated as Python does. *)

Inductive pv : Type :=
| VInt (n : Z)
| VFloat (q : Q)
| VText (s : string)
| VSeq (items : list pv)                  (* a list or a tuple *)
| VDict (entries : list (string * pv)).   (* string keys, in insertion order *)

Definition bindings : Type := string -> option pv.

Definition set_name (x : string) (v : pv) (b : bindings) : bindings :=
  fun y => if String.eqb y x then Some v else b y.

(** [l[k]]: a negative index counts from the end; out of range Python
    raises [IndexError]. *)
Definition item {A : Type} (l : list A) (k : Z) : option A :=
  if (0 <=? k)%Z then l !! Z.to_nat k
  else if (- Z.of_nat (length l) <=? k)%Z then l !! Z.to_nat (k + Z.of_nat (length l))
  else None.

(** [d[k] = v]: an existing key keeps its place and takes the new value. *)
Fixpoint dict_set (k : string) (v : pv) (d : list (string * pv)) : list (string * pv) :=
  match d with
  | [] => [(k, v)]
  | (k', v') :: r => if String.eqb k' k then (k, v) :: r else (k', v') :: dict_set k v r
  end.

Fixpoint pyeval (e : expr) (b : bindings) {struct e} : option pv :=
  match e with
  | EInt n => Some (VInt n)
  | EFloat q => Some (VFloat q)
  | EStr s => Some (VText s)
  | EName x => b x
  | EList es | ETuple es => VSeq <$> mapM (fun a => pyeval a b) es
  | ESub a [i] =>
      match pyeval a b, pyeval i b with
      | Some (VSeq l), Some (VInt k) => item l k
      | _, _ => None
      end
  | ECall (EName f) [a] [] =>
      match pyeval a b with
      | Some (VSeq l) =>
          if String.eqb f "len" then Some (VInt (Z.of_nat (length l)))
          else if String.eqb f "list" then Some (VSeq l)
          else None
      | Some (VInt n) =>
          if String.eqb f "range"
          then Some (VSeq (map (fun i => VInt (Z.of_nat i)) (seq 0 (Z.to_nat n))))
          else None
      | _ => None
      end
  | EDictComp k v x it =>
      match pyeval it b with
      | Some (VSeq items) =>
          VDict <$>
            foldl (fun acc i =>
                     match acc, pyeval k (set_name x i b), pyeval v (set_name x i b) with
                     | Some d, Some (VText key), Some val => Some (dict_set key val d)
                     | _, _, _ => None
                     end) (Some []) items
      | _ => None
      end
  | _ => None
  end.

(** [x = v] and [x1, ..., xn = v]; unpacking needs as many values as names. *)
Fixpoint unpack (ts : list expr) (vs : list pv) (b : bindings) : option bindings :=
  match ts, vs with
  | [], [] => Some b
  | EName x :: ts', v :: vs' => unpack ts' vs' (set_name x v b)
  | _, _ => None
  end.

Definition pyassign (s : stmt) (b : bindings) : option bindings :=
  match s with
  | SAssign (EName x) v => (fun val => set_name x val b) <$> pyeval v b
  | SAssign (ETuple ts) v =>
      match pyeval v b with
      | Some (VSeq vs) => unpack ts vs b
      | _ => None
      end
  | _ => None
  end.

Definition assigns_any (xs : list string) (s : stmt) : bool :=
  match s with
  | SAssign t _ => existsb (fun x => among x xs) (target_names t)
  | _ => false
  end.

(** The two statements that build [input_bounds]. *)
Definition bounds_code (nb : notebook) : list stmt :=
  List.filter (assigns_any ["xmin"; "xmax"; "input_bounds"]) (all_stmts nb).

(** [input_bounds] for the input labels [labels]. *)
Definition input_bounds_of (nb : notebook) (labels : list string) : option pv :=
  foldl (fun acc s => acc ≫= pyassign s)
        (Some (set_name "input_labels" (VSeq (map VText labels)) (fun _ => None)))
        (bounds_code nb)
  ≫= fun b => b "input_bounds".

(** The columns [input_data = data.iloc[:, lo:hi]] keeps of the columns
    [cols] of the data. *)
Definition input_columns (nb : notebook) (cols : list string) : option (list string) :=
  head (flat_map (fun s => match s with
                           | SAssign (EName x) (ESub (EName df) [ESlice None None; ESlice lo hi]) =>
                               if String.eqb x "input_data" && String.eqb df "data.iloc" then
                                 match slice_index lo, slice_index hi with
                                 | Some a, Some b => [py_slice cols a b]
                                 | _, _ => []
                                 end
                               else []
                           | _ => []
                           end) (all_stmts nb)).

(** The names in the list display assigned to [x], as in
    [inputs = [m.fs.bypass_frac, m.fs.ng_steam_ratio]]. *)
Definition listed (x : string) (nb : notebook) : list string :=
  flat_map (fun s => match s with
                     | SAssign (EName y) (EList xs) =>
                         if String.eqb y x
                         then flat_map (fun e => match e with EName v => [v] | _ => [] end) xs
                         else []
                     | _ => []
                     end) (all_stmts nb).

Definition input_vars (nb : notebook) : list string := listed "inputs" nb.

Definition output_vars (nb : notebook) : list string := listed "outputs" nb.

(** The variables a notebook declares with [Var(...)], and the [bounds=] a
    variable is declared with. *)
Definition declared_vars (nb : notebook) : list string :=
  flat_map (fun s => match s with
                     | SAssign (EName x) (ECall (EName f) _ _) =>
                         if String.eqb f "Var" then [x] else []
                     | _ => []
                     end) (all_stmts nb).

Definition var_bounds (nb : notebook) (x : string) : option pv :=
  head (flat_map (fun s => match s with
                           | SAssign (EName y) (ECall (EName f) _ _ as c) =>
                               if String.eqb f "Var" && String.eqb y x then
                                 match kwarg "bounds" c with
                                 | Some e => option_list (pyeval e (fun _ => None))
                                 | None => []
                                 end
                               else []
                           | _ => []
                           end) (all_stmts nb)).

(** The lists [build_model] is given as [input_vars] and [output_vars]. *)
Definition build_model_lists (nb : notebook) : list (option expr * option expr) :=
  flat_map (fun e => match e with
                     | ECall (EAttr _ f) _ _ =>
                         if String.eqb f "build_model"
                         then [(kwarg "input_vars" e, kwarg "output_vars" e)]
                         else []
                     | _ => []
                     end) (all_exprs nb).

(** ** Degrees of freedom when a solver is called *)

(** The component a statement hands to a solver: [x = opt.solve(c, ...)] or
    [c.initialize(...)]. *)
Definition solve_target (s : stmt) : option string :=
  match s with
  | SAssign _ (ECall (EAttr _ f) (EName c :: _) _) =>
      if String.eqb f "solve" then Some c else None
  | SExpr (ECall (EAttr (EName c) f) _ _) =>
      if String.eqb f "initialize" then Some c else None
  | _ => None
  end.

(** What each statement means for the count, and the component it hands to
    a solver, for the statements that do either. *)
Definition solver_steps (nb : notebook) : list (dof_action * option string) :=
  List.filter (fun p => counts (fst p) || bool_decide (is_Some (snd p)))
              (map (fun s => (dof_action_of s, solve_target s)) (top_stmts nb)).

Section PumpSolves.
Variables Pump Iapws95ParameterBlock : unit_model.

(** Run the steps, noting the degrees of freedom of every component handed
    to a solver at the time it is handed over. *)
Fixpoint dof_at_solves (steps : list (dof_action * option string)) (st : mstate)
    : option (list (string * Z)) :=
  match steps with
  | [] => Some []
  | (a, target) :: rest =>
      do_dof Pump Iapws95ParameterBlock a st ≫= fun st' =>
        (fun l => match target with
                  | Some c => (c, degrees_of_freedom c st) :: l
                  | None => l
                  end) <$> dof_at_solves rest st'
  end.
End PumpSolves.

(** ** The property configuration of the T-x-y notebook *)

(** The entry of a nested dict display under a path of string keys. *)
Fixpoint entry (path : list string) (e : expr) : option expr :=
  match path with
  | [] => Some e
  | k :: rest => dict_of e ≫= fun d => d !! k ≫= entry rest
  end.

Definition configuration (nb : notebook) : option expr :=
  head (flat_map (fun s => match s with
                           | SAssign (EName x) v =>
                               if String.eqb x "configuration" then [v] else []
                           | _ => []
                           end) (all_stmts nb)).

(** [state_bounds[x]] is (lower, nominal, upper, units). *)
Definition state_bound (nb : notebook) (x : string) : option (Q * Q * Q) :=
  (configuration nb ≫= entry ["state_bounds"; x]) ≫= fun e =>
    match e with
    | ETuple [a; b; c; _] =>
        match literal a, literal b, literal c with
        | Some l, Some n, Some u => Some (l, n, u)
        | _, _, _ => None
        end
    | _ => None
    end.

Definition components (nb : notebook) : gset string :=
  default ∅ (dom <$> ((configuration nb ≫= entry ["components"]) ≫= dict_of)).

(** [Txy_diagram(model, a, b, pressure, ..., temperature=t, ...)]: the two
    components, the pressure and the temperature to start from. *)
Definition txy_request (nb : notebook) : option (string * string * Q * Q) :=
  head (flat_map (fun e => match e with
                           | ECall (EName f) [_; EStr a; EStr b; p] _ =>
                               if String.eqb f "Txy_diagram" then
                                 match literal p, kwarg "temperature" e ≫= literal with
                                 | Some pv, Some tv => [(a, b, pv, tv)]
                                 | _, _ => []
                                 end
                               else []
                           | _ => []
                           end) (all_exprs nb)).

(** [pressure_ref] and [temperature_ref] are (value, units). *)
Definition reference (nb : notebook) (x : string) : option Q :=
  (configuration nb ≫= entry [x]) ≫= fun e =>
    match e with
    | ETuple [a; _] => literal a
    | _ => None
    end.

(** ** [datafile_path]

    [def datafile_path(name): return Path("..") / name], with [Path] and
    [/] as pathlib has them for POSIX paths: a path is absolute or not and
    has its components, empty components and "." being dropped when it is
    made; joining with an absolute path gives that path.  (The special
    meaning of a leading double slash is left out.) *)

Record path : Type := Path { absolute : bool; parts : list string }.

(** [s.split(c)] for a one-character separator. *)
Fixpoint split_on (c : ascii) (s : string) : list string :=
  match s with
  | EmptyString => [EmptyString]
  | String a r =>
      if Ascii.eqb a c then EmptyString :: split_on c r
      else match split_on c r with
           | [] => [String a EmptyString]
           | w :: ws => String a w :: ws
           end
  end.

Definition slash : ascii := "/"%char.

Definition to_path (s : string) : path :=
  Path (String.prefix "/" s)
       (List.filter (fun p => negb (String.eqb p EmptyString) && negb (String.eqb p "."))
                    (split_on slash s)).

Definition path_join (a b : path) : path :=
  if absolute b then b else Path (absolute a) (parts a ++ parts b).

(** The path an expression of the function's body denotes, the parameter
    [x] holding the string [arg]. *)
Fixpoint path_of (x arg : string) (e : expr) : option path :=
  match e with
  | EStr s => Some (to_path s)
  | EName y => if String.eqb y x then Some (to_path arg) else None
  | ECall (EName f) [a] [] => if String.eqb f "Path" then path_of x arg a else None
  | EBin ODiv a b =>
      match path_of x arg a, path_of x arg b with
      | Some p, Some q => Some (path_join p q)
      | _, _ => None
      end
  | _ => None
  end.

(** [f(arg)] for the function [f] a notebook defines with one parameter and
    a single [return]. *)
Definition call_path (nb : notebook) (f arg : string) : option path :=
  head (flat_map (fun d => match d with
                           | SDef _ g [x] [SReturn e] =>
                               if String.eqb g f then option_list (path_of x arg e) else []
                           | _ => []
                           end) (all_stmts nb)).

(** The literal file names a notebook passes to the function [f]. *)
Definition names_given (f : string) (nb : notebook) : list string :=
  flat_map (fun e => match e with
                     | ECall (EName g) [EStr s] [] => if String.eqb g f then [s] else []
                     | _ => []
                     end) (all_exprs nb).

(** A plain file name: not empty, not ".", no slash in it. *)
Definition plain_name (s : string) : bool :=
  negb (String.eqb s EmptyString) && negb (String.eqb s ".")
  && negb (existsb (Ascii.eqb slash) (list_ascii_of_string s)).

(** ** The captured text and its lines *)

(** The lines of the captured text, as the notebook takes them:
    [celloutput = stream.getvalue().split(sep)] with a one-character [sep];
    [text] is what [stream.getvalue()] returns. *)
Definition celloutput_value (nb : notebook) (text : string) : option (list string) :=
  head (flat_map (fun s => match s with
                           | SAssign (EName x)
                               (ECall (EAttr (ECall (EAttr (EName _) g) [] []) f)
                                      [EStr (String c EmptyString)] []) =>
                               if String.eqb x "celloutput" && String.eqb g "getvalue"
                                  && String.eqb f "split"
                               then [split_on c text]
                               else []
                           | _ => []
                           end) (all_stmts nb)).

(** What the cell prints for a captured text. *)
Definition display_text (nb : notebook) (text : string) : option (list string) :=
  celloutput_value nb text ≫= fun out => show_all "celloutput" out (celloutput_display nb).

Definition line_feed : ascii := Ascii.ascii_of_nat 10.

(** ** Trajectories are read at the final time *)

(** The time index of the variable a [get_vec] call is given: the first
    index of [x[k]], [x[k, j]] or [x[k].attr]. *)
Definition get_vec_time (e : expr) : list (option Z) :=
  match e with
  | ECall (EAttr _ f) [a] [] =>
      if String.eqb f "get_vec" then
        match a with
        | ESub _ (EInt k :: _) => [Some k]
        | EAttr (ESub _ (EInt k :: _)) _ => [Some k]
        | _ => [None]
        end
      else []
  | _ => []
  end.

Definition get_vec_times (ss : list stmt) : list (option Z) :=
  flat_map get_vec_time (flat_map stmt_exprs (flat_map flat ss)).

(** ** Binary64 numbers

    Python's floats are binary64 numbers: a literal is the double nearest to
    its decimal value, and an operation rounds its exact result to the
    nearest double, a tie going to the even significand.  A double is
    modelled by the rational it stands for.  Results beyond the largest
    double, [nan] and the sign of zero are left out. *)

(** The integer nearest to [y], a tie going to the even one. *)
Definition rne (y : Q) : Z :=
  let f := Qfloor y in
  match (y - inject_Z f ?= 1 # 2)%Q with
  | Lt => f
  | Gt => (f + 1)%Z
  | Eq => if Z.even f then f else (f + 1)%Z
  end.

(** For [0 < x], the [e] with [2 ^ e <= x < 2 ^ (e + 1)]. *)
Definition ilog2 (x : Q) : Z :=
  let e := (Z.log2 (Qnum x) - Z.log2 (Z.pos (Qden x)))%Z in
  if Qle_bool (2 ^ e) x then e else (e - 1)%Z.

(** Rounding of a positive rational to binary64: 53 significant bits, down
    to the exponent -1074 of the smallest subnormal number. *)
Definition fl_pos (x : Q) : Q :=
  let e := Z.max (ilog2 x - 52) (-1074) in
  (inject_Z (rne (x / 2 ^ e)) * 2 ^ e)%Q.

Definition fl (x : Q) : Q :=
  match (x ?= 0)%Q with
  | Gt => fl_pos x
  | Lt => (- fl_pos (- x))%Q
  | Eq => 0%Q
  end.

Section Eval64.
Variable locals : gmap string Z.
Variable vals : gmap var_id Q.

(** A float operation: the exact result, rounded. *)
Definition arith64 (op : binop) (a b : Q) : option Q := fl <$> arith op a b.

(** [eval] on floats.  A variable holds a double already; integer operands
    and [pytest.approx] are left to [eval]. *)
Fixpoint eval64 (e : expr) : option value :=
  match e with
  | EBool b => Some (VBool b)
  | EFloat q => Some (VNum (fl q))
  | EName _ | ESub _ _ => read locals vals e
  | EAttr r a => if String.eqb a "value" then read locals vals r else None
  | ECall (EName f) [a] [] =>
      if String.eqb f "value" then eval64 a
      else if String.eqb f "abs" then num1 Qabs (eval64 a)
      else None
  | EBin op a b =>
      match eval64 a, eval64 b with
      | Some (VNum x), Some (VNum y) => VNum <$> arith64 op x y
      | _, _ => None
      end
  | ECmp op a b =>
      match eval64 a, eval64 b with
      | Some (VNum x), Some (VNum y) => VBool <$> compare op x y
      | _, _ => None
      end
  | _ => None
  end.

Definition accepts64 (e : expr) : bool :=
  match eval64 e with Some (VBool true) => true | _ => false end.
End Eval64.

(** ** The steps of a run *)






(** The count of a unit on its own, nothing fixed. *)
Definition unit_dof (u : unit_model) : Z :=
  (Z.of_nat (size (um_vars u)) - Z.of_nat (um_eqs u))%Z.

(** * Properties *)

(** ** PETSc options *)

Lemma ts_options_ok_sound (c : expr) :
  ts_options_ok c = true ->
  exists d : gmap string expr,
    ts_options c = Some d /\ is_Some (d !! "--ts_type") /\ is_Some (d !! "--ts_dt")
    /\ d !! "--ts_save_trajectory" = Some (EInt 1).
Proof.
  unfold ts_options_ok. destruct (ts_options c) as [d|]; [|discriminate].
  intros H. apply andb_prop in H as [H Hsave]. apply andb_prop in H as [Htype Hdt].
  exists d. repeat split.
  - by apply bool_decide_eq_true in Htype.
  - by apply bool_decide_eq_true in Hdt.
  - destruct (d !! "--ts_save_trajectory") as [[]|]; try discriminate.
    destruct n as [|[]|]; try discriminate. reflexivity.
Qed.

(** C5: every call of [petsc.petsc_dae_by_time_element] in the notebooks (one
    in the Akzo Nobel notebook, three in the PID notebook) passes a
    [ts_options] dict that has the keys "--ts_type" and "--ts_dt" and maps
    "--ts_save_trajectory" to 1. *)
Theorem petsc_solves_save_trajectory :
  Forall (fun nb =>
            Forall (fun c => exists d : gmap string expr,
                        ts_options c = Some d
                        /\ is_Some (d !! "--ts_type") /\ is_Some (d !! "--ts_dt")
                        /\ d !! "--ts_save_trajectory" = Some (EInt 1))
                   (petsc_solves (snd nb)))
         notebooks
  /\ map (fun nb => length (petsc_solves (snd nb))) notebooks = [1; 3; 0; 0; 0; 0]%nat.
Proof.
  split; [|vm_compute; reflexivity].
  apply Forall_forall. intros nb Hnb. apply Forall_forall. intros c Hc.
  apply ts_options_ok_sound.
  assert (Hall : forallb (fun nb => forallb ts_options_ok (petsc_solves (snd nb))) notebooks
                 = true) by (vm_compute; reflexivity).
  rewrite forallb_forall in Hall. apply list_elem_of_In in Hnb, Hc.
  specialize (Hall nb Hnb). rewrite forallb_forall in Hall. by apply Hall.
Qed.

(** ** Tolerances of the embedded assertions *)

Lemma approx_eq_iff (actual expected tol : Q) :
  approx_eq actual expected tol = true <-> (Qabs (actual - expected) <= tol)%Q.
Proof. unfold approx_eq. apply Qle_bool_iff. Qed.

Lemma within_interval (x c tol : Q) :
  (Qabs (x - c) <= tol)%Q <-> (c - tol <= x <= c + tol)%Q.
Proof.
  rewrite Qabs_Qle_condition. split; intros [H1 H2]; split; lra.
Qed.

Section Tolerances.
Variables smin smax : Q -> Q -> Q.
Variable locals : gmap string Z.
Variable vals : gmap var_id Q.
Variable v : Q.

Lemma read_name (x : string) :
  read locals (<[(x, []) := v]> vals) (EName x) = Some (VNum v).
Proof. unfold read, var_ref. cbn. by rewrite lookup_insert_eq. Qed.

Lemma read_sub (x : string) (i : Z) :
  read locals (<[(x, [i]) := v]> vals) (ESub (EName x) [EInt i]) = Some (VNum v).
Proof. unfold read, var_ref. cbn. by rewrite lookup_insert_eq. Qed.

(** [assert x[i].value == pytest.approx(c, abs=tol)] for [x[i]] holding [v]. *)
Lemma accepts_approx (x : string) (i c : Z) (tol : Q) :
  accepts smin smax locals (<[(x, [i]) := v]> vals)
    (ECmp CEq (EAttr (ESub (EName x) [EInt i]) "value")
              (methk (EName "pytest") "approx" [EInt c] [("abs", EFloat tol)])) = true
  <-> (Qabs (v - inject_Z c) <= tol)%Q.
Proof.
  unfold accepts, methk. cbn [eval String.eqb Ascii.eqb Bool.eqb andb].
  rewrite read_sub.
  rewrite <- approx_eq_iff. by destruct (approx_eq _ _ _).
Qed.
End Tolerances.

(** ** Rounding to binary64 *)

Lemma pow2_pos (e : Z) : (0 < 2 ^ e)%Q.
Proof. apply Qpower_0_lt. reflexivity. Qed.

Lemma pow2_plus (a b : Z) : (2 ^ (a + b) == 2 ^ a * 2 ^ b)%Q.
Proof. apply Qpower_plus. discriminate. Qed.

Lemma pow2_int (k : Z) : (0 <= k)%Z -> (2 ^ k == inject_Z (2 ^ k))%Q.
Proof. intros H. symmetry. apply (Zpower_Qpower 2 k H). Qed.

Lemma pow2_le (a b : Z) : (a <= b)%Z -> (2 ^ a <= 2 ^ b)%Q.
Proof. intros H. apply Qpower_le_compat_l; [exact H | discriminate]. Qed.

Lemma pow2_lt_inv (a b : Z) : (2 ^ a < 2 ^ b)%Q -> (a < b)%Z.
Proof. intros H. apply (Qpower_lt_compat_l_inv 2); [exact H | reflexivity]. Qed.

Lemma inject_Z_pos (z : Z) : (0 < z)%Z -> (0 < inject_Z z)%Q.
Proof. intros H. change 0%Q with (inject_Z 0). rewrite <- Zlt_Qlt. exact H. Qed.

Lemma ilog2_spec (x : Q) :
  (0 < x)%Q -> (2 ^ ilog2 x <= x)%Q /\ (x < 2 ^ (ilog2 x + 1))%Q.
Proof.
  intros Hx. destruct x as [n d]. unfold ilog2. cbn [Qnum Qden].
  assert (Hn : (0 < n)%Z) by (unfold Qlt in Hx; cbn in Hx; lia).
  set (a := Z.log2 n). set (b := Z.log2 (Z.pos d)).
  assert (Ha : (2 ^ a <= n < 2 ^ (a + 1))%Z)
    by (subst a; rewrite Z.add_1_r; apply Z.log2_spec; exact Hn).
  assert (Hb : (2 ^ b <= Z.pos d < 2 ^ (b + 1))%Z)
    by (subst b; rewrite Z.add_1_r; apply Z.log2_spec; lia).
  assert (Ha0 : (0 <= a)%Z) by apply Z.log2_nonneg.
  assert (Hb0 : (0 <= b)%Z) by apply Z.log2_nonneg.
  assert (Hq : (n # d == inject_Z n / inject_Z (Z.pos d))%Q) by apply Qmake_Qdiv.
  assert (Hd : (0 < inject_Z (Z.pos d))%Q) by (apply inject_Z_pos; lia).
  assert (Hup : (n # d < 2 ^ (a - b + 1))%Q).
  { rewrite Hq. apply Qlt_shift_div_r; [exact Hd|].
    replace (a - b + 1)%Z with ((a + 1) + - b)%Z by lia.
    rewrite pow2_plus, Qpower_opp, (pow2_int (a + 1)), (pow2_int b) by lia.
    destruct Ha as [_ Ha], Hb as [Hb _].
    rewrite Zlt_Qlt in Ha. rewrite Zle_Qle in Hb.
    set (A := inject_Z (2 ^ (a + 1))) in *. set (B := inject_Z (2 ^ b)) in *.
    set (N := inject_Z n) in *. set (D := inject_Z (Z.pos d)) in *.
    assert (HB : (0 < B)%Q) by (subst B; apply inject_Z_pos, Z.pow_pos_nonneg; lia).
    assert (HA : (0 < A)%Q) by (subst A; apply inject_Z_pos, Z.pow_pos_nonneg; lia).
    assert (H1 : (A <= A * / B * D)%Q).
    { assert (H2 : (1 <= / B * D)%Q).
      { rewrite Qmult_comm. apply Qle_shift_div_l; [exact HB | lra]. }
      rewrite <- Qmult_assoc. rewrite <- (Qmult_1_r A) at 1.
      apply Qmult_le_l; [exact HA | exact H2]. }
    lra. }
  assert (Hlo : (2 ^ (a - b - 1) <= n # d)%Q).
  { rewrite Hq. apply Qle_shift_div_l; [exact Hd|].
    replace (a - b - 1)%Z with (a + - (b + 1))%Z by lia.
    rewrite pow2_plus, Qpower_opp, (pow2_int a), (pow2_int (b + 1)) by lia.
    destruct Ha as [Ha _], Hb as [_ Hb].
    rewrite Zle_Qle in Ha. rewrite Zlt_Qlt in Hb.
    set (A := inject_Z (2 ^ a)) in *. set (B := inject_Z (2 ^ (b + 1))) in *.
    set (N := inject_Z n) in *. set (D := inject_Z (Z.pos d)) in *.
    assert (HB : (0 < B)%Q) by (subst B; apply inject_Z_pos, Z.pow_pos_nonneg; lia).
    assert (HA : (0 < A)%Q) by (subst A; apply inject_Z_pos, Z.pow_pos_nonneg; lia).
    assert (H1 : (A * / B * D <= A)%Q).
    { assert (H2 : (/ B * D <= 1)%Q).
      { rewrite Qmult_comm. apply Qle_shift_div_r; [exact HB | lra]. }
      rewrite <- Qmult_assoc. rewrite <- (Qmult_1_r A) at 2.
      apply Qmult_le_l; [exact HA | exact H2]. }
    lra. }
  destruct (Qle_bool (2 ^ (a - b)) (n # d)) eqn:E.
  - apply Qle_bool_iff in E. split; assumption.
  - assert (E' : (n # d < 2 ^ (a - b))%Q).
    { apply Qnot_le_lt. intros H. apply Qle_bool_iff in H. congruence. }
    split; [exact Hlo|]. replace (a - b - 1 + 1)%Z with (a - b)%Z by lia. exact E'.
Qed.

Lemma ilog2_unique (x : Q) (k : Z) :
  (2 ^ k <= x)%Q -> (x < 2 ^ (k + 1))%Q -> ilog2 x = k.
Proof.
  intros Hlo Hhi.
  assert (Hx : (0 < x)%Q) by (eapply Qlt_le_trans; [apply (pow2_pos k) | exact Hlo]).
  destruct (ilog2_spec x Hx) as [Hl Hh].
  assert (H1 : (ilog2 x < k + 1)%Z)
    by (apply pow2_lt_inv; eapply Qle_lt_trans; [exact Hl | exact Hhi]).
  assert (H2 : (k < ilog2 x + 1)%Z)
    by (apply pow2_lt_inv; eapply Qle_lt_trans; [exact Hlo | exact Hh]).
  lia.
Qed.

Lemma floor_le_int (y : Q) (n : Z) : (y < inject_Z (n + 1))%Q -> (Qfloor y <= n)%Z.
Proof.
  intros H. assert (H1 : (inject_Z (Qfloor y) < inject_Z (n + 1))%Q)
    by (eapply Qle_lt_trans; [apply Qfloor_le | exact H]).
  rewrite <- Zlt_Qlt in H1. lia.
Qed.

Lemma floor_ge_int (y : Q) (n : Z) : (inject_Z n <= y)%Q -> (n <= Qfloor y)%Z.
Proof.
  intros H. assert (H1 : (inject_Z n < inject_Z (Qfloor y + 1))%Q)
    by (eapply Qle_lt_trans; [exact H | apply Qlt_floor]).
  rewrite <- Zlt_Qlt in H1. lia.
Qed.

Lemma rne_bounds (y : Q) : (Qfloor y <= rne y <= Qfloor y + 1)%Z.
Proof.
  unfold rne. destruct (y - inject_Z (Qfloor y) ?= 1 # 2)%Q; [destruct (Z.even _)| |]; lia.
Qed.

Lemma inject_Z_succ (n : Z) : (inject_Z (n + 1) == inject_Z n + 1)%Q.
Proof. rewrite inject_Z_plus. reflexivity. Qed.

Lemma rne_le (y : Q) (n : Z) : (y <= inject_Z n)%Q -> (rne y <= n)%Z.
Proof.
  intros H. pose proof (rne_bounds y) as Hb.
  assert (Hf : (Qfloor y <= n)%Z).
  { apply floor_le_int. rewrite inject_Z_succ. lra. }
  destruct (Z.eq_dec (Qfloor y) n) as [E|E]; [|lia].
  unfold rne. rewrite E.
  destruct (Qcompare_spec (y - inject_Z n) (1 # 2)) as [Hc|Hc|Hc]; [lra | lia | lra].
Qed.

Lemma rne_ge (y : Q) (n : Z) : (inject_Z n <= y)%Q -> (n <= rne y)%Z.
Proof.
  intros H. pose proof (rne_bounds y) as Hb. pose proof (floor_ge_int y n H). lia.
Qed.

(** At an odd [m], the tie [m + 1/2] goes up. *)
Lemma rne_le_odd (y : Q) (m : Z) :
  Z.odd m = true -> (rne y <= m)%Z <-> (y < inject_Z m + (1 # 2))%Q.
Proof.
  intros Hodd. pose proof (rne_bounds y) as Hb.
  pose proof (Qfloor_le y) as Hfl. pose proof (Qlt_floor y) as Hfu.
  rewrite inject_Z_succ in Hfu.
  split.
  - intros Hle. apply Qnot_le_lt. intros Hge.
    assert (Hf : (m <= Qfloor y)%Z) by (apply floor_ge_int; lra).
    assert (E : Qfloor y = m) by lia.
    unfold rne in Hle. rewrite E in Hle, Hfl, Hfu.
    destruct (Qcompare_spec (y - inject_Z m) (1 # 2)) as [Hc|Hc|Hc].
    + rewrite <- Z.negb_odd, Hodd in Hle. cbn in Hle. lia.
    + lra.
    + lia.
  - intros Hlt.
    assert (Hf : (Qfloor y <= m)%Z).
    { apply floor_le_int. rewrite inject_Z_succ. lra. }
    destruct (Z.eq_dec (Qfloor y) m) as [E|E]; [|lia].
    unfold rne. rewrite E.
    destruct (Qcompare_spec (y - inject_Z m) (1 # 2)) as [Hc|Hc|Hc]; [lra | lia | lra].
Qed.

Lemma div_pow2 (x : Q) (e : Z) : (x / 2 ^ e * 2 ^ e == x)%Q.
Proof.
  pose proof (pow2_pos e) as H. field. intros E. rewrite E in H. discriminate.
Qed.

Lemma pow2_split (k e : Z) : (2 ^ k == 2 ^ (k - e) * 2 ^ e)%Q.
Proof. rewrite <- pow2_plus. replace (k - e + e)%Z with k by lia. reflexivity. Qed.

Lemma scaled_le (x y : Q) (e : Z) : (x * 2 ^ e <= y * 2 ^ e)%Q <-> (x <= y)%Q.
Proof. apply Qmult_le_r, pow2_pos. Qed.

Lemma scaled_lt (x y : Q) (e : Z) : (x * 2 ^ e < y * 2 ^ e)%Q <-> (x < y)%Q.
Proof. apply Qmult_lt_r, pow2_pos. Qed.

Lemma fl_pos_le_pow2 (x : Q) (k : Z) :
  (x <= 2 ^ k)%Q -> (Z.max (ilog2 x - 52) (-1074) <= k)%Z -> (fl_pos x <= 2 ^ k)%Q.
Proof.
  intros Hx He. unfold fl_pos. cbv zeta. set (e := Z.max (ilog2 x - 52) (-1074)) in *.
  rewrite (pow2_split k e). apply (proj2 (scaled_le _ _ e)).
  rewrite (pow2_int (k - e)) by lia. rewrite <- Zle_Qle. apply rne_le.
  rewrite <- (pow2_int (k - e)) by lia. apply (proj1 (scaled_le _ _ e)).
  rewrite div_pow2, <- pow2_split. exact Hx.
Qed.

Lemma fl_pos_ge_pow2 (x : Q) (k : Z) :
  (2 ^ k <= x)%Q -> (Z.max (ilog2 x - 52) (-1074) <= k)%Z -> (2 ^ k <= fl_pos x)%Q.
Proof.
  intros Hx He. unfold fl_pos. cbv zeta. set (e := Z.max (ilog2 x - 52) (-1074)) in *.
  rewrite (pow2_split k e). apply (proj2 (scaled_le _ _ e)).
  rewrite (pow2_int (k - e)) by lia. rewrite <- Zle_Qle. apply rne_ge.
  rewrite <- (pow2_int (k - e)) by lia. apply (proj1 (scaled_le _ _ e)).
  rewrite div_pow2, <- pow2_split. exact Hx.
Qed.

Lemma fl_pos_nonneg (x : Q) : (0 < x)%Q -> (0 <= fl_pos x)%Q.
Proof.
  intros Hx. unfold fl_pos. cbv zeta. set (e := Z.max (ilog2 x - 52) (-1074)).
  apply Qmult_le_0_compat; [|apply Qlt_le_weak, pow2_pos].
  change 0%Q with (inject_Z 0). rewrite <- Zle_Qle. apply rne_ge.
  cbn. apply Qlt_le_weak. apply Qlt_shift_div_l; [apply pow2_pos | rewrite Qmult_0_l; exact Hx].
Qed.

(** A positive [x] rounds to at most the double [m * 2 ^ (k - 52)] of odd
    significand [m] exactly when it lies below the midpoint between that
    double and the next one. *)
Lemma fl_pos_le_odd (k m : Z) (x : Q) :
  (0 < x)%Q -> (-1022 <= k)%Z -> (2 ^ 52 <= m < 2 ^ 53)%Z -> Z.odd m = true ->
  (fl_pos x <= inject_Z m * 2 ^ (k - 52))%Q
  <-> (x < (inject_Z m + (1 # 2)) * 2 ^ (k - 52))%Q.
Proof.
  intros Hx Hk Hm Hodd.
  destruct (ilog2_spec x Hx) as [Hl Hh]. set (i := ilog2 x) in *.
  assert (Hm1 : (inject_Z (2 ^ 52) <= inject_Z m)%Q) by (rewrite <- Zle_Qle; lia).
  assert (Hm2 : (inject_Z m <= inject_Z (2 ^ 53 - 1))%Q) by (rewrite <- Zle_Qle; lia).
  assert (Hp : (0 < 2 ^ (k - 52))%Q) by apply pow2_pos.
  assert (Ht : (2 ^ k <= inject_Z m * 2 ^ (k - 52))%Q).
  { rewrite (pow2_split k (k - 52)). replace (k - (k - 52))%Z with 52%Z by lia.
    apply (proj2 (scaled_le _ _ (k - 52))). exact Hm1. }
  assert (HT : ((inject_Z m + (1 # 2)) * 2 ^ (k - 52) <= 2 ^ (k + 1))%Q).
  { rewrite (pow2_split (k + 1) (k - 52)). replace (k + 1 - (k - 52))%Z with 53%Z by lia.
    apply (proj2 (scaled_le _ _ (k - 52))).
    apply Qle_trans with (inject_Z (2 ^ 53 - 1) + (1 # 2))%Q; [lra | vm_compute; discriminate]. }
  assert (HtT : (inject_Z m * 2 ^ (k - 52) < (inject_Z m + (1 # 2)) * 2 ^ (k - 52))%Q).
  { apply (proj2 (scaled_lt _ _ (k - 52))). lra. }
  destruct (Z.lt_trichotomy i k) as [Hi | [Hi | Hi]].
  - assert (Hxk : (x <= 2 ^ k)%Q).
    { apply Qlt_le_weak. eapply Qlt_le_trans; [exact Hh | apply pow2_le; lia]. }
    split; intros _.
    + eapply Qle_lt_trans; [exact Hxk|]. eapply Qle_lt_trans; [exact Ht | exact HtT].
    + eapply Qle_trans; [|exact Ht]. apply fl_pos_le_pow2; [exact Hxk | fold i; lia].
  - unfold fl_pos. cbv zeta. fold i. rewrite Hi.
    replace (Z.max (k - 52) (-1074)) with (k - 52)%Z by lia.
    rewrite scaled_le, <- Zle_Qle, (rne_le_odd _ m Hodd).
    rewrite <- (scaled_lt _ _ (k - 52)), div_pow2. reflexivity.
  - assert (Hxk : (2 ^ (k + 1) <= x)%Q).
    { eapply Qle_trans; [|exact Hl]. apply pow2_le. lia. }
    assert (Hf : (2 ^ (k + 1) <= fl_pos x)%Q).
    { eapply Qle_trans; [apply (pow2_le (k + 1) i); lia|].
      apply fl_pos_ge_pow2; [exact Hl | fold i; lia]. }
    split; intros H; exfalso.
    + assert (H' : (fl_pos x < 2 ^ (k + 1))%Q).
      { eapply Qle_lt_trans; [exact H|]. eapply Qlt_le_trans; [exact HtT | exact HT]. }
      apply (Qlt_not_le _ _ H'). exact Hf.
    + assert (H' : (x < 2 ^ (k + 1))%Q) by (eapply Qlt_le_trans; [exact H | exact HT]).
      apply (Qlt_not_le _ _ H'). exact Hxk.
Qed.

(** The same for the magnitude of the rounding of any [d]. *)
Lemma fl_abs_le_odd (k m : Z) (d : Q) :
  (-1022 <= k)%Z -> (2 ^ 52 <= m < 2 ^ 53)%Z -> Z.odd m = true ->
  (Qabs (fl d) <= inject_Z m * 2 ^ (k - 52))%Q
  <-> (Qabs d < (inject_Z m + (1 # 2)) * 2 ^ (k - 52))%Q.
Proof.
  intros Hk Hm Hodd. unfold fl.
  assert (Hp : (0 < 2 ^ (k - 52))%Q) by apply pow2_pos.
  assert (Hm1 : (0 < inject_Z m)%Q) by (apply inject_Z_pos; lia).
  destruct (Qcompare_spec d 0) as [Hc|Hc|Hc].
  - rewrite Hc. cbn [Qabs Z.abs Qnum Qden]. split; intros _.
    + apply Qmult_lt_0_compat; [lra | exact Hp].
    + apply Qmult_le_0_compat; [lra | lra].
  - rewrite Qabs_opp. rewrite (Qabs_pos (fl_pos (- d))) by (apply fl_pos_nonneg; lra).
    rewrite (Qabs_neg d) by lra. apply fl_pos_le_odd; [lra | assumption..].
  - rewrite (Qabs_pos (fl_pos d)) by (apply fl_pos_nonneg; lra).
    rewrite (Qabs_pos d) by lra. apply fl_pos_le_odd; assumption.
Qed.

(** Doubles known from elsewhere: 0.1, 1/3, the sum 0.1 + 0.2 (which is not
    the double nearest 0.3), a number that is a double already, and the two
    ties at the bottom of the range, which go to the even multiple of
    [2 ^ -1074]. *)
Lemma fl_known_values :
  (fl 0.1 == 3602879701896397 # 2 ^ 55)%Q
  /\ (fl (1 # 3) == 6004799503160661 # 2 ^ 54)%Q
  /\ (fl (fl 0.1 + fl 0.2) == 5404319552844596 # 2 ^ 54)%Q
  /\ (fl 0.3 == 5404319552844595 # 2 ^ 54)%Q
  /\ (fl 201325 == 201325)%Q
  /\ (fl (2 ^ (-1075)) == 0)%Q
  /\ (fl (3 * 2 ^ (-1075)) == 2 ^ (-1073))%Q.
Proof. repeat split; vm_compute; reflexivity. Qed.

Section Tolerances64.
Variable locals : gmap string Z.
Variable vals : gmap var_id Q.
Variable v : Q.

(** [assert abs(value(x) - c) <= tol] for a variable [x] holding [v]. *)
Lemma accepts64_abs_le (x : string) (c tol : Q) :
  accepts64 locals (<[(x, []) := v]> vals)
    (ECmp CLe (call "abs" [EBin OSub (call "value" [EName x]) (EFloat c)]) (EFloat tol))
  = Qle_bool (Qabs (fl (v - fl c))) (fl tol).
Proof.
  unfold accepts64, call. cbn [eval64 String.eqb Ascii.eqb Bool.eqb].
  rewrite read_name.
  cbn [num1 arith64 arith compare fmap option_fmap option_map].
  by destruct (Qle_bool _ _).
Qed.

(** [assert value(x <= a + b)] for a variable [x] holding [v]. *)
Lemma accepts64_bound (x : string) (a b : Q) :
  accepts64 locals (<[(x, []) := v]> vals)
    (call "value" [ECmp CLe (EName x) (EBin OAdd (EFloat a) (EFloat b))])
  = Qle_bool v (fl (fl a + fl b)).
Proof.
  unfold accepts64, call. cbn [eval64 String.eqb Ascii.eqb Bool.eqb].
  rewrite read_name.
  cbn [arith64 arith compare fmap option_fmap option_map].
  by destruct (Qle_bool _ _).
Qed.
End Tolerances64.

(** The double nearest 0.01 as a bound on a rounded difference [d]. *)
Lemma tolerance_in_floats (d : Q) :
  Qle_bool (Qabs (fl d)) (fl 0.01) = true
  <-> (Qabs d < 11529215046068471 # 1152921504606846976)%Q.
Proof.
  rewrite Qle_bool_iff.
  assert (E1 : (fl 0.01 == inject_Z 5764607523034235 * 2 ^ (-7 - 52))%Q)
    by (vm_compute; reflexivity).
  assert (E2 : (11529215046068471 # 1152921504606846976
                == (inject_Z 5764607523034235 + (1 # 2)) * 2 ^ (-7 - 52))%Q)
    by (vm_compute; reflexivity).
  rewrite E2, E1.
  apply fl_abs_le_odd; [lia | lia | reflexivity].
Qed.

(** The assertion on the hydrogen fraction, for any value [v] of the
    variable. *)
Lemma h2_accepts (v : Q) :
  Qle_bool (Qabs (fl (v - fl 0.33))) (fl 0.01) = true
  <-> (Qabs (v - fl 0.33) < fl 0.01 + (1 # 2 ^ 60))%Q.
Proof.
  rewrite tolerance_in_floats.
  assert (E : (fl 0.01 + (1 # 2 ^ 60) == 11529215046068471 # 1152921504606846976)%Q)
    by (vm_compute; reflexivity).
  rewrite E. reflexivity.
Qed.

(** [pytest.approx] compares in floats, [abs(expected - actual) <= abs].  For
    201325 and 1e-2 the verdict is that of [approx_eq] on every multiple of
    [2 ^ -35], which the doubles from [2 ^ 17] up are, and on every number
    below [2 ^ 17]. *)
Lemma pump_tolerance_in_floats :
  (forall j : Z,
      Qle_bool (Qabs (fl (201325 - (j # 2 ^ 35)))) (fl 1e-2)
      = approx_eq (j # 2 ^ 35) 201325 1e-2)
  /\ (forall v : Q,
         (v < 131072)%Q ->
         Qle_bool (Qabs (fl (201325 - v))) (fl 1e-2) = false
         /\ approx_eq v 201325 1e-2 = false).
Proof.
  change 1e-2%Q with 0.01%Q. split.
  - intros j. apply eq_true_iff_eq.
    rewrite tolerance_in_floats, approx_eq_iff.
    change (2 ^ 35)%positive with 34359738368%positive.
    unfold Qlt, Qle, Qabs, Qminus, Qplus, Qopp. cbn [Qnum Qden].
    lia.
  - intros v Hv. split.
    + apply not_true_iff_false. rewrite tolerance_in_floats.
      intros H. apply Qabs_Qlt_condition in H. lra.
    + apply not_true_iff_false. rewrite approx_eq_iff.
      intros H. apply Qabs_Qle_condition in H. lra.
Qed.

Lemma h2_assertions :
  asserts_on "m.fs.H2" pysmo_surrogate ++ asserts_on "m.fs.H2" alamo_surrogate
  = [ECmp CLe (call "abs" [EBin OSub (call "value" [EName "m.fs.H2"]) (EFloat 0.33)])
              (EFloat 0.01);
     ECmp CLe (call "abs" [EBin OSub (call "value" [EName "m.fs.H2"]) (EFloat 0.33)])
              (EFloat 0.01)].
Proof. vm_compute. reflexivity. Qed.

(** C1, counterexample: the double nearest 0.32 is within 0.01 of 0.33, and
    the assertion of either surrogate notebook rejects it: the difference
    from the double nearest 0.33 rounds to a double above the one nearest
    0.01. *)
Lemma h2_assertion_rejects_a_value_in_range :
  (fl 0.32 == 5764607523034235 # 18014398509481984)%Q
  /\ (Qabs (fl 0.32 - 0.33) <= 0.01)%Q
  /\ Forall (fun a => accepts64 ∅ (<[("m.fs.H2", []) := fl 0.32]> ∅) a = false)
            (asserts_on "m.fs.H2" pysmo_surrogate ++ asserts_on "m.fs.H2" alamo_surrogate)
  /\ (fl (fl 0.32 - fl 0.33) == - (5764607523034240 # 576460752303423488))%Q
  /\ (fl 0.01 == 5764607523034235 # 576460752303423488)%Q.
Proof.
  split; [vm_compute; reflexivity|].
  split; [apply Qle_bool_iff; vm_compute; reflexivity|].
  split; [|split; vm_compute; reflexivity].
  rewrite h2_assertions.
  repeat constructor; rewrite accepts64_abs_le; vm_compute; reflexivity.
Qed.

(** C1: with the solved value [v] in place, the post-optimisation assertion
    of each surrogate notebook, evaluated in floats, passes exactly when [v]
    is closer to the double nearest 0.33 than the double nearest 0.01 plus
    [2 ^ -60], half the gap to the next double: it passes when [v] is within
    [0.01 - 2e-17] of 0.33 and fails when [v] is farther than [0.01 + 2e-17]
    from it.  The Case 1 assertion of the pump notebook on the outlet
    pressure passes exactly when [v] is within 1e-2 of 201325, in exact
    numbers; on a double, floats give the same verdict (see
    [pump_tolerance_in_floats]).  Each notebook has one such assertion. *)
Theorem assertion_tolerances (smin smax : Q -> Q -> Q) (locals : gmap string Z)
    (vals : gmap var_id Q) (v : Q) :
  (Forall (fun a =>
             (accepts64 locals (<[("m.fs.H2", []) := v]> vals) a = true
              <-> (Qabs (v - fl 0.33) < fl 0.01 + (1 # 2 ^ 60))%Q)
             /\ ((Qabs (v - 0.33) <= 0.01 - 2e-17)%Q
                 -> accepts64 locals (<[("m.fs.H2", []) := v]> vals) a = true)
             /\ (accepts64 locals (<[("m.fs.H2", []) := v]> vals) a = true
                 -> (Qabs (v - 0.33) <= 0.01 + 2e-17)%Q))
          (asserts_on "m.fs.H2" pysmo_surrogate ++ asserts_on "m.fs.H2" alamo_surrogate)
   /\ length (asserts_on "m.fs.H2" pysmo_surrogate) = 1%nat
   /\ length (asserts_on "m.fs.H2" alamo_surrogate) = 1%nat
   /\ (fl 0.33 == 5944751508129055 # 2 ^ 54)%Q
   /\ (fl 0.01 == 5764607523034235 # 2 ^ 59)%Q)
  /\ (Forall (fun a => accepts smin smax locals
                         (<[("m.fs.pump_case_1.outlet.pressure", [0%Z]) := v]> vals) a = true
                       <-> (Qabs (v - 201325) <= 1e-2)%Q)
             (asserts_on "m.fs.pump_case_1.outlet.pressure" pump)
      /\ length (asserts_on "m.fs.pump_case_1.outlet.pressure" pump) = 1%nat).
Proof.
  assert (Hp : asserts_on "m.fs.pump_case_1.outlet.pressure" pump
               = [ECmp CEq (EAttr (ESub (EName "m.fs.pump_case_1.outlet.pressure") [EInt 0])
                                  "value")
                           (methk (EName "pytest") "approx" [EInt 201325]
                                  [("abs", EFloat 1e-2)])]) by (vm_compute; reflexivity).
  assert (E33 : (fl 0.33 == 5944751508129055 # 2 ^ 54)%Q) by (vm_compute; reflexivity).
  assert (E01 : (fl 0.01 == 5764607523034235 # 2 ^ 59)%Q) by (vm_compute; reflexivity).
  assert (Hiff : forall a,
             a = ECmp CLe (call "abs" [EBin OSub (call "value" [EName "m.fs.H2"]) (EFloat 0.33)])
                          (EFloat 0.01) ->
             accepts64 locals (<[("m.fs.H2", []) := v]> vals) a = true
             <-> (Qabs (v - fl 0.33) < fl 0.01 + (1 # 2 ^ 60))%Q).
  { intros a ->. rewrite accepts64_abs_le. apply h2_accepts. }
  assert (Hall : forall a,
             a = ECmp CLe (call "abs" [EBin OSub (call "value" [EName "m.fs.H2"]) (EFloat 0.33)])
                          (EFloat 0.01) ->
             (accepts64 locals (<[("m.fs.H2", []) := v]> vals) a = true
              <-> (Qabs (v - fl 0.33) < fl 0.01 + (1 # 2 ^ 60))%Q)
             /\ ((Qabs (v - 0.33) <= 0.01 - 2e-17)%Q
                 -> accepts64 locals (<[("m.fs.H2", []) := v]> vals) a = true)
             /\ (accepts64 locals (<[("m.fs.H2", []) := v]> vals) a = true
                 -> (Qabs (v - 0.33) <= 0.01 + 2e-17)%Q)).
  { intros a Ha. specialize (Hiff a Ha). split; [exact Hiff|].
    assert (Elo : (0.01 - 2e-17 == 999999999999998 # 100000000000000000)%Q)
      by (vm_compute; reflexivity).
    assert (Ehi : (0.01 + 2e-17 == 1000000000000002 # 100000000000000000)%Q)
      by (vm_compute; reflexivity).
    assert (Ec : (fl 0.33 == 5944751508129055 # 18014398509481984)%Q)
      by (vm_compute; reflexivity).
    assert (Er : (fl 0.01 + (1 # 2 ^ 60) == 11529215046068471 # 1152921504606846976)%Q)
      by (vm_compute; reflexivity).
    rewrite Elo, Ehi. rewrite Hiff. rewrite Ec, Er.
    rewrite Qabs_Qlt_condition, !Qabs_Qle_condition.
    split; intros H; split; lra. }
  rewrite h2_assertions, Hp.
  split; [split; [|repeat split; solve [vm_compute; reflexivity | assumption]]
         | split; [|reflexivity]].
  - constructor; [by apply Hall | constructor; [by apply Hall | constructor]].
  - constructor; [apply accepts_approx | constructor].
Qed.

(** ** Checking a property on every notebook by computation *)

Lemma forallb_Forall {A : Type} (p : A -> bool) (l : list A) :
  forallb p l = true -> Forall (fun a => p a = true) l.
Proof.
  intros H. rewrite forallb_forall in H. apply Forall_forall.
  intros a Ha. apply H. by apply list_elem_of_In.
Qed.

Lemma forallb_Forall2 {A B : Type} (f : A -> list B) (p : B -> bool) (l : list A) :
  forallb (fun a => forallb p (f a)) l = true ->
  Forall (fun a => Forall (fun b => p b = true) (f a)) l.
Proof.
  intros H. apply forallb_Forall in H.
  eapply Forall_impl; [exact H|]. intros a Ha. by apply forallb_Forall.
Qed.


(** ** The inlet-pressure ramp *)

Lemma clamp_min_max (lo hi x : Q) :
  (lo <= hi)%Q -> (Qmin hi (Qmax lo x) == clamp lo hi x)%Q.
Proof.
  intros Hle. unfold clamp.
  destruct (Qlt_le_dec x lo) as [Hlo|Hlo]; [|destruct (Qlt_le_dec hi x) as [Hhi|Hhi]].
  - rewrite (Q.max_l lo x) by lra. by apply Q.min_r.
  - rewrite (Q.max_r lo x) by lra. apply Q.min_l. lra.
  - rewrite (Q.max_r lo x) by lra. by apply Q.min_r.
Qed.

Lemma time_var_value (k : Z) (tau : Q) :
  read {["t" := k]} {[("b.time_var", [k]) := tau]}
       (ESub (EName "b.time_var") [EName "t"]) = Some (VNum tau).
Proof.
  unfold read, var_ref. cbn [mapM index_value].
  rewrite lookup_singleton_eq. cbn. by rewrite lookup_singleton_eq.
Qed.

Lemma inlet_pressure_eqn_linear_value (smin smax : Q -> Q -> Q) (k : Z) (tau : Q) :
  rule_value smin smax inlet_pressure_eqn_linear k tau = Some (ramp tau).
Proof.
  unfold rule_value, inlet_pressure_eqn_linear. cbn [eval]. rewrite time_var_value. reflexivity.
Qed.

Lemma inlet_pressure_eqn_smooth_value (smin smax : Q -> Q -> Q) (k : Z) (tau : Q) :
  rule_value smin smax inlet_pressure_eqn_smooth k tau = Some (smin 600000 (smax 500000 (ramp tau)))%Q.
Proof.
  unfold rule_value, inlet_pressure_eqn_smooth, inlet_pressure_eqn_linear, call. cbn [eval String.eqb Ascii.eqb Bool.eqb].
  rewrite time_var_value. reflexivity.
Qed.

(** What the cells leave of the inlet pressure, whatever [create_model] set. *)
Lemma single_element_state (init : pstate) :
  run_pressure init single_element
  = PState (p_val init) ((p_fixed init ∖ {[0%Z]}) ∖ {[24%Z]}) (Some inlet_pressure_eqn_smooth)
           (list_to_set [0%Z; 24%Z]).
Proof. reflexivity. Qed.

Lemma three_element_state (init : pstate) :
  run_pressure init three_element
  = PState (<[24%Z := 600000%Q]> (<[12%Z := 600000%Q]> (<[10%Z := 500000%Q]>
              (<[0%Z := 500000%Q]> (p_val init)))))
           ({[24%Z]} ∪ (({[10%Z]} ∪ ({[0%Z]} ∪ p_fixed init)) ∖ {[12%Z]}))
           (Some inlet_pressure_eqn_linear)
           ({[12%Z]} ∪ ∅).
Proof. reflexivity. Qed.

(** C8: with exact [min] and [max] for [smooth_min] and [smooth_max], the
    right-hand side of [inlet_pressure_eqn] in the single-element ramp model
    is, at every time [tau], the clamp of [50000 * (tau - 10) + 500000] to
    [[500000, 600000]]: 500000 up to 10 s, linear from 10 s to 12 s, 600000
    from 12 s on. *)
Theorem smooth_ramp_is_clamp (init : pstate) (k : Z) (tau : Q) :
  exists (rhs : expr) (p : Q),
    c_rule (run_pressure init single_element) = Some rhs
    /\ rule_value Qmin Qmax rhs k tau = Some p
    /\ (p == clamp 500000 600000 (50000 * (tau - 10) + 500000))%Q
    /\ ((tau <= 10)%Q -> (p == 500000)%Q)
    /\ ((10 <= tau <= 12)%Q -> (p == 50000 * (tau - 10) + 500000)%Q)
    /\ ((12 <= tau)%Q -> (p == 600000)%Q).
Proof.
  exists inlet_pressure_eqn_smooth, (Qmin 600000 (Qmax 500000 (ramp tau))).
  rewrite single_element_state. split; [reflexivity|]. split; [apply inlet_pressure_eqn_smooth_value|].
  assert (Hc : (Qmin 600000 (Qmax 500000 (ramp tau)) == clamp 500000 600000 (ramp tau))%Q)
    by (apply clamp_min_max; lra).
  split; [exact Hc|]. rewrite Hc. unfold clamp, ramp.
  destruct (Qlt_le_dec _ _) as [Hlo|Hlo]; [|destruct (Qlt_le_dec _ _) as [Hhi|Hhi]];
    repeat split; intros; lra.
Qed.

Lemma prescribed_single (smin smax : Q -> Q -> Q) (init : pstate) (k : Z) (tau : Q) :
  k = 0%Z \/ k = 24%Z ->
  prescribed smin smax (run_pressure init single_element) k tau
  = Some (smin 600000 (smax 500000 (ramp tau)))%Q.
Proof.
  intros Hk. rewrite single_element_state. unfold prescribed. cbn [p_fixed c_active c_rule].
  rewrite bool_decide_eq_false_2 by (destruct Hk; subst; set_solver).
  rewrite bool_decide_eq_true_2 by (destruct Hk; subst; set_solver).
  apply inlet_pressure_eqn_smooth_value.
Qed.

Lemma prescribed_three_fixed (smin smax : Q -> Q -> Q) (init : pstate) (k : Z) (tau : Q) :
  prescribed smin smax (run_pressure init three_element) k tau
  = if bool_decide (k = 12%Z) then Some (ramp tau)
    else if bool_decide (k = 24%Z) then Some 600000%Q
    else if bool_decide (k = 10%Z) then Some 500000%Q
    else if bool_decide (k = 0%Z) then Some 500000%Q
    else if bool_decide (k ∈ p_fixed init) then p_val init !! k
    else None.
Proof.
  rewrite three_element_state. unfold prescribed. cbn [p_fixed c_active c_rule p_val].
  repeat case_bool_decide; subst; simplify_map_eq; try set_solver.
  all: try apply inlet_pressure_eqn_linear_value.
Qed.

Lemma Qle_bool_false (x y : Q) : Qle_bool x y = false -> (y < x)%Q.
Proof.
  intros H. apply Qnot_le_lt. intros Hle. apply Qle_bool_iff in Hle. congruence.
Qed.

(** C9: the single-element model and the three-element model prescribe the
    same inlet pressure (exact [min] and [max] standing for the smooth ones):
    at the time points they share, 0 and 24, where the time variable holds
    the time point itself; at every time point of the three-element model;
    and all along the integration from 0 s to 24 s, where both follow the
    ramp from 500000 Pa at 10 s to 600000 Pa at 12 s.  In the three-element
    model the pressure is fixed at 0, 10 and 24 and the constraint is active
    at 12 only. *)
Theorem ramp_models_agree (init1 init3 : pstate) :
  shared_times = [0%Z; 24%Z]
  /\ Forall (fun k => exists p1 p3 : Q,
                 prescribed Qmin Qmax (run_pressure init1 single_element) k (inject_Z k)
                 = Some p1
                 /\ prescribed Qmin Qmax (run_pressure init3 three_element) k (inject_Z k)
                    = Some p3
                 /\ (p1 == p3)%Q)
            shared_times
  /\ Forall (fun k => exists p3 : Q,
                 prescribed Qmin Qmax (run_pressure init3 three_element) k (inject_Z k)
                 = Some p3
                 /\ (p3 == clamp 500000 600000 (50000 * (inject_Z k - 10) + 500000))%Q)
            (fst three_element)
  /\ (forall tau : Q, (0 <= tau <= 24)%Q ->
        exists p1 p3 : Q,
          inlet_pressure Qmin Qmax init1 single_element tau = Some p1
          /\ inlet_pressure Qmin Qmax init3 three_element tau = Some p3
          /\ (p1 == p3)%Q
          /\ (p3 == clamp 500000 600000 (50000 * (tau - 10) + 500000))%Q)
  /\ (forall k : Z, k ∈ p_fixed (run_pressure init3 three_element) <-> 
        k = 0%Z \/ k = 10%Z \/ k = 24%Z \/ (k ∈ p_fixed init3 /\ k <> 12%Z))
  /\ c_active (run_pressure init3 three_element) = {[12%Z]}.
Proof.
  assert (Hclamp : forall tau : Q,
             (Qmin 600000 (Qmax 500000 (ramp tau)) == clamp 500000 600000 (ramp tau))%Q)
    by (intros; apply clamp_min_max; lra).
  split; [reflexivity|]. split; [|split; [|split; [|split]]].
  - repeat constructor.
    all: eexists _, _; split; [apply prescribed_single; auto|].
    all: split; [rewrite prescribed_three_fixed; reflexivity|].
    all: rewrite Hclamp; unfold clamp, ramp, inject_Z.
    all: destruct (Qlt_le_dec _ _); [|destruct (Qlt_le_dec _ _)]; lra.
  - repeat constructor.
    all: eexists; split; [rewrite prescribed_three_fixed; reflexivity|].
    all: fold (ramp (inject_Z 0)) (ramp (inject_Z 10)) (ramp (inject_Z 12)) (ramp (inject_Z 24)).
    all: unfold clamp, ramp, inject_Z.
    all: destruct (Qlt_le_dec _ _); [|destruct (Qlt_le_dec _ _)]; lra.
  - intros tau [H0 H24]. unfold inlet_pressure.
    change (fst single_element) with [0%Z; 24%Z].
    change (fst three_element) with [0%Z; 10%Z; 12%Z; 24%Z].
    unfold element_end. cbn [find].
    destruct (Qle_bool tau (inject_Z 0)) eqn:E0.
    { apply Qle_bool_iff in E0. unfold inject_Z in E0.
      eexists _, _. cbn [mbind option_bind].
      split; [apply prescribed_single; auto|].
      split; [rewrite prescribed_three_fixed; reflexivity|].
      rewrite Hclamp. fold (ramp tau). unfold clamp, ramp.
      destruct (Qlt_le_dec _ _); [|destruct (Qlt_le_dec _ _)]; lra. }
    apply Qle_bool_false in E0. unfold inject_Z in E0.
    assert (E24 : Qle_bool tau (inject_Z 24) = true) by (apply Qle_bool_iff; unfold inject_Z; lra).
    rewrite E24. cbn [mbind option_bind].
    rewrite prescribed_single by auto.
    destruct (Qle_bool tau (inject_Z 10)) eqn:E10;
      [|destruct (Qle_bool tau (inject_Z 12)) eqn:E12].
    all: cbn [mbind option_bind]; rewrite prescribed_three_fixed; cbn [bool_decide].
    all: eexists _, _; split; [reflexivity|]; split; [reflexivity|].
    all: rewrite Hclamp; fold (ramp tau); unfold clamp, ramp.
    all: repeat match goal with
                | H : Qle_bool _ _ = true |- _ => apply Qle_bool_iff in H; unfold inject_Z in H
                | H : Qle_bool _ _ = false |- _ => apply Qle_bool_false in H; unfold inject_Z in H
                end.
    all: destruct (Qlt_le_dec _ _); [|destruct (Qlt_le_dec _ _)]; split; lra.
  - intros k. rewrite three_element_state. cbn [p_fixed].
    rewrite !elem_of_union, elem_of_difference, !elem_of_union, !elem_of_singleton.
    destruct (decide (k = 12%Z)); subst; intuition congruence.
  - rewrite three_element_state. cbn [c_active]. set_solver.
Qed.

(** ** Degrees of freedom of the pump cases *)

Section PumpCases.
Variables Pump props : unit_model.

(** What is taken of IDAES: a pump on its own has five degrees of freedom,
    the property parameter block has none, the pump has the six variables
    the notebook fixes, and on a steady-state flowsheet every pump variable
    is indexed by the one time point 0. *)
Hypothesis pump_dof : (Z.of_nat (size (um_vars Pump)) - Z.of_nat (um_eqs Pump) = 5)%Z.
Hypothesis props_dof : (Z.of_nat (size (um_vars props)) - Z.of_nat (um_eqs props) = 0)%Z.
Hypothesis pump_vars : case_1_fixed ∪ case_2_fixed ⊆ um_vars Pump.
Hypothesis steady_state : forall v : var_id, v ∈ um_vars Pump -> snd v = [0%Z].

Lemma members_steady (rel : string) :
  (rel, [0%Z]) ∈ um_vars Pump -> members rel Pump = {[(rel, [0%Z])]}.
Proof.
  intros Hin. unfold members. apply set_eq. intros [n ix].
  rewrite elem_of_filter, elem_of_singleton. cbn [fst]. split.
  - intros [-> Hv]. apply steady_state in Hv. cbn in Hv. by subst.
  - intros [= -> ->]. by split.
Qed.

Lemma dof_fresh (name : string) : dof_block (Block name Pump ∅) = 5%Z.
Proof. unfold dof_block. cbn [b_unit b_fixed]. by rewrite difference_empty_L. Qed.

Lemma dof_props (name : string) : dof_block (Block name props ∅) = 0%Z.
Proof. unfold dof_block. cbn [b_unit b_fixed]. by rewrite difference_empty_L. Qed.

Lemma dof_fixed (name : string) (fixed : gset var_id) :
  fixed ⊆ um_vars Pump ->
  dof_block (Block name Pump fixed) = (5 - Z.of_nat (size fixed))%Z.
Proof.
  intros Hsub. unfold dof_block. cbn [b_unit b_fixed].
  rewrite size_difference by done. apply subseteq_size in Hsub. lia.
Qed.

Lemma one_var_pump (rel : string) (ix : list Z) :
  (rel, ix) ∈ um_vars Pump -> one_var ix rel Pump = {[(rel, ix)]}.
Proof. intros Hin. unfold one_var. by rewrite bool_decide_eq_true_2. Qed.

Lemma pump_actions :
  dof_actions pump
  = [AAttach "m" "ConcreteModel"; AAttach "m.fs" "FlowsheetBlock";
     AAttach "m.fs.properties" "Iapws95ParameterBlock";
     AAttach "m.fs.pump_case_1" "Pump";
     AMeasure "DOF_initial" "m"; ACheck "DOF_initial" 5;
     AFixVar "m.fs.pump_case_1.inlet.flow_mol" [0%Z];
     AFixVar "m.fs.pump_case_1.inlet.enth_mol" [0%Z];
     AFixVar "m.fs.pump_case_1.inlet.pressure" [0%Z];
     AFixAll "m.fs.pump_case_1.deltaP";
     AFixAll "m.fs.pump_case_1.efficiency_pump";
     AMeasure "DOF_final" "m"; ACheck "DOF_final" 0;
     AAttach "opt" "SolverFactory"; AAttach "solve_status" "solve";
     AAttach "m.fs.pump_case_2" "Pump";
     AMeasure "DOF_initial" "m.fs.pump_case_2"; ACheck "DOF_initial" 5;
     AFixVar "m.fs.pump_case_2.inlet.flow_mol" [0%Z];
     AFixVar "m.fs.pump_case_2.inlet.enth_mol" [0%Z];
     AFixVar "m.fs.pump_case_2.inlet.pressure" [0%Z];
     AFixVar "m.fs.pump_case_2.outlet.pressure" [0%Z];
     AFixAll "m.fs.pump_case_2.efficiency_pump";
     AMeasure "DOF_final" "m.fs.pump_case_2"; ACheck "DOF_final" 0;
     AAttach "opt" "SolverFactory"; AAttach "solve_status" "solve"].
Proof. vm_compute. reflexivity. Qed.

Lemma run_dof_cons (a : dof_action) (rest : list dof_action) (st : mstate) :
  run_dof Pump props (a :: rest) st = do_dof Pump props a st ≫= run_dof Pump props rest.
Proof. reflexivity. Qed.

Ltac dof_simpl :=
  cbn [do_dof library fix_in within relative strip_prefix String.eqb Ascii.eqb Bool.eqb
       andb orb List.filter foldr mbind option_bind fmap option_fmap option_map
       blocks ints dof_log b_name b_unit b_fixed app].

Ltac dof_step := rewrite run_dof_cons; dof_simpl.

Ltac dof_measure :=
  dof_step; unfold degrees_of_freedom; dof_simpl.

Ltac dof_check :=
  dof_step; rewrite lookup_insert_eq; rewrite bool_decide_eq_true_2 by reflexivity;
  dof_simpl.

Ltac pump_var := apply pump_vars; apply (bool_decide_unpack _); vm_compute; exact I.

Ltac dof_fix_var :=
  dof_step; rewrite one_var_pump by pump_var;
  rewrite bool_decide_eq_false_2 by apply non_empty_singleton_L; dof_simpl.

Ltac dof_fix_all :=
  dof_step; rewrite members_steady by pump_var;
  rewrite bool_decide_eq_false_2 by apply non_empty_singleton_L; dof_simpl.

Lemma case_1_size : size case_1_fixed = 5%nat.
Proof. vm_compute. reflexivity. Qed.

Lemma case_2_size : size case_2_fixed = 5%nat.
Proof. vm_compute. reflexivity. Qed.

Lemma dof_case (name : string) (fixed : gset var_id) :
  fixed = case_1_fixed \/ fixed = case_2_fixed ->
  dof_block (Block name Pump fixed) = 0%Z.
Proof.
  intros Hf. rewrite dof_fixed by (destruct Hf; subst; set_solver).
  destruct Hf; subst; [rewrite case_1_size | rewrite case_2_size]; reflexivity.
Qed.

(** With the counts taken of IDAES above, each case starts with five
    degrees of freedom once its [Pump] is attached, and the five variables
    it then fixes (the inlet molar flow, molar enthalpy and pressure, with
    [deltaP] and the efficiency in Case 1, with the outlet pressure and the
    efficiency in Case 2) bring the count to zero: the four
    [degrees_of_freedom] results are 5, 0, 5, 0 and every assertion on them
    passes. *)
Theorem pump_cases_degrees_of_freedom :
  exists st : mstate,
    run_dof Pump props (dof_actions pump) empty_model = Some st
    /\ dof_log st
       = [("DOF_initial", 5%Z); ("DOF_final", 0%Z); ("DOF_initial", 5%Z); ("DOF_final", 0%Z)]
    /\ map (fun b => (b_name b, b_fixed b)) (blocks st)
       = [("m.fs.properties", ∅); ("m.fs.pump_case_1", case_1_fixed);
          ("m.fs.pump_case_2", case_2_fixed)]
    /\ size case_1_fixed = 5%nat /\ size case_2_fixed = 5%nat.
Proof.
  assert (H1 : {[("efficiency_pump", [0%Z])]} ∪ ({[("deltaP", [0%Z])]}
               ∪ ({[("inlet.pressure", [0%Z])]} ∪ ({[("inlet.enth_mol", [0%Z])]}
               ∪ ({[("inlet.flow_mol", [0%Z])]} ∪ ∅)))) = case_1_fixed)
    by (unfold case_1_fixed, inlet_conditions; set_solver).
  assert (H2 : {[("efficiency_pump", [0%Z])]} ∪ ({[("outlet.pressure", [0%Z])]}
               ∪ ({[("inlet.pressure", [0%Z])]} ∪ ({[("inlet.enth_mol", [0%Z])]}
               ∪ ({[("inlet.flow_mol", [0%Z])]} ∪ ∅)))) = case_2_fixed)
    by (unfold case_2_fixed, inlet_conditions; set_solver).
  rewrite pump_actions. unfold empty_model.
  (* Case 1 *)
  do 4 dof_step. dof_measure. rewrite dof_props, dof_fresh.
  change (0 + (5 + 0))%Z with 5%Z. dof_check.
  do 3 dof_fix_var. do 2 dof_fix_all. rewrite H1.
  dof_measure. rewrite dof_props, dof_case by auto.
  change (0 + (0 + 0))%Z with 0%Z. dof_check.
  (* Case 2 *)
  do 3 dof_step. dof_measure. rewrite dof_fresh.
  change (5 + 0)%Z with 5%Z. dof_check.
  do 4 dof_fix_var. dof_fix_all. rewrite H2.
  dof_measure. rewrite dof_case by auto.
  change (0 + 0)%Z with 0%Z. dof_check.
  do 2 dof_step.
  eexists. split; [reflexivity|]. cbn [dof_log blocks map b_name b_fixed].
  auto using case_1_size, case_2_size.
Qed.
End PumpCases.

(** ** Surrogate files *)

Lemma write_read (f : string) (o : obj) (d : directory) : write f o d f = Some o.
Proof. unfold write. by rewrite String.eqb_refl. Qed.

Lemma write_other (f g : string) (o : obj) (d : directory) : g <> f -> write f o d g = d g.
Proof. intros Hne. unfold write. apply String.eqb_neq in Hne. by rewrite Hne. Qed.

Lemma finished_with (o : outcome) (d : directory) (a : list obj) :
  files <$> finished o = Some d -> attached <$> finished o = Some a ->
  exists st : sstate, o = Done st /\ files st = d /\ attached st = a.
Proof.
  destruct o as [st|e st]; cbn; [|discriminate].
  intros [= Hd] [= Ha]. by exists st.
Qed.

(** C6: each surrogate notebook writes its trained surrogate with
    [save_to_file] and later attaches to the [SurrogateBlock] what
    [load_from_file] reads back from that very file name: whatever the
    directory held before, the attached object is the one loaded from the
    file the same run saved.  Each notebook has one [save_to_file] and one
    [load_from_file], on the same name.  (ALAMO: when training succeeds.) *)
Theorem surrogate_round_trip (d : directory) :
  (exists st : sstate,
      run_surrogate TrainOk pysmo_surrogate (fresh d) = Done st
      /\ files st = write "pysmo_poly_surrogate.json" (OWrap "PysmoSurrogate" OTrained) d
      /\ attached st = [OLoaded "PysmoSurrogate" "pysmo_poly_surrogate.json"
                                (OWrap "PysmoSurrogate" OTrained)]
      /\ file_args "save_to_file" pysmo_surrogate = ["pysmo_poly_surrogate.json"]
      /\ file_args "load_from_file" pysmo_surrogate = ["pysmo_poly_surrogate.json"])
  /\ (exists st : sstate,
        run_surrogate TrainOk alamo_surrogate (fresh d) = Done st
        /\ files st = write "alamo_surrogate.json" OTrained d
        /\ attached st = [OLoaded "AlamoSurrogate" "alamo_surrogate.json" OTrained]
        /\ file_args "save_to_file" alamo_surrogate = ["alamo_surrogate.json"]
        /\ file_args "load_from_file" alamo_surrogate = ["alamo_surrogate.json"]).
Proof.
  split.
  - destruct (finished_with (run_surrogate TrainOk pysmo_surrogate (fresh d))
                (write "pysmo_poly_surrogate.json" (OWrap "PysmoSurrogate" OTrained) d)
                [OLoaded "PysmoSurrogate" "pysmo_poly_surrogate.json"
                         (OWrap "PysmoSurrogate" OTrained)])
      as (st & Hrun & Hfiles & Hatt); [vm_compute; reflexivity ..|].
    exists st. repeat split; try assumption; vm_compute; reflexivity.
  - destruct (finished_with (run_surrogate TrainOk alamo_surrogate (fresh d))
                (write "alamo_surrogate.json" OTrained d)
                [OLoaded "AlamoSurrogate" "alamo_surrogate.json" OTrained])
      as (st & Hrun & Hfiles & Hatt); [vm_compute; reflexivity ..|].
    exists st. repeat split; try assumption; vm_compute; reflexivity.
Qed.

(** ** Error handling *)

Lemma run_stmts_app (f : stmt -> sstate -> outcome) (l1 l2 : list stmt) (st : sstate) :
  run_stmts f (l1 ++ l2) st
  = match run_stmts f l1 st with
    | Done st' => run_stmts f l2 st'
    | Raised e st' => Raised e st'
    end.
Proof.
  revert st. induction l1 as [|s l1 IH]; intros st; cbn [app run_stmts]; [reflexivity|].
  destruct (f s st); [apply IH | reflexivity].
Qed.

Lemma split_at_try_sound (l a b : list stmt) (t : stmt) :
  split_at_try l = Some (a, t, b) -> l = a ++ t :: b.
Proof.
  revert a. induction l as [|s r IH]; intros a; cbn [split_at_try]; [discriminate|].
  destruct s; try (destruct (split_at_try r) as [[[a' t'] b']|]; [|discriminate];
                   intros [= <- <- <-]; cbn [app]; f_equal; by apply IH).
  intros [= <- <- <-]. reflexivity.
Qed.

Lemma alamo_split : top_stmts alamo_surrogate = alamo_before ++ alamo_guard :: alamo_after.
Proof. apply split_at_try_sound. vm_compute. reflexivity. Qed.

Lemma alamo_run (tr : training) (d : directory) :
  run_surrogate tr alamo_surrogate (fresh d)
  = match run_stmts (exec tr None) alamo_before (fresh d) with
    | Done st =>
        match exec tr None alamo_guard st with
        | Done st' => run_stmts (exec tr None) alamo_after st'
        | Raised e st' => Raised e st'
        end
    | Raised e st => Raised e st
    end.
Proof. unfold run_surrogate. rewrite alamo_split. apply run_stmts_app. Qed.

(** What the guard does with a failing trainer: only a [FileNotFoundError]
    that says "Could not find ALAMO" is absorbed, into [has_alamo = False]. *)
Lemma alamo_guard_raises (e : exn) (st : sstate) :
  exec (TrainRaises e) None alamo_guard st
  = if String.eqb (exn_class e) "FileNotFoundError"
    then if contains "Could not find ALAMO" (exn_msg e)
         then Done (bind_name "has_alamo" (PBool false) (bind_name "err" (PExc (exn_msg e)) st))
         else Raised e (bind_name "err" (PExc (exn_msg e)) st)
    else Raised e st.
Proof.
  unfold alamo_guard, meth, call. cbn [exec run_stmts assign].
  destruct (String.eqb (exn_class e) "FileNotFoundError"); [|reflexivity].
  cbn [branch_test vars bind_name String.eqb Ascii.eqb Bool.eqb].
  destruct (contains "Could not find ALAMO" (exn_msg e)); reflexivity.
Qed.

(** Nothing before the guard saves, attaches or asserts. *)
Lemma alamo_before_runs (tr : training) (d : directory) :
  exists st : sstate,
    run_stmts (exec tr None) alamo_before (fresh d) = Done st
    /\ files st = d /\ attached st = [] /\ asserted st = 0%nat.
Proof.
  assert (H : (fun st => (files st, attached st, asserted st))
              <$> finished (run_stmts (exec tr None) alamo_before (fresh d)) = Some (d, [], 0%nat))
    by (vm_compute; reflexivity).
  destruct (run_stmts (exec tr None) alamo_before (fresh d)) as [st|e st]; [|discriminate].
  injection H as H1 H2 H3. by exists st.
Qed.

(** X1: when [train_surrogate] raises a [FileNotFoundError] that says "Could
    not find ALAMO", the ALAMO notebook runs to its end with [has_alamo]
    false and without saving, attaching or asserting anything; a
    [FileNotFoundError] with another message leaves the notebook as the
    exception it was. *)
Lemma alamo_missing (d : directory) (e : exn) :
  exn_class e = "FileNotFoundError" ->
  (contains "Could not find ALAMO" (exn_msg e) = true ->
   exists st : sstate,
     run_surrogate (TrainRaises e) alamo_surrogate (fresh d) = Done st
     /\ vars st "has_alamo" = Some (PBool false)
     /\ files st = d /\ attached st = [] /\ asserted st = 0%nat)
  /\ (contains "Could not find ALAMO" (exn_msg e) = false ->
      outcome_exn (run_surrogate (TrainRaises e) alamo_surrogate (fresh d)) = Some e).
Proof.
  intros Hc. rewrite alamo_run.
  destruct (alamo_before_runs (TrainRaises e) d) as (st & -> & Hf & Ha & Hn).
  rewrite alamo_guard_raises, Hc. cbn [String.eqb Ascii.eqb Bool.eqb].
  split; intros ->; [|reflexivity].
  match goal with |- exists s, ?o = Done s /\ _ =>
    assert (H : (fun s => (vars s "has_alamo", files s, attached s, asserted s)) <$> finished o
                = Some (Some (PBool false), files st, attached st, asserted st))
      by (vm_compute; destruct st; reflexivity);
    destruct o as [st'|]; [|discriminate]
  end.
  injection H as H1 H2 H3 H4. exists st'. repeat split; congruence.
Qed.

Lemma alamo_other_failure (d : directory) (e : exn) :
  exn_class e <> "FileNotFoundError" ->
  outcome_exn (run_surrogate (TrainRaises e) alamo_surrogate (fresh d)) = Some e.
Proof.
  intros Hc. rewrite alamo_run.
  destruct (alamo_before_runs (TrainRaises e) d) as (st & -> & _).
  rewrite alamo_guard_raises. apply String.eqb_neq in Hc. rewrite Hc. reflexivity.
Qed.

(** With ALAMO at hand both assertions of the notebook run. *)
Lemma alamo_present (d : directory) :
  asserted <$> finished (run_surrogate TrainOk alamo_surrogate (fresh d)) = Some 2%nat.
Proof. vm_compute. reflexivity. Qed.

(** C2, as stated, fails: the ALAMO notebook handles an exception. *)
Lemma alamo_handles_exception : ~ Forall (fun nb => only_assertions (snd nb)) notebooks.
Proof.
  intros H. rewrite Forall_forall in H.
  specialize (H ("alamo_surrogate", alamo_surrogate)).
  unfold only_assertions in H. cbn [snd] in H.
  assert (Hin : ("alamo_surrogate", alamo_surrogate) ∈ notebooks)
    by (unfold notebooks; rewrite !elem_of_cons; auto).
  specialize (H Hin). vm_compute in H. discriminate.
Qed.

(** C2, amended: in five of the six notebooks error handling is assertions
    and nothing else: no [try], no [raise], no [if].  The ALAMO notebook adds
    one [try]/[except FileNotFoundError] around [train_surrogate], a test of
    the message for "Could not find ALAMO" with a bare [raise] otherwise, and
    [if has_alamo] / [if status_obj] guards on the cells that follow.  Every
    assertion compares the solver's termination status, or a number with a
    reference: within a tolerance, exactly, or as a bound. *)
Theorem error_handling_is_assertions_and_alamo_guard :
  Forall only_assertions [petsc_chem; petsc_pid; pysmo_surrogate; pump; txy_diagram]
  /\ error_handling alamo_surrogate
     = [HTry "FileNotFoundError";
        HBranch (ECmp CIn (EStr "Could not find ALAMO") (call "str" [EName "err"]));
        HRaise;
        HBranch (EName "has_alamo"); HBranch (EName "has_alamo"); HBranch (EName "has_alamo");
        HBranch (EName "has_alamo"); HBranch (EName "status_obj"); HBranch (EName "has_alamo");
        HAssert; HAssert]
  /\ Forall (fun nb => Forall (fun a => is_Some (check_of a)) (asserts (snd nb))) notebooks
  /\ split_at_try (top_stmts alamo_surrogate) = Some (alamo_before, alamo_guard, alamo_after)
  /\ (forall (e : exn) (st : sstate),
        exec (TrainRaises e) None alamo_guard st
        = if String.eqb (exn_class e) "FileNotFoundError"
          then if contains "Could not find ALAMO" (exn_msg e)
               then Done (bind_name "has_alamo" (PBool false)
                            (bind_name "err" (PExc (exn_msg e)) st))
               else Raised e (bind_name "err" (PExc (exn_msg e)) st)
          else Raised e st).
Proof.
  split; [|split; [|split; [|split; [|exact alamo_guard_raises]]]].
  - apply (forallb_Forall (fun nb => forallb is_assert (error_handling nb))).
    vm_compute. reflexivity.
  - vm_compute. reflexivity.
  - assert (H : forallb (fun nb => forallb (fun a => match check_of a with
                                                      | Some _ => true
                                                      | None => false
                                                      end) (asserts (snd nb))) notebooks = true)
      by (vm_compute; reflexivity).
    rewrite forallb_forall in H. apply Forall_forall. intros nb Hnb.
    apply list_elem_of_In in Hnb. specialize (H nb Hnb). rewrite forallb_forall in H.
    apply Forall_forall. intros a Ha. apply list_elem_of_In in Ha.
    specialize (H a Ha). destruct (check_of a); [eauto | discriminate].
  - vm_compute. reflexivity.
Qed.

(** ** The five steps *)


(** ** Functions and arithmetic written in the notebooks *)

(** C4, as stated, fails: a function of the PID notebook computes with
    numbers of its own. *)
Lemma pid_rule_computes :
  ~ Forall (fun nb => no_local_computation (snd nb)) notebooks.
Proof.
  intros H. rewrite Forall_forall in H.
  assert (Hin : ("petsc_pid", petsc_pid) ∈ notebooks)
    by (unfold notebooks; rewrite !elem_of_cons; auto).
  specialize (H _ Hin). vm_compute in H. discriminate.
Qed.

Lemma loops_only_print :
  Forall (fun nb => Forall (Forall (fun s => is_print s = true)) (loop_bodies (snd nb))) notebooks.
Proof.
  assert (H : forallb (fun nb => forallb (forallb is_print) (loop_bodies (snd nb))) notebooks
              = true) by (vm_compute; reflexivity).
  rewrite forallb_forall in H. apply Forall_forall. intros nb Hnb.
  apply list_elem_of_In in Hnb. specialize (H nb Hnb). rewrite forallb_forall in H.
  apply Forall_forall. intros b Hb. apply list_elem_of_In in Hb. specialize (H b Hb).
  rewrite forallb_forall in H. apply Forall_forall. intros s Hs.
  apply list_elem_of_In in Hs. by apply H.
Qed.

(** C4, amended: the notebooks define four functions and no more, each a
    single [return]: [datafile_path] in the two surrogate notebooks, which
    only joins a path, and the two [inlet_pressure_eqn] rules of the PID
    notebook, whose own arithmetic is the ramp [50000 * (t - 10) + 500000]
    (in the first rule inside the library's [smooth_max] and [smooth_min]).
    No function calls itself, and every loop body only prints. *)
Theorem local_functions_are_one_liners (smin smax : Q -> Q -> Q) (k : Z) (tau : Q) :
  map (fun nb => (fst nb, map def_name (local_defs (snd nb)))) notebooks
  = [("petsc_chem", []); ("petsc_pid", ["inlet_pressure_eqn"; "inlet_pressure_eqn"]);
     ("pysmo_surrogate", ["datafile_path"]); ("alamo_surrogate", ["datafile_path"]);
     ("pump", []); ("txy_diagram", [])]
  /\ Forall (fun nb => Forall (fun d => single_return d = true /\ calls_itself d = false)
                              (local_defs (snd nb))) notebooks
  /\ map def_arithmetic (local_defs pysmo_surrogate ++ local_defs alamo_surrogate) = [[]; []]
  /\ map def_arithmetic (local_defs petsc_pid) = [[OAdd; OMul; OSub]; [OAdd; OMul; OSub]]
  /\ map pressure_rule (local_defs petsc_pid) = [Some inlet_pressure_eqn_smooth; Some inlet_pressure_eqn_linear]
  /\ rule_value smin smax inlet_pressure_eqn_smooth k tau
     = Some (smin 600000 (smax 500000 (50000 * (tau - 10) + 500000)))%Q
  /\ rule_value smin smax inlet_pressure_eqn_linear k tau = Some (50000 * (tau - 10) + 500000)%Q
  /\ Forall (fun nb => Forall (Forall (fun s => is_print s = true)) (loop_bodies (snd nb)))
            notebooks.
Proof.
  split; [vm_compute; reflexivity|]. split.
  { eapply Forall_impl;
      [apply (forallb_Forall2 (fun nb => local_defs (snd nb))
                (fun d => single_return d && negb (calls_itself d))); vm_compute; reflexivity|].
    intros nb Hnb. eapply Forall_impl; [exact Hnb|]. intros d Hd.
    apply andb_prop in Hd as [H1 H2]. split; [exact H1 | by destruct (calls_itself d)]. }
  split; [vm_compute; reflexivity|]. split; [vm_compute; reflexivity|].
  split; [vm_compute; reflexivity|].
  split; [apply inlet_pressure_eqn_smooth_value|]. split; [apply inlet_pressure_eqn_linear_value | apply loops_only_print].
Qed.

(** ** What the assertions are about *)



(** ** Further properties *)

(** X1 at a concrete failure: a [FileNotFoundError] naming ALAMO. *)
Lemma alamo_missing_witness :
  (contains "Could not find ALAMO" "Could not find ALAMO executable." = true ->
   exists st : sstate,
     run_surrogate (TrainRaises (Exn "FileNotFoundError" "Could not find ALAMO executable."))
                   alamo_surrogate (fresh (fun _ => None)) = Done st
     /\ vars st "has_alamo" = Some (PBool false)
     /\ files st = (fun _ => None) /\ attached st = [] /\ asserted st = 0%nat)
  /\ (contains "Could not find ALAMO" "Could not find ALAMO executable." = false ->
      outcome_exn
        (run_surrogate (TrainRaises (Exn "FileNotFoundError" "Could not find ALAMO executable."))
                       alamo_surrogate (fresh (fun _ => None)))
      = Some (Exn "FileNotFoundError" "Could not find ALAMO executable.")).
Proof.
  apply (alamo_missing (fun _ => None)
           (Exn "FileNotFoundError" "Could not find ALAMO executable.")).
  reflexivity.
Defined.

(** X2: the second assertion of each surrogate notebook passes exactly when
    the nitrogen fraction is at most the double that [0.4 + 1e-8] evaluates
    to, which lies above the exact sum, while the constraint the notebook
    adds to the model is [m.fs.N2 <= 0.34]. *)
Theorem nitrogen_assertion_bound (locals : gmap string Z) (vals : gmap var_id Q) (v : Q) :
  Forall (fun a => accepts64 locals (<[("m.fs.N2", []) := v]> vals) a = true
                   <-> (v <= fl (fl 0.4 + fl 1e-8))%Q)
         (asserts_on "m.fs.N2" pysmo_surrogate ++ asserts_on "m.fs.N2" alamo_surrogate)
  /\ length (asserts_on "m.fs.N2" pysmo_surrogate ++ asserts_on "m.fs.N2" alamo_surrogate)
     = 2%nat
  /\ (fl (fl 0.4 + fl 1e-8) == 7205759583936779 # 2 ^ 54)%Q
  /\ (0.4 + 1e-8 < fl (fl 0.4 + fl 1e-8))%Q
  /\ Forall (fun nb =>
               existsb (fun s => match s with
                                 | SAssign (EName "m.fs.con")
                                     (ECall (EName "Constraint") []
                                        [("expr", ECmp CLe (EName "m.fs.N2") (EFloat q))]) =>
                                     Qeq_bool q 0.34
                                 | _ => false
                                 end) (all_stmts nb) = true)
            [pysmo_surrogate; alamo_surrogate].
Proof.
  assert (Hs : asserts_on "m.fs.N2" pysmo_surrogate
               = [call "value" [ECmp CLe (EName "m.fs.N2") (EBin OAdd (EFloat 0.4) (EFloat 1e-8))]])
    by (vm_compute; reflexivity).
  assert (Ha : asserts_on "m.fs.N2" alamo_surrogate = asserts_on "m.fs.N2" pysmo_surrogate)
    by (vm_compute; reflexivity).
  assert (Hb : forall a,
             a = call "value" [ECmp CLe (EName "m.fs.N2") (EBin OAdd (EFloat 0.4) (EFloat 1e-8))] ->
             accepts64 locals (<[("m.fs.N2", []) := v]> vals) a = true
             <-> (v <= fl (fl 0.4 + fl 1e-8))%Q).
  { intros a ->. rewrite accepts64_bound. apply Qle_bool_iff. }
  rewrite Ha, Hs. split; [|split; [reflexivity|split; [vm_compute; reflexivity|split]]].
  - constructor; [by apply Hb | constructor; [by apply Hb | constructor]].
  - vm_compute. reflexivity.
  - apply forallb_Forall. vm_compute. reflexivity.
Qed.

(** ** Shape of the inlet-pressure ramp *)

Lemma ramp_clamped_range (x : Q) : (500000 <= Qmin 600000 (Qmax 500000 x) <= 600000)%Q.
Proof.
  split; [apply Q.min_glb; [lra | apply Q.le_max_l] | apply Q.le_min_l].
Qed.

Lemma ramp_clamped_mono (x y : Q) :
  (x <= y)%Q -> (Qmin 600000 (Qmax 500000 x) <= Qmin 600000 (Qmax 500000 y))%Q.
Proof. intros H. by apply Q.min_le_compat_l, Q.max_le_compat_l. Qed.

Lemma Qmax_close (a x y : Q) : (Qabs (Qmax a x - Qmax a y) <= Qabs (x - y))%Q.
Proof.
  pose proof (Qle_Qabs (x - y)) as H1. pose proof (Qle_Qabs (- (x - y))) as H2.
  rewrite Qabs_opp in H2. apply Qabs_Qle_condition.
  destruct (Q.max_spec a x) as [[Hx ->]|[Hx ->]], (Q.max_spec a y) as [[Hy ->]|[Hy ->]];
    split; lra.
Qed.

Lemma Qmin_close (a x y : Q) : (Qabs (Qmin a x - Qmin a y) <= Qabs (x - y))%Q.
Proof.
  pose proof (Qle_Qabs (x - y)) as H1. pose proof (Qle_Qabs (- (x - y))) as H2.
  rewrite Qabs_opp in H2. apply Qabs_Qle_condition.
  destruct (Q.min_spec a x) as [[Hx ->]|[Hx ->]], (Q.min_spec a y) as [[Hy ->]|[Hy ->]];
    split; lra.
Qed.

Lemma ramp_clamped_rate (t1 t2 : Q) :
  (Qabs (Qmin 600000 (Qmax 500000 (ramp t1)) - Qmin 600000 (Qmax 500000 (ramp t2)))
   <= 50000 * Qabs (t1 - t2))%Q.
Proof.
  eapply Qle_trans; [apply Qmin_close|]. eapply Qle_trans; [apply Qmax_close|].
  assert (H : (ramp t1 - ramp t2 == 50000 * (t1 - t2))%Q) by (unfold ramp; lra).
  rewrite H, Qabs_Qmult. apply Qle_refl.
Qed.

(** The inlet pressure along the integration from 0 s to 24 s: in the
    single-element model what the constraint demands, in the three-element
    model fixed values up to 10 s and after 12 s and the linear rule in
    between; either way the ramp held to [[500000, 600000]]. *)
Lemma trajectory_single (smin smax : Q -> Q -> Q) (init : pstate) (tau : Q) :
  (0 <= tau <= 24)%Q ->
  inlet_pressure smin smax init single_element tau
  = Some (smin 600000 (smax 500000 (ramp tau)))%Q.
Proof.
  intros [H0 H24]. unfold inlet_pressure.
  change (fst single_element) with [0%Z; 24%Z]. unfold element_end. cbn [find].
  destruct (Qle_bool tau (inject_Z 0)) eqn:E0.
  { cbn [mbind option_bind]. apply prescribed_single. auto. }
  assert (E24 : Qle_bool tau (inject_Z 24) = true) by (apply Qle_bool_iff; unfold inject_Z; lra).
  rewrite E24. cbn [mbind option_bind]. apply prescribed_single. auto.
Qed.

Lemma trajectory_three (smin smax : Q -> Q -> Q) (init : pstate) (tau : Q) :
  (0 <= tau <= 24)%Q ->
  exists p : Q,
    inlet_pressure smin smax init three_element tau = Some p
    /\ (p == Qmin 600000 (Qmax 500000 (ramp tau)))%Q.
Proof.
  intros [H0 H24]. unfold inlet_pressure.
  change (fst three_element) with [0%Z; 10%Z; 12%Z; 24%Z]. unfold element_end. cbn [find].
  assert (Hc : (Qmin 600000 (Qmax 500000 (ramp tau)) == clamp 500000 600000 (ramp tau))%Q)
    by (apply clamp_min_max; lra).
  assert (E24 : Qle_bool tau (inject_Z 24) = true) by (apply Qle_bool_iff; unfold inject_Z; lra).
  destruct (Qle_bool tau (inject_Z 0)) eqn:E0;
    [|destruct (Qle_bool tau (inject_Z 10)) eqn:E10;
      [|destruct (Qle_bool tau (inject_Z 12)) eqn:E12; [|rewrite E24]]].
  all: cbn [mbind option_bind]; rewrite prescribed_three_fixed; cbn [bool_decide].
  all: eexists; split; [reflexivity|]; rewrite Hc; unfold clamp, ramp.
  all: repeat match goal with
              | H : Qle_bool _ _ = true |- _ => apply Qle_bool_iff in H; unfold inject_Z in H
              | H : Qle_bool _ _ = false |- _ => apply Qle_bool_false in H; unfold inject_Z in H
              end.
  all: destruct (Qlt_le_dec _ _); [|destruct (Qlt_le_dec _ _)]; lra.
Qed.

Lemma trajectory_clamped (init : pstate) (tau : Q) :
  (0 <= tau <= 24)%Q ->
  Forall (fun m => exists p : Q,
              inlet_pressure Qmin Qmax init m tau = Some p
              /\ (p == Qmin 600000 (Qmax 500000 (ramp tau)))%Q)
         [single_element; three_element].
Proof.
  intros H. constructor; [|constructor; [|constructor]].
  - eexists. split; [by apply trajectory_single | reflexivity].
  - by apply trajectory_three.
Qed.

(** X3: along the integration from 0 s to 24 s the inlet pressure of either
    ramp model (exact [min] and [max] standing for the smooth ones) stays
    between 500000 Pa and 600000 Pa, never falls, and rises by at most
    50000 Pa per second. *)
Theorem inlet_pressure_ramp_shape (init : pstate) (t1 t2 : Q) :
  (0 <= t1)%Q -> (t1 <= t2)%Q -> (t2 <= 24)%Q ->
  Forall (fun m => exists p1 p2 : Q,
              inlet_pressure Qmin Qmax init m t1 = Some p1
              /\ inlet_pressure Qmin Qmax init m t2 = Some p2
              /\ (500000 <= p1)%Q /\ (p1 <= p2)%Q /\ (p2 <= 600000)%Q
              /\ (p2 - p1 <= 50000 * (t2 - t1))%Q)
         [single_element; three_element].
Proof.
  intros H0 H12 H24.
  assert (H1 : (0 <= t1 <= 24)%Q) by lra. assert (H2 : (0 <= t2 <= 24)%Q) by lra.
  apply trajectory_clamped with (init := init) in H1, H2.
  rewrite Forall_forall in H1, H2. apply Forall_forall. intros m Hm.
  destruct (H1 m Hm) as (p1 & Hp1 & Hq1), (H2 m Hm) as (p2 & Hp2 & Hq2).
  exists p1, p2. split; [exact Hp1|]. split; [exact Hp2|]. rewrite Hq1, Hq2.
  split; [apply ramp_clamped_range|].
  split; [apply ramp_clamped_mono; unfold ramp; lra|].
  split; [apply ramp_clamped_range|].
  pose proof (ramp_clamped_rate t2 t1) as Hr.
  rewrite (Qabs_pos (t2 - t1)) in Hr by lra.
  eapply Qle_trans; [apply Qle_Qabs | exact Hr].
Qed.

(** X3 between 9 s and 11.5 s. *)
Lemma inlet_pressure_ramp_shape_witness :
  Forall (fun m => exists p1 p2 : Q,
              inlet_pressure Qmin Qmax (PState ∅ ∅ None ∅) m 9 = Some p1
              /\ inlet_pressure Qmin Qmax (PState ∅ ∅ None ∅) m 11.5 = Some p2
              /\ (500000 <= p1)%Q /\ (p1 <= p2)%Q /\ (p2 <= 600000)%Q
              /\ (p2 - p1 <= 50000 * (11.5 - 9))%Q)
         [single_element; three_element].
Proof. apply (inlet_pressure_ramp_shape (PState ∅ ∅ None ∅) 9 11.5); lra. Defined.

Lemma demanded_single (smin smax : Q -> Q -> Q) (init : pstate) (k : Z) (tau : Q) :
  demanded smin smax init single_element k tau
  = Some (smin 600000 (smax 500000 (ramp tau)))%Q.
Proof.
  unfold demanded. rewrite single_element_state. cbn [c_rule mbind option_bind].
  apply inlet_pressure_eqn_smooth_value.
Qed.

(** X4: if [smooth_min] and [smooth_max] are within [eps] of the exact
    minimum and maximum, what [inlet_pressure_eqn] of the single-element
    model demands is within [2 * eps] of the ramp held to
    [[500000, 600000]], at every time. *)
Theorem smooth_ramp_error (smin smax : Q -> Q -> Q) (eps : Q) (init : pstate) (k : Z)
    (tau : Q) :
  (forall a b : Q, Qabs (smin a b - Qmin a b) <= eps)%Q ->
  (forall a b : Q, Qabs (smax a b - Qmax a b) <= eps)%Q ->
  exists p : Q,
    demanded smin smax init single_element k tau = Some p
    /\ (Qabs (p - clamp 500000 600000 (50000 * (tau - 10) + 500000)) <= 2 * eps)%Q.
Proof.
  intros Hmin Hmax. rewrite demanded_single. eexists. split; [reflexivity|].
  fold (ramp tau). rewrite <- (clamp_min_max 500000%Q 600000%Q (ramp tau)) by lra.
  set (s := smax 500000%Q (ramp tau)). set (x := Qmax 500000%Q (ramp tau)).
  assert (H1 := Hmin 600000%Q s). assert (H2 := Hmax 500000%Q (ramp tau)). fold s x in H2.
  assert (H3 := Qmin_close 600000%Q s x).
  apply Qabs_Qle_condition. apply Qabs_Qle_condition in H1.
  assert (H4 : (Qabs (Qmin 600000 s - Qmin 600000 x) <= eps)%Q) by (eapply Qle_trans; eauto).
  apply Qabs_Qle_condition in H4. split; lra.
Qed.

(** X4 for smoothing functions that are off by 1e-4. *)
Lemma smooth_ramp_error_witness :
  exists p : Q,
    demanded (fun a b => Qmin a b - (1 # 10000))%Q (fun a b => Qmax a b + (1 # 10000))%Q
             (PState ∅ ∅ None ∅) single_element 24 11 = Some p
    /\ (Qabs (p - clamp 500000 600000 (50000 * (11 - 10) + 500000)) <= 2 * (1 # 10000))%Q.
Proof.
  apply (smooth_ramp_error (fun a b => Qmin a b - (1 # 10000))%Q
           (fun a b => Qmax a b + (1 # 10000))%Q (1 # 10000)%Q).
  - intros a b. apply Qabs_Qle_condition. split; lra.
  - intros a b. apply Qabs_Qle_condition. split; lra.
Defined.

(** ** Relative error in the Akzo Nobel notebook *)

Lemma eval_var (smin smax : Q -> Q -> Q) (locals : gmap string Z) (vals : gmap var_id Q)
    (e : expr) (r : var_id) :
  var_ref locals e = Some r -> eval smin smax locals vals e = VNum <$> vals !! r.
Proof.
  intros H. assert (Hr : read locals vals e = VNum <$> vals !! r)
    by (unfold read; rewrite H; reflexivity).
  destruct e; try discriminate; exact Hr.
Qed.

Section RelativeError.
Variables smin smax : Q -> Q -> Q.
Variable locals : gmap string Z.
Variable vals : gmap var_id Q.
Variables y v : Q.

(** [abs(y - pyo.value(x)) / y < tol] with the reference holding [y] and
    the variable [v]: division by a zero reference raises. *)
Lemma relative_check_eval (a x : expr) (yname : string) (r : var_id) (tol : Q) :
  relative_check a = Some (yname, x, tol) ->
  var_ref locals x = Some r -> r <> (yname, []) ->
  eval smin smax locals (<[(yname, []) := y]> (<[r := v]> vals)) a
  = if Qeq_bool y 0 then None
    else Some (VBool (negb (Qle_bool tol (Qabs (y - v) / y)))).
Proof.
  intros Ha Hx Hr. unfold relative_check in Ha.
  repeat match type of Ha with
         | (if String.eqb ?a ?b then _ else _) = Some _ =>
             destruct (String.eqb_spec a b); [subst|discriminate]
         | match ?e with _ => _ end = Some _ => destruct e; try discriminate
         end.
  injection Ha as -> -> ->.
  cbn [eval String.eqb Ascii.eqb Bool.eqb andb].
  rewrite (eval_var _ _ _ _ x r Hx).
  unfold read, var_ref. cbn [fmap option_fmap option_map mbind option_bind].
  rewrite lookup_insert_eq, lookup_insert_ne by done. rewrite lookup_insert_eq.
  cbn [fmap option_fmap option_map num1 arith]. 
  destruct (Qeq_bool y 0); reflexivity.
Qed.
End RelativeError.

Lemma relative_checks_akzo :
  map relative_check (asserts petsc_chem)
  = [Some ("y1", ESub (EName "m.y") [EInt 180; EInt 1], 1e-3%Q);
     Some ("y2", ESub (EName "m.y") [EInt 180; EInt 2], 1e-3%Q);
     Some ("y3", ESub (EName "m.y") [EInt 180; EInt 3], 1e-3%Q);
     Some ("y4", ESub (EName "m.y") [EInt 180; EInt 4], 1e-3%Q);
     Some ("y5", ESub (EName "m.y") [EInt 180; EInt 5], 1e-3%Q);
     Some ("y6", ESub (EName "m.y6") [EInt 180], 1e-3%Q)].
Proof. vm_compute. reflexivity. Qed.

Lemma relative_error_positive (a y tol : Q) :
  (0 < y)%Q -> negb (Qle_bool tol (a / y)) = true <-> (a < tol * y)%Q.
Proof.
  intros Hy. rewrite negb_true_iff. split.
  - intros H. apply Qle_bool_false in H.
    apply (Qmult_lt_r _ _ y Hy) in H. rewrite Qmult_comm, Qmult_div_r in H by lra. exact H.
  - intros H. destruct (Qle_bool tol (a / y)) eqn:E; [|reflexivity].
    apply Qle_bool_iff in E. apply (Qmult_le_r _ _ y Hy) in E.
    rewrite (Qmult_comm (a / y)), Qmult_div_r in E by lra. lra.
Qed.

Lemma relative_error_negative (a y tol : Q) :
  (0 <= a)%Q -> (y < 0)%Q -> (0 < tol)%Q -> negb (Qle_bool tol (a / y)) = true.
Proof.
  intros Ha Hy Ht. rewrite negb_true_iff.
  destruct (Qle_bool tol (a / y)) eqn:E; [|reflexivity].
  apply Qle_bool_iff in E.
  assert (H : (0 <= a / - y)%Q) by (apply Qle_shift_div_l; lra).
  assert (H' : (a / y == - (a / - y))%Q) by (field; lra).
  lra.
Qed.

Lemma Qeq_bool_nonzero (y : Q) : ~ (y == 0)%Q -> Qeq_bool y 0 = false.
Proof.
  intros H. destruct (Qeq_bool y 0) eqn:E; [|reflexivity].
  apply Qeq_bool_iff in E. contradiction.
Qed.

(** X5: each of the six assertions of the Akzo Nobel notebook compares a
    reference [y1] ... [y6] with the solved concentration at t = 180, and for
    a positive reference [y] it passes exactly when the solved value [v] is
    less than a thousandth of [y] away from it: [|y - v| < y / 1000]. *)
Theorem akzo_relative_tolerance (smin smax : Q -> Q -> Q) (locals : gmap string Z)
    (vals : gmap var_id Q) (y v : Q) :
  (0 < y)%Q ->
  Forall (fun a => exists (yname : string) (x : expr) (r : var_id),
              relative_check a = Some (yname, x, 1e-3%Q)
              /\ var_ref locals x = Some r
              /\ (accepts smin smax locals (<[(yname, []) := y]> (<[r := v]> vals)) a = true
                  <-> (Qabs (y - v) < 1e-3 * y)%Q))
         (asserts petsc_chem)
  /\ map relative_check (asserts petsc_chem)
     = [Some ("y1", ESub (EName "m.y") [EInt 180; EInt 1], 1e-3%Q);
        Some ("y2", ESub (EName "m.y") [EInt 180; EInt 2], 1e-3%Q);
        Some ("y3", ESub (EName "m.y") [EInt 180; EInt 3], 1e-3%Q);
        Some ("y4", ESub (EName "m.y") [EInt 180; EInt 4], 1e-3%Q);
        Some ("y5", ESub (EName "m.y") [EInt 180; EInt 5], 1e-3%Q);
        Some ("y6", ESub (EName "m.y6") [EInt 180], 1e-3%Q)].
Proof.
  intros Hy. split; [|exact relative_checks_akzo].
  assert (Hl := relative_checks_akzo). remember (asserts petsc_chem) as l eqn:El. clear El.
  do 6 (destruct l as [|? l]; [discriminate|]). destruct l; [|discriminate].
  injection Hl as H1 H2 H3 H4 H5 H6.
  repeat constructor.
  all: eexists _, _, _; split; [eassumption|]; split; [reflexivity|].
  all: unfold accepts; erewrite relative_check_eval by (try eassumption; done).
  all: rewrite Qeq_bool_nonzero by lra.
  all: rewrite <- relative_error_positive by exact Hy.
  all: by destruct (negb _).
Qed.

(** X5 at a reference of 2 and a solved value of 2.001. *)
Lemma akzo_relative_tolerance_witness :
  Forall (fun a => exists (yname : string) (x : expr) (r : var_id),
              relative_check a = Some (yname, x, 1e-3%Q)
              /\ var_ref ∅ x = Some r
              /\ (accepts Qmin Qmax ∅ (<[(yname, []) := 2%Q]> (<[r := 2.001%Q]> ∅)) a = true
                  <-> (Qabs (2 - 2.001) < 1e-3 * 2)%Q))
         (asserts petsc_chem)
  /\ map relative_check (asserts petsc_chem)
     = [Some ("y1", ESub (EName "m.y") [EInt 180; EInt 1], 1e-3%Q);
        Some ("y2", ESub (EName "m.y") [EInt 180; EInt 2], 1e-3%Q);
        Some ("y3", ESub (EName "m.y") [EInt 180; EInt 3], 1e-3%Q);
        Some ("y4", ESub (EName "m.y") [EInt 180; EInt 4], 1e-3%Q);
        Some ("y5", ESub (EName "m.y") [EInt 180; EInt 5], 1e-3%Q);
        Some ("y6", ESub (EName "m.y6") [EInt 180], 1e-3%Q)].
Proof. apply (akzo_relative_tolerance Qmin Qmax ∅ ∅ 2 2.001). reflexivity. Defined.

(** X6: the relative test needs a positive reference.  With a negative
    reference each of the six assertions passes whatever the solved value;
    with a zero reference the division raises and none passes. *)
Theorem akzo_reference_not_positive (smin smax : Q -> Q -> Q) (locals : gmap string Z)
    (vals : gmap var_id Q) (y v : Q) :
  (y <= 0)%Q ->
  Forall (fun a => exists (yname : string) (x : expr) (r : var_id),
              relative_check a = Some (yname, x, 1e-3%Q)
              /\ var_ref locals x = Some r
              /\ (accepts smin smax locals (<[(yname, []) := y]> (<[r := v]> vals)) a = true
                  <-> (y < 0)%Q)
              /\ ((y == 0)%Q ->
                  eval smin smax locals (<[(yname, []) := y]> (<[r := v]> vals)) a = None))
         (asserts petsc_chem).
Proof.
  intros Hy.
  assert (Hl := relative_checks_akzo). remember (asserts petsc_chem) as l eqn:El. clear El.
  do 6 (destruct l as [|? l]; [discriminate|]). destruct l; [|discriminate].
  injection Hl as H1 H2 H3 H4 H5 H6.
  repeat constructor.
  all: eexists _, _, _; split; [eassumption|]; split; [reflexivity|].
  all: unfold accepts; erewrite relative_check_eval by (try eassumption; done).
  all: destruct (Qeq_bool y 0) eqn:E;
         [apply Qeq_bool_iff in E; split; [split; [discriminate | lra] | reflexivity] |].
  all: assert (Hn : (y < 0)%Q)
         by (destruct (Qlt_le_dec y 0) as [|Hge]; [assumption|];
             assert (Hz : (y == 0)%Q) by lra; apply Qeq_bool_iff in Hz; congruence).
  all: rewrite relative_error_negative by (try apply Qabs_nonneg; try exact Hn; reflexivity).
  all: split; [tauto | intros Hz; lra].
Qed.

(** X6 at a reference of -1. *)
Lemma akzo_reference_not_positive_witness :
  Forall (fun a => exists (yname : string) (x : expr) (r : var_id),
              relative_check a = Some (yname, x, 1e-3%Q)
              /\ var_ref ∅ x = Some r
              /\ (accepts Qmin Qmax ∅ (<[(yname, []) := (-1)%Q]> (<[r := 5%Q]> ∅)) a = true
                  <-> (-1 < 0)%Q)
              /\ ((-1 == 0)%Q ->
                  eval Qmin Qmax ∅ (<[(yname, []) := (-1)%Q]> (<[r := 5%Q]> ∅)) a = None))
         (asserts petsc_chem).
Proof. apply (akzo_reference_not_positive Qmin Qmax ∅ ∅ (-1) 5). discriminate. Defined.

(** ** The pump assertions against the values the notebook fixes *)

Lemma approx_shift (c err tol : Q) (z : Z) :
  (c == inject_Z z)%Q -> (Qabs (c + err - inject_Z z) <= tol)%Q <-> (Qabs err <= tol)%Q.
Proof.
  intros Hc. assert (H : (c + err - inject_Z z == err)%Q) by (rewrite Hc; ring).
  by rewrite H.
Qed.

(** X7: the references of the pump assertions are what the pressure balance
    gives from the fixed values.  With the Case 1 outlet pressure at the
    fixed inlet pressure plus the fixed [deltaP], off by [err], and the
    Case 2 [deltaP] at the fixed outlet pressure minus the fixed inlet
    pressure, off by [err], each assertion passes exactly when
    [|err| <= 1e-2]. *)
Theorem pump_references_follow_fixed_values (smin smax : Q -> Q -> Q) (locals : gmap string Z)
    (vals : gmap var_id Q) (err : Q) :
  exists p_in dP p_out p_in2 : Q,
    fixed_values pump !! ("m.fs.pump_case_1.inlet.pressure", [0%Z]) = Some p_in
    /\ fixed_values pump !! ("m.fs.pump_case_1.deltaP", []) = Some dP
    /\ fixed_values pump !! ("m.fs.pump_case_2.outlet.pressure", [0%Z]) = Some p_out
    /\ fixed_values pump !! ("m.fs.pump_case_2.inlet.pressure", [0%Z]) = Some p_in2
    /\ Forall (fun a =>
                 accepts smin smax locals
                   (<[("m.fs.pump_case_1.outlet.pressure", [0%Z]) := (p_in + dP + err)%Q]> vals) a
                 = true <-> (Qabs err <= 1e-2)%Q)
              (asserts_on "m.fs.pump_case_1.outlet.pressure" pump)
    /\ Forall (fun a =>
                 accepts smin smax locals
                   (<[("m.fs.pump_case_2.deltaP", [0%Z]) := (p_out - p_in2 + err)%Q]> vals) a
                 = true <-> (Qabs err <= 1e-2)%Q)
              (asserts_on "m.fs.pump_case_2.deltaP" pump)
    /\ length (asserts_on "m.fs.pump_case_1.outlet.pressure" pump) = 1%nat
    /\ length (asserts_on "m.fs.pump_case_2.deltaP" pump) = 1%nat.
Proof.
  exists 101325%Q, 100000%Q, 201325%Q, 101325%Q.
  do 4 (split; [vm_compute; reflexivity|]).
  assert (H1 : asserts_on "m.fs.pump_case_1.outlet.pressure" pump
               = [ECmp CEq (EAttr (ESub (EName "m.fs.pump_case_1.outlet.pressure") [EInt 0])
                                  "value")
                           (methk (EName "pytest") "approx" [EInt 201325]
                                  [("abs", EFloat 1e-2)])]) by (vm_compute; reflexivity).
  assert (H2 : asserts_on "m.fs.pump_case_2.deltaP" pump
               = [ECmp CEq (EAttr (ESub (EName "m.fs.pump_case_2.deltaP") [EInt 0]) "value")
                           (methk (EName "pytest") "approx" [EInt 100000]
                                  [("abs", EFloat 1e-2)])]) by (vm_compute; reflexivity).
  rewrite H1, H2. split; [|split; [|split; reflexivity]].
  - constructor; [|constructor]. rewrite accepts_approx. apply approx_shift. reflexivity.
  - constructor; [|constructor]. rewrite accepts_approx.
    assert (H : (201325 - 101325 + err == 100000 + err)%Q) by ring.
    rewrite H. apply approx_shift. reflexivity.
Qed.

(** ** Degrees of freedom when a solver is called *)

Lemma pump_solver_steps :
  solver_steps pump
  = [(AAttach "m" "ConcreteModel", None); (AAttach "m.fs" "FlowsheetBlock", None);
     (AAttach "m.fs.properties" "Iapws95ParameterBlock", None);
     (AAttach "m.fs.pump_case_1" "Pump", None);
     (AMeasure "DOF_initial" "m", None); (ACheck "DOF_initial" 5, None);
     (AFixVar "m.fs.pump_case_1.inlet.flow_mol" [0%Z], None);
     (AFixVar "m.fs.pump_case_1.inlet.enth_mol" [0%Z], None);
     (AFixVar "m.fs.pump_case_1.inlet.pressure" [0%Z], None);
     (AFixAll "m.fs.pump_case_1.deltaP", None);
     (AFixAll "m.fs.pump_case_1.efficiency_pump", None);
     (AMeasure "DOF_final" "m", None); (ACheck "DOF_final" 0, None);
     (AOther, Some "m.fs.pump_case_1");
     (AAttach "opt" "SolverFactory", None); (AAttach "solve_status" "solve", Some "m");
     (AAttach "m.fs.pump_case_2" "Pump", None);
     (AMeasure "DOF_initial" "m.fs.pump_case_2", None); (ACheck "DOF_initial" 5, None);
     (AFixVar "m.fs.pump_case_2.inlet.flow_mol" [0%Z], None);
     (AFixVar "m.fs.pump_case_2.inlet.enth_mol" [0%Z], None);
     (AFixVar "m.fs.pump_case_2.inlet.pressure" [0%Z], None);
     (AFixVar "m.fs.pump_case_2.outlet.pressure" [0%Z], None);
     (AFixAll "m.fs.pump_case_2.efficiency_pump", None);
     (AMeasure "DOF_final" "m.fs.pump_case_2", None); (ACheck "DOF_final" 0, None);
     (AOther, Some "m.fs.pump_case_2");
     (AAttach "opt" "SolverFactory", None);
     (AAttach "solve_status" "solve", Some "m.fs.pump_case_2")].
Proof. vm_compute. reflexivity. Qed.

Section PumpSolved.
Variables Pump props : unit_model.
Hypothesis pump_dof : (Z.of_nat (size (um_vars Pump)) - Z.of_nat (um_eqs Pump) = 5)%Z.
Hypothesis props_dof : (Z.of_nat (size (um_vars props)) - Z.of_nat (um_eqs props) = 0)%Z.
Hypothesis pump_vars : case_1_fixed ∪ case_2_fixed ⊆ um_vars Pump.
Hypothesis steady_state : forall v : var_id, v ∈ um_vars Pump -> snd v = [0%Z].

Lemma dof_at_solves_cons (a : dof_action) (target : option string)
    (rest : list (dof_action * option string)) (st : mstate) :
  dof_at_solves Pump props ((a, target) :: rest) st
  = do_dof Pump props a st ≫= fun st' =>
      (fun l => match target with
                | Some c => (c, degrees_of_freedom c st) :: l
                | None => l
                end) <$> dof_at_solves Pump props rest st'.
Proof. reflexivity. Qed.

Lemma pump_case_dof (name : string) (fixed : gset var_id) :
  fixed = case_1_fixed \/ fixed = case_2_fixed ->
  dof_block (Block name Pump fixed) = 0%Z.
Proof. exact (dof_case Pump props pump_dof props_dof pump_vars steady_state name fixed). Qed.

Ltac solve_simpl :=
  cbn [do_dof library fix_in within relative strip_prefix String.eqb Ascii.eqb Bool.eqb
       andb orb List.filter foldr mbind option_bind
       blocks ints dof_log b_name b_unit b_fixed app].

Ltac solve_step := rewrite dof_at_solves_cons; solve_simpl.

Ltac solve_measure := solve_step; unfold degrees_of_freedom at 1; solve_simpl.

Ltac solve_check :=
  solve_step; rewrite lookup_insert_eq; rewrite bool_decide_eq_true_2 by reflexivity;
  solve_simpl.

Ltac solve_pump_var := apply pump_vars; apply (bool_decide_unpack _); vm_compute; exact I.

Ltac solve_fix_var :=
  solve_step; rewrite (one_var_pump Pump) by solve_pump_var;
  rewrite bool_decide_eq_false_2 by apply non_empty_singleton_L;
  cbn [fmap option_fmap option_map]; solve_simpl.

Ltac solve_fix_all :=
  solve_step; rewrite (members_steady Pump steady_state) by solve_pump_var;
  rewrite bool_decide_eq_false_2 by apply non_empty_singleton_L;
  cbn [fmap option_fmap option_map]; solve_simpl.

(** X8: every component the pump notebook hands to a solver has zero
    degrees of freedom when it is handed over: [m.fs.pump_case_1] at its
    [initialize], the whole model [m] at the first [solve],
    [m.fs.pump_case_2] at its [initialize] and at the second [solve]. *)
Theorem solvers_get_square_problems :
  dof_at_solves Pump props (solver_steps pump) empty_model
  = Some [("m.fs.pump_case_1", 0%Z); ("m", 0%Z);
          ("m.fs.pump_case_2", 0%Z); ("m.fs.pump_case_2", 0%Z)].
Proof.
  assert (H1 : {[("efficiency_pump", [0%Z])]} ∪ ({[("deltaP", [0%Z])]}
               ∪ ({[("inlet.pressure", [0%Z])]} ∪ ({[("inlet.enth_mol", [0%Z])]}
               ∪ ({[("inlet.flow_mol", [0%Z])]} ∪ ∅)))) = case_1_fixed)
    by (unfold case_1_fixed, inlet_conditions; set_solver).
  assert (H2 : {[("efficiency_pump", [0%Z])]} ∪ ({[("outlet.pressure", [0%Z])]}
               ∪ ({[("inlet.pressure", [0%Z])]} ∪ ({[("inlet.enth_mol", [0%Z])]}
               ∪ ({[("inlet.flow_mol", [0%Z])]} ∪ ∅)))) = case_2_fixed)
    by (unfold case_2_fixed, inlet_conditions; set_solver).
  rewrite pump_solver_steps. unfold empty_model.
  do 4 solve_step. solve_measure.
  rewrite (dof_props props props_dof), (dof_fresh Pump pump_dof).
  change (0 + (5 + 0))%Z with 5%Z. solve_check.
  do 3 solve_fix_var. do 2 solve_fix_all. rewrite H1.
  solve_measure. rewrite (dof_props props props_dof), pump_case_dof by auto.
  change (0 + (0 + 0))%Z with 0%Z. solve_check.
  (* initialize and solve, Case 1 *)
  solve_step. unfold degrees_of_freedom at 1. solve_simpl.
  rewrite pump_case_dof by auto.
  solve_step. solve_step. unfold degrees_of_freedom at 1. solve_simpl.
  rewrite (dof_props props props_dof), pump_case_dof by auto.
  (* Case 2 *)
  solve_step. solve_measure. rewrite (dof_fresh Pump pump_dof).
  change (5 + 0)%Z with 5%Z. solve_check.
  do 4 solve_fix_var. solve_fix_all. rewrite H2.
  solve_measure. rewrite pump_case_dof by auto.
  change (0 + 0)%Z with 0%Z. solve_check.
  solve_step. unfold degrees_of_freedom at 1. solve_simpl.
  rewrite pump_case_dof by auto.
  solve_step. solve_step. unfold degrees_of_freedom at 1. solve_simpl.
  rewrite pump_case_dof by auto.
  reflexivity.
Qed.
End PumpSolved.

(** The sample pump meets what [solvers_get_square_problems] asks of IDAES. *)
Lemma solvers_get_square_problems_witness :
  dof_at_solves sample_pump sample_properties (solver_steps pump) empty_model
  = Some [("m.fs.pump_case_1", 0%Z); ("m", 0%Z);
          ("m.fs.pump_case_2", 0%Z); ("m.fs.pump_case_2", 0%Z)].
Proof.
  apply (solvers_get_square_problems sample_pump sample_properties).
  - vm_compute. reflexivity.
  - vm_compute. reflexivity.
  - unfold case_1_fixed, case_2_fixed, inlet_conditions, sample_pump. cbn [um_vars].
    set_solver.
  - intros v Hv. unfold sample_pump in Hv. cbn [um_vars] in Hv.
    set_unfold. intuition (subst; reflexivity).
Defined.

(** ** Showing the captured training output *)

Lemma py_slice_first {A : Type} (l : list A) (k : Z) :
  (0 <= k)%Z -> py_slice l None (Some k) = take (Z.to_nat k) l.
Proof.
  intros Hk. unfold py_slice, slice_bound. change (Z.to_nat 0) with 0%nat. rewrite drop_0.
  rewrite (proj2 (Z.ltb_ge k 0)) by lia. rewrite Z.sub_0_r.
  destruct (Z.min_spec k (Z.of_nat (length l))) as [[H ->]|[H ->]]; [reflexivity|].
  rewrite Nat2Z.id, firstn_all. symmetry. apply take_ge. lia.
Qed.

Lemma py_slice_last {A : Type} (l : list A) (p : positive) :
  py_slice l (Some (Z.neg p)) None = drop (length l - Pos.to_nat p) l.
Proof.
  unfold py_slice, slice_bound. rewrite (proj2 (Z.ltb_lt (Z.neg p) 0)) by lia.
  replace (Z.to_nat (Z.max 0 (Z.neg p + Z.of_nat (length l))))
    with (length l - Pos.to_nat p)%nat by lia.
  apply take_ge. rewrite length_drop. lia.
Qed.

Lemma celloutput_display_code :
  celloutput_display pysmo_surrogate
  = [SFor "line" (ESub (EName "celloutput") [ESlice None (Some (EInt 50))])
          [SExpr (call "print" [EName "line"])];
     SExpr (call "print" [EStr "."]); SExpr (call "print" [EStr "."]);
     SExpr (call "print" [EStr "."]);
     SFor "line" (ESub (EName "celloutput") [ESlice (Some (EInt (-50))) None])
          [SExpr (call "print" [EName "line"])]]
  /\ celloutput_display alamo_surrogate = celloutput_display pysmo_surrogate.
Proof. split; vm_compute; reflexivity. Qed.

Lemma show_celloutput (out : list string) :
  show_all "celloutput" out (celloutput_display pysmo_surrogate)
  = Some (take 50 out ++ dots ++ drop (length out - 50) out).
Proof.
  rewrite (proj1 celloutput_display_code). unfold show_all, call.
  cbn [mapM shown String.eqb Ascii.eqb Bool.eqb andb slice_index mbind option_bind mret
       option_ret fmap option_fmap option_map].
  rewrite (py_slice_first out 50) by lia. rewrite (py_slice_last out 50).
  cbn [List.concat]. rewrite app_nil_r. reflexivity.
Qed.

Lemma show_celloutput_both (out shown_lines : list string) :
  take 50 out ++ dots ++ drop (length out - 50) out = shown_lines ->
  Forall (fun nb => show_all "celloutput" out (celloutput_display nb) = Some shown_lines)
         [pysmo_surrogate; alamo_surrogate].
Proof.
  intros <-. constructor; [|constructor; [|constructor]].
  - apply show_celloutput.
  - rewrite (proj2 celloutput_display_code). apply show_celloutput.
Qed.

(** X9: when the trainer wrote at most a hundred lines, the surrogate
    notebooks hide none of them: the output is [a ++ b ++ c] and what is
    shown is [a ++ b], three dots, [b ++ c], the lines [b] appearing twice.
    With at most fifty lines the whole output is shown twice. *)
Theorem short_output_shown_twice (out : list string) :
  (length out <= 100)%nat ->
  exists a b c : list string,
    out = a ++ b ++ c
    /\ length b = (2 * Nat.min (length out) 50 - length out)%nat
    /\ ((length out <= 50)%nat -> b = out)
    /\ Forall (fun nb => show_all "celloutput" out (celloutput_display nb)
                         = Some ((a ++ b) ++ dots ++ (b ++ c)))
              [pysmo_surrogate; alamo_surrogate].
Proof.
  intros Hn. set (n := length out) in *.
  set (m := (n - 50)%nat). set (k := (Nat.min n 50 - m)%nat).
  exists (take m out), (take k (drop m out)), (drop 50 out).
  assert (Hab : take m out ++ take k (drop m out) = take 50 out).
  { rewrite take_take_drop. destruct (le_lt_dec 50 n) as [H|H].
    - f_equal. lia.
    - rewrite !take_ge by lia. reflexivity. }
  assert (Hbc : take k (drop m out) ++ drop 50 out = drop m out).
  { rewrite <- (take_drop k (drop m out)) at 2. f_equal. rewrite drop_drop.
    destruct (le_lt_dec 50 n) as [H|H].
    - f_equal. lia.
    - rewrite !drop_ge by lia. reflexivity. }
  split; [rewrite Hbc; symmetry; apply take_drop|].
  split; [rewrite length_take, length_drop; lia|].
  split.
  - intros H. replace m with 0%nat by lia. rewrite drop_0. apply take_ge. lia.
  - apply show_celloutput_both. rewrite Hab, Hbc. reflexivity.
Qed.

(** X9 at an output of two lines. *)
Lemma short_output_shown_twice_witness :
  exists a b c : list string,
    ["Fitting"; "Done"] = a ++ b ++ c
    /\ length b = (2 * Nat.min (length ["Fitting"; "Done"]) 50 - length ["Fitting"; "Done"])%nat
    /\ ((length ["Fitting"; "Done"] <= 50)%nat -> b = ["Fitting"; "Done"])
    /\ Forall (fun nb => show_all "celloutput" ["Fitting"; "Done"] (celloutput_display nb)
                         = Some ((a ++ b) ++ dots ++ (b ++ c)))
              [pysmo_surrogate; alamo_surrogate].
Proof. apply (short_output_shown_twice ["Fitting"; "Done"]). cbn [length]. lia. Defined.

(** X10: when the trainer wrote a hundred lines or more, the surrogate
    notebooks show the first fifty and the last fifty of them, each once,
    and hide the lines in between. *)
Theorem long_output_middle_hidden (out : list string) :
  (100 <= length out)%nat ->
  exists first middle last : list string,
    out = first ++ middle ++ last
    /\ length first = 50%nat /\ length last = 50%nat
    /\ length middle = (length out - 100)%nat
    /\ Forall (fun nb => show_all "celloutput" out (celloutput_display nb)
                         = Some (first ++ dots ++ last))
              [pysmo_surrogate; alamo_surrogate].
Proof.
  intros Hn. set (n := length out) in *.
  exists (take 50 out), (take (n - 100) (drop 50 out)), (drop (n - 50) out).
  assert (Hd : drop (n - 50) out = drop (n - 100) (drop 50 out))
    by (rewrite drop_drop; f_equal; lia).
  split; [rewrite Hd, take_drop, take_drop; reflexivity|].
  split; [rewrite length_take; lia|].
  split; [rewrite length_drop; lia|].
  split; [rewrite length_take, length_drop; lia|].
  by apply show_celloutput_both.
Qed.

(** X10 at an output of 120 lines. *)
Lemma long_output_middle_hidden_witness :
  exists first middle last : list string,
    replicate 120 "line" = first ++ middle ++ last
    /\ length first = 50%nat /\ length last = 50%nat
    /\ length middle = (length (replicate 120 "line") - 100)%nat
    /\ Forall (fun nb => show_all "celloutput" (replicate 120 "line") (celloutput_display nb)
                         = Some (first ++ dots ++ last))
              [pysmo_surrogate; alamo_surrogate].
Proof. apply (long_output_middle_hidden (replicate 120 "line")). vm_compute. lia. Defined.

(** ** Where printed text goes *)

Lemma trace_stmts_app (f : stmt -> sstate -> list stmt) (step : stmt -> sstate -> outcome)
    (l1 l2 : list stmt) (st : sstate) :
  trace_stmts f step (l1 ++ l2) st
  = trace_stmts f step l1 st
    ++ match run_stmts step l1 st with
       | Done st' => trace_stmts f step l2 st'
       | Raised _ _ => []
       end.
Proof.
  revert st. induction l1 as [|s l1 IH]; intros st; cbn [app trace_stmts run_stmts];
    [reflexivity|].
  rewrite <- app_assoc. f_equal. destruct (step s st); [apply IH | reflexivity].
Qed.

(** The statements the guard completes when the trainer raises. *)
Lemma alamo_guard_executed (e : exn) (st : sstate) :
  executed (TrainRaises e) None alamo_guard st
  = if String.eqb (exn_class e) "FileNotFoundError"
       && contains "Could not find ALAMO" (exn_msg e)
    then [alamo_notice; SAssign (EName "has_alamo") (EBool false)]
    else [].
Proof.
  unfold alamo_guard, alamo_notice, meth, call.
  cbn [executed trace_stmts exec run_stmts assign app].
  destruct (String.eqb (exn_class e) "FileNotFoundError"); [|reflexivity].
  cbn [branch_test vars bind_name String.eqb Ascii.eqb Bool.eqb andb].
  destruct (contains "Could not find ALAMO" (exn_msg e)); reflexivity.
Qed.

Lemma alamo_executed (tr : training) (d : directory) :
  executed_stmts tr alamo_surrogate (fresh d)
  = trace_stmts (executed tr None) (exec tr None) alamo_before (fresh d)
    ++ match run_stmts (exec tr None) alamo_before (fresh d) with
       | Done st =>
           executed tr None alamo_guard st
           ++ match exec tr None alamo_guard st with
              | Done st' => trace_stmts (executed tr None) (exec tr None) alamo_after st'
              | Raised _ _ => []
              end
       | Raised _ _ => []
       end.
Proof. unfold executed_stmts. rewrite alamo_split. apply trace_stmts_app. Qed.

(** X11: when training succeeds, each surrogate notebook ends with
    [sys.stdout] back on the console, and every [print] of the notebook
    writes to the console: the redirection covers library output only. *)
Theorem stdout_restored_after_training (d : directory) :
  bound (stdout_after TrainOk pysmo_surrogate d) "sys.stdout" = Some Console
  /\ bound (stdout_after TrainOk alamo_surrogate d) "sys.stdout" = Some Console
  /\ map fst (printed (stdout_after TrainOk pysmo_surrogate d)) = replicate 27 Console
  /\ map fst (printed (stdout_after TrainOk alamo_surrogate d)) = replicate 27 Console
  /\ streams (stdout_after TrainOk pysmo_surrogate d) = 2%nat
  /\ streams (stdout_after TrainOk alamo_surrogate d) = 1%nat.
Proof. repeat split; vm_compute; reflexivity. Qed.

Lemma foldl_out_step_app (o : ostate) (l1 l2 : list stmt) :
  foldl out_step o (l1 ++ l2) = foldl out_step (foldl out_step o l1) l2.
Proof. apply foldl_app. Qed.

(** X12: when [train_surrogate] raises, [sys.stdout] is never pointed back:
    both surrogate notebooks end with it on the [StringIO] of the training
    cell, whatever the exception.  In the ALAMO notebook the notice
    "ALAMO not found..." is printed into that [StringIO], not to the
    console, and nothing else is printed. *)
Theorem stdout_left_redirected (d : directory) (e : exn) :
  bound (stdout_after (TrainRaises e) pysmo_surrogate d) "sys.stdout" = Some (Captured 0)
  /\ printed (stdout_after (TrainRaises e) pysmo_surrogate d) = []
  /\ bound (stdout_after (TrainRaises e) alamo_surrogate d) "sys.stdout" = Some (Captured 0)
  /\ printed (stdout_after (TrainRaises e) alamo_surrogate d)
     = if String.eqb (exn_class e) "FileNotFoundError"
          && contains "Could not find ALAMO" (exn_msg e)
       then [(Captured 0, alamo_notice)]
       else [].
Proof.
  (split; [vm_compute; reflexivity|]). (split; [vm_compute; reflexivity|]).
  unfold stdout_after. rewrite alamo_executed.
  destruct (alamo_before_runs (TrainRaises e) d) as (st & -> & _).
  rewrite alamo_guard_executed, alamo_guard_raises, !foldl_out_step_app.
  set (o := foldl out_step console _).
  assert (Ho : bound o "sys.stdout" = Some (Captured 0) /\ printed o = []).
  { subst o. split; vm_compute; reflexivity. }
  destruct Ho as [Hb Hp].
  assert (Ht : trace_stmts (executed (TrainRaises e) None) (exec (TrainRaises e) None)
                  alamo_after
                  (bind_name "has_alamo" (PBool false)
                     (bind_name "err" (PExc (exn_msg e)) st))
                = [SAssign (EName "status_obj") ENone]) by (vm_compute; reflexivity).
  clearbody o. destruct o as [b n p]. cbn [bound printed] in Hb, Hp. subst p.
  (destruct (String.eqb (exn_class e) "FileNotFoundError"); cbn [andb foldl];
    [|split; assumption || reflexivity]).
  (destruct (contains "Could not find ALAMO" (exn_msg e)); cbn [foldl];
    [|split; assumption || reflexivity]).
  rewrite Ht. unfold alamo_notice, call.
  cbn [foldl out_step prints is_print bound streams printed rebind target_names app].
  rewrite Hb.
  cbn [foldl out_step prints is_print bound streams printed rebind target_names app
       String.eqb Ascii.eqb Bool.eqb].
  split; [exact Hb | reflexivity].
Qed.

Lemma bounds_code_eq :
  bounds_code pysmo_surrogate
  = [SAssign (ETuple [EName "xmin"; EName "xmax"])
             (ETuple [EList [EFloat 0.1; EFloat 0.8]; EList [EFloat 0.8; EFloat 1.2]]);
     SAssign (EName "input_bounds")
             (EDictComp (ESub (EName "input_labels") [EName "i"])
                        (ETuple [ESub (EName "xmin") [EName "i"]; ESub (EName "xmax") [EName "i"]])
                        "i" (call "range" [call "len" [EName "input_labels"]]))]
  /\ bounds_code alamo_surrogate = bounds_code pysmo_surrogate.
Proof. split; vm_compute; reflexivity. Qed.

Lemma input_bounds_two (a b : string) :
  input_bounds_of pysmo_surrogate [a; b]
  = Some (VDict (dict_set b (VSeq [VFloat 0.8; VFloat 1.2])
                          [(a, VSeq [VFloat 0.1; VFloat 0.8])])).
Proof.
  unfold input_bounds_of. rewrite (proj1 bounds_code_eq). vm_compute. reflexivity.
Qed.

Lemma input_bounds_short (labels : list string) :
  (length labels <= 2)%nat -> is_Some (input_bounds_of pysmo_surrogate labels).
Proof.
  intros H. destruct labels as [|a [|b [|c r]]]; [| |rewrite input_bounds_two|cbn in H; lia].
  all: try (eexists; unfold input_bounds_of; rewrite (proj1 bounds_code_eq);
            vm_compute; reflexivity).
  eauto.
Qed.

Lemma foldl_fail {A B : Type} (f : option B -> A -> option B) (l : list A) :
  (forall a, f None a = None) -> foldl f None l = None.
Proof. intros Hf. induction l as [|a l IH]; cbn [foldl]; [reflexivity|]. by rewrite Hf. Qed.

Lemma input_bounds_long (a b c : string) (rest : list string) :
  input_bounds_of pysmo_surrogate (a :: b :: c :: rest) = None.
Proof.
  unfold input_bounds_of. rewrite (proj1 bounds_code_eq). unfold call.
  cbn [foldl mbind option_bind pyassign pyeval mapM fmap option_fmap option_map unpack
       set_name String.eqb Ascii.eqb Bool.eqb mret option_ret length map].
  rewrite Nat2Z.id. cbn [seq map].
  match goal with
  | |- context [foldl ?f (Some []) (?x0 :: ?x1 :: ?x2 :: ?t)] =>
      change (x0 :: x1 :: x2 :: t) with ([x0; x1; x2] ++ t);
      assert (H : foldl f (Some []) [x0; x1; x2] = None) by (vm_compute; reflexivity);
      rewrite foldl_app, H, foldl_fail by reflexivity
  end.
  reflexivity.
Qed.

Lemma input_bounds_defined (nb : notebook) (labels : list string) :
  bounds_code nb = bounds_code pysmo_surrogate ->
  is_Some (input_bounds_of nb labels) <-> (length labels <= 2)%nat.
Proof.
  intros Hnb. unfold input_bounds_of. rewrite Hnb. fold (input_bounds_of pysmo_surrogate labels).
  split; [|apply input_bounds_short].
  destruct labels as [|a [|b [|c r]]]; cbn [length]; try lia.
  rewrite input_bounds_long. intros [v Hv]. discriminate.
Qed.

Lemma input_columns_take (cols : list string) :
  input_columns pysmo_surrogate cols = Some (take 2 cols)
  /\ input_columns alamo_surrogate cols = Some (take 2 cols).
Proof.
  assert (H : forall nb, nb = pysmo_surrogate \/ nb = alamo_surrogate ->
                         input_columns nb cols = Some (py_slice cols None (Some 2%Z))).
  { intros nb [-> | ->]; vm_compute; reflexivity. }
  rewrite !H by auto. rewrite (py_slice_first cols 2) by lia. split; reflexivity.
Qed.

(** X14: [input_bounds] can be built exactly when there are at most two
    input labels; a third label makes [xmin[i]] raise [IndexError].  The
    labels the notebooks use are the columns [data.iloc[:, :2]] keeps, the
    first two of the data, so with them the comprehension never fails. *)
Theorem input_bounds_defined_iff (labels cols : list string) :
  Forall (fun nb =>
            (is_Some (input_bounds_of nb labels) <-> (length labels <= 2)%nat)
            /\ input_columns nb cols = Some (take 2 cols)
            /\ is_Some (input_bounds_of nb (take 2 cols)))
         [pysmo_surrogate; alamo_surrogate].
Proof.
  destruct (input_columns_take cols) as [Hp Ha].
  assert (Hb := proj2 bounds_code_eq).
  assert (Ht : (length (take 2 cols) <= 2)%nat) by (rewrite length_take; lia).
  constructor; [|constructor; [|constructor]].
  - split; [by apply input_bounds_defined|].
    split; [exact Hp | by apply input_bounds_defined].
  - split; [by apply input_bounds_defined|].
    split; [exact Ha | by apply input_bounds_defined].
Qed.

Lemma input_var_bounds_eq :
  Forall (fun nb =>
            input_vars nb = ["m.fs.bypass_frac"; "m.fs.ng_steam_ratio"]
            /\ map (var_bounds nb) (input_vars nb)
               = [Some (VSeq [VFloat 0.1; VFloat 0.8]); Some (VSeq [VFloat 0.8; VFloat 1.2])])
         [pysmo_surrogate; alamo_surrogate].
Proof. repeat constructor; vm_compute; reflexivity. Qed.

(** X15: for two distinct input labels [a] and [b], [input_bounds] maps [a]
    to (0.1, 0.8) and [b] to (0.8, 1.2): the bounds the flowsheet declares
    for its two inputs, [m.fs.bypass_frac] and [m.fs.ng_steam_ratio], in
    that order. *)
Theorem input_bounds_match_flowsheet (a b : string) :
  a <> b ->
  Forall (fun nb =>
            exists lo hi : pv,
              input_bounds_of nb [a; b] = Some (VDict [(a, lo); (b, hi)])
              /\ map (var_bounds nb) (input_vars nb) = [Some lo; Some hi]
              /\ input_vars nb = ["m.fs.bypass_frac"; "m.fs.ng_steam_ratio"]
              /\ lo = VSeq [VFloat 0.1; VFloat 0.8] /\ hi = VSeq [VFloat 0.8; VFloat 1.2])
         [pysmo_surrogate; alamo_surrogate].
Proof.
  intros Hab. apply String.eqb_neq in Hab.
  assert (Hd : input_bounds_of pysmo_surrogate [a; b]
               = Some (VDict [(a, VSeq [VFloat 0.1; VFloat 0.8]);
                              (b, VSeq [VFloat 0.8; VFloat 1.2])]))
    by (rewrite input_bounds_two; cbn [dict_set]; rewrite Hab; reflexivity).
  assert (Ha : input_bounds_of alamo_surrogate [a; b]
               = input_bounds_of pysmo_surrogate [a; b])
    by (unfold input_bounds_of; rewrite (proj2 bounds_code_eq); reflexivity).
  assert (Hv := input_var_bounds_eq).
  apply Forall_cons in Hv as [[Hp1 Hp2] Hv]. apply Forall_cons in Hv as [[Ha1 Ha2] _].
  constructor; [|constructor; [|constructor]]; eexists _, _.
  - split; [exact Hd|]. split; [exact Hp2|]. split; [exact Hp1|]. split; reflexivity.
  - rewrite Ha. split; [exact Hd|]. split; [exact Ha2|]. split; [exact Ha1|].
    split; reflexivity.
Qed.

(** X15 at the two input columns of the reformer data. *)
Lemma input_bounds_match_flowsheet_witness :
  Forall (fun nb =>
            exists lo hi : pv,
              input_bounds_of nb ["Bypass_Fraction"; "NG_Steam_Ratio"]
              = Some (VDict [("Bypass_Fraction", lo); ("NG_Steam_Ratio", hi)])
              /\ map (var_bounds nb) (input_vars nb) = [Some lo; Some hi]
              /\ input_vars nb = ["m.fs.bypass_frac"; "m.fs.ng_steam_ratio"]
              /\ lo = VSeq [VFloat 0.1; VFloat 0.8] /\ hi = VSeq [VFloat 0.8; VFloat 1.2])
         [pysmo_surrogate; alamo_surrogate].
Proof.
  apply (input_bounds_match_flowsheet "Bypass_Fraction" "NG_Steam_Ratio"). discriminate.
Defined.

(** ** The variables of the surrogate flowsheet *)

(** X16: in each surrogate notebook the variables declared with [Var] are
    fifteen different ones, and [inputs] and [outputs] together list each
    of them once: the two bounded ones as inputs, the other thirteen as
    outputs.  [build_model] is given these two lists. *)
Theorem surrogate_variables_partition :
  Forall (fun nb =>
            NoDup (declared_vars nb)
            /\ declared_vars nb ≡ₚ input_vars nb ++ output_vars nb
            /\ length (input_vars nb) = 2%nat /\ length (output_vars nb) = 13%nat
            /\ map (var_bounds nb) (input_vars nb ++ output_vars nb)
               = [Some (VSeq [VFloat 0.1; VFloat 0.8]); Some (VSeq [VFloat 0.8; VFloat 1.2])]
                 ++ replicate 13 None
            /\ build_model_lists nb = [(Some (EName "inputs"), Some (EName "outputs"))])
         [pysmo_surrogate; alamo_surrogate].
Proof.
  assert (Hd : forall nb, nb = pysmo_surrogate \/ nb = alamo_surrogate ->
                 declared_vars nb
                 = ["m.fs.bypass_frac"; "m.fs.ng_steam_ratio"; "m.fs.steam_flowrate";
                    "m.fs.reformer_duty"; "m.fs.AR"; "m.fs.C2H6"; "m.fs.C3H8"; "m.fs.C4H10";
                    "m.fs.CH4"; "m.fs.CO"; "m.fs.CO2"; "m.fs.H2"; "m.fs.H2O"; "m.fs.N2";
                    "m.fs.O2"]
                 /\ input_vars nb ++ output_vars nb
                    = ["m.fs.bypass_frac"; "m.fs.ng_steam_ratio"; "m.fs.steam_flowrate";
                       "m.fs.reformer_duty"; "m.fs.AR"; "m.fs.C2H6"; "m.fs.C4H10"; "m.fs.C3H8";
                       "m.fs.CH4"; "m.fs.CO"; "m.fs.CO2"; "m.fs.H2"; "m.fs.H2O"; "m.fs.N2";
                       "m.fs.O2"]).
  { intros nb [-> | ->]; split; vm_compute; reflexivity. }
  apply Forall_forall. intros nb Hnb.
  assert (Hnb' : nb = pysmo_surrogate \/ nb = alamo_surrogate)
    by (rewrite !elem_of_cons, elem_of_nil in Hnb; tauto).
  destruct (Hd nb Hnb') as [H1 H2]. rewrite H1.
  split; [apply (bool_decide_unpack _); vm_compute; exact I|].
  split; [rewrite H2; do 6 apply perm_skip; apply perm_swap|].
  destruct Hnb' as [-> | ->]; repeat split; vm_compute; reflexivity.
Qed.

(** ** The T-x-y diagram against the property configuration *)

(** X17: the T-x-y notebook asks [Txy_diagram] for two different components
    that the configuration defines, at a pressure and a starting temperature
    inside the configuration's state bounds; each state bound has its
    nominal value between its lower and upper value, and the reference
    pressure and temperature lie inside their bounds as well. *)
Theorem txy_request_fits_configuration :
  exists (a b : string) (p t : Q),
    txy_request txy_diagram = Some (a, b, p, t)
    /\ a <> b /\ a ∈ components txy_diagram /\ b ∈ components txy_diagram
    /\ size (components txy_diagram) = 2%nat
    /\ (exists l n u : Q, state_bound txy_diagram "pressure" = Some (l, n, u)
                          /\ (l <= p <= u)%Q
                          /\ exists r : Q, reference txy_diagram "pressure_ref" = Some r
                                           /\ (l <= r <= u)%Q)
    /\ (exists l n u : Q, state_bound txy_diagram "temperature" = Some (l, n, u)
                          /\ (l <= t <= u)%Q
                          /\ exists r : Q, reference txy_diagram "temperature_ref" = Some r
                                           /\ (l <= r <= u)%Q)
    /\ Forall (fun x => exists l n u : Q, state_bound txy_diagram x = Some (l, n, u)
                                          /\ (l <= n <= u)%Q)
              ["flow_mol"; "temperature"; "pressure"].
Proof.
  exists "benzene", "toluene", 101325%Q, 150.15%Q.
  split; [vm_compute; reflexivity|]. split; [discriminate|].
  split; [apply (bool_decide_unpack _); vm_compute; exact I|].
  split; [apply (bool_decide_unpack _); vm_compute; exact I|].
  split; [vm_compute; reflexivity|].
  split; [|split].
  - eexists _, _, _. split; [vm_compute; reflexivity|]. split; [split; discriminate|].
    eexists. split; [vm_compute; reflexivity|]. split; discriminate.
  - eexists _, _, _. split; [vm_compute; reflexivity|]. split; [split; discriminate|].
    eexists. split; [vm_compute; reflexivity|]. split; discriminate.
  - repeat constructor.
    all: eexists _, _, _; split; [vm_compute; reflexivity|]; split; discriminate.
Qed.

(** ** [datafile_path] *)

Lemma split_on_plain (c : ascii) (s : string) :
  existsb (Ascii.eqb c) (list_ascii_of_string s) = false -> split_on c s = [s].
Proof.
  induction s as [|a s IH]; cbn [list_ascii_of_string existsb split_on]; [reflexivity|].
  intros H. apply orb_false_elim in H as [Ha Hs]. rewrite Ascii.eqb_sym in Ha.
  rewrite Ha, (IH Hs). reflexivity.
Qed.

Lemma to_path_plain (s : string) : plain_name s = true -> to_path s = Path false [s].
Proof.
  unfold plain_name, to_path. intros H.
  apply andb_prop in H as [H Hs]. apply andb_prop in H as [He Hd].
  apply negb_true_iff in Hs. rewrite (split_on_plain slash s Hs).
  cbn [List.filter]. rewrite He, Hd. cbn [andb]. f_equal.
  destruct s as [|a s]; [discriminate|].
  cbn [list_ascii_of_string existsb] in Hs. apply orb_false_elim in Hs as [Ha _].
  cbn [String.prefix]. unfold slash in Ha.
  destruct (ascii_dec "/" a) as [<-|]; [discriminate | reflexivity].
Qed.

Lemma datafile_path_body :
  Forall (fun nb =>
            (forall arg : string,
                call_path nb "datafile_path" arg
                = Some (path_join (to_path "..") (to_path arg)))
            /\ names_given "datafile_path" nb = ["AR_PFD.png"; "reformer-data.csv"])
         [pysmo_surrogate; alamo_surrogate].
Proof.
  constructor; [|constructor; [|constructor]].
  all: split; [intros arg; reflexivity | vm_compute; reflexivity].
Qed.

(** X18: [datafile_path] of a plain file name (not empty, not ".", no
    slash) is the file of that name in the parent directory, the relative
    path with the components ".." and the name.  Any relative path is put
    under "..", and an absolute path is returned as it is.  The two names
    the surrogate notebooks pass, "AR_PFD.png" and "reformer-data.csv", are
    plain. *)
Theorem datafile_path_parent (name : string) :
  plain_name name = true ->
  Forall (fun nb =>
            call_path nb "datafile_path" name = Some (Path false [".."; name])
            /\ (forall other : string,
                  String.prefix "/" other = false ->
                  exists rest : list string,
                    call_path nb "datafile_path" other = Some (Path false (".." :: rest)))
            /\ (forall other : string,
                  String.prefix "/" other = true ->
                  call_path nb "datafile_path" other = Some (to_path other))
            /\ names_given "datafile_path" nb = ["AR_PFD.png"; "reformer-data.csv"]
            /\ forallb plain_name (names_given "datafile_path" nb) = true)
         [pysmo_surrogate; alamo_surrogate].
Proof.
  intros Hn. eapply Forall_impl; [exact datafile_path_body|].
  intros nb [Hnb Hnames]. split; [|split; [|split; [|split]]].
  - rewrite Hnb, (to_path_plain name Hn). reflexivity.
  - intros other Ho. rewrite Hnb. unfold path_join.
    change (absolute (to_path other)) with (String.prefix "/" other). rewrite Ho.
    eexists. reflexivity.
  - intros other Ho. rewrite Hnb. unfold path_join.
    change (absolute (to_path other)) with (String.prefix "/" other). by rewrite Ho.
  - exact Hnames.
  - rewrite Hnames. reflexivity.
Qed.

(** X18 at the data file of the notebooks. *)
Lemma datafile_path_parent_witness :
  Forall (fun nb =>
            call_path nb "datafile_path" "reformer-data.csv"
            = Some (Path false [".."; "reformer-data.csv"])
            /\ (forall other : string,
                  String.prefix "/" other = false ->
                  exists rest : list string,
                    call_path nb "datafile_path" other = Some (Path false (".." :: rest)))
            /\ (forall other : string,
                  String.prefix "/" other = true ->
                  call_path nb "datafile_path" other = Some (to_path other))
            /\ names_given "datafile_path" nb = ["AR_PFD.png"; "reformer-data.csv"]
            /\ forallb plain_name (names_given "datafile_path" nb) = true)
         [pysmo_surrogate; alamo_surrogate].
Proof. apply (datafile_path_parent "reformer-data.csv"). reflexivity. Defined.

(** ** The captured text and its lines *)

Lemma split_on_nonempty (c : ascii) (s : string) : split_on c s <> [].
Proof.
  destruct s as [|a s]; cbn [split_on]; [discriminate|].
  destruct (Ascii.eqb a c); [discriminate|]. destruct (split_on c s); discriminate.
Qed.

Lemma split_on_join (c : ascii) (s : string) :
  String.concat (String c EmptyString) (split_on c s) = s.
Proof.
  induction s as [|a s IH]; cbn [split_on]; [reflexivity|].
  pose proof (split_on_nonempty c s) as Hn.
  destruct (split_on c s) as [|w ws] eqn:E; [contradiction|].
  destruct (Ascii.eqb_spec a c) as [->|Hne].
  - transitivity (String c (String.concat (String c EmptyString) (w :: ws)));
      [reflexivity | by rewrite IH].
  - transitivity (String a (String.concat (String c EmptyString) (w :: ws)));
      [destruct ws; reflexivity | by rewrite IH].
Qed.

Lemma celloutput_value_eq (text : string) :
  celloutput_value pysmo_surrogate text = Some (split_on line_feed text)
  /\ celloutput_value alamo_surrogate text = Some (split_on line_feed text).
Proof. split; vm_compute; reflexivity. Qed.

(** X19: the lines the surrogate notebooks display are the captured text
    split at its line feeds: never an empty list, and joined by line feeds
    they give the text back, so the display loses nothing but the hidden
    middle.  When nothing was captured the cell prints an empty line, three
    dots and an empty line. *)
Theorem captured_text_lines (text : string) :
  Forall (fun nb =>
            exists out : list string,
              celloutput_value nb text = Some out
              /\ out <> []
              /\ String.concat newline out = text
              /\ display_text nb text
                 = Some (take 50 out ++ dots ++ drop (length out - 50) out)
              /\ display_text nb EmptyString
                 = Some [EmptyString; "."; "."; "."; EmptyString])
         [pysmo_surrogate; alamo_surrogate].
Proof.
  destruct (celloutput_value_eq text) as [Hp Ha].
  destruct (celloutput_value_eq EmptyString) as [Hp0 Ha0].
  pose proof (show_celloutput_both (split_on line_feed text) _ eq_refl) as Hs.
  apply Forall_cons in Hs as [Hs1 Hs]. apply Forall_cons in Hs as [Hs2 _].
  constructor; [|constructor; [|constructor]]; exists (split_on line_feed text).
  - split; [exact Hp|]. split; [apply split_on_nonempty|]. split; [apply split_on_join|].
    unfold display_text. rewrite Hp, Hp0. cbn [mbind option_bind].
    split; [exact Hs1 | vm_compute; reflexivity].
  - split; [exact Ha|]. split; [apply split_on_nonempty|]. split; [apply split_on_join|].
    unfold display_text. rewrite Ha, Ha0. cbn [mbind option_bind].
    split; [exact Hs2 | vm_compute; reflexivity].
Qed.

(** ** Trajectories are read at the final time *)

(** X20: every [tj.get_vec] of the PID notebook reads a variable at the
    last time point of the model built most recently (12 for the first
    model, 24 for the two ramp models), and every [get_vec] of the Akzo
    Nobel notebook reads at 180, the time its assertions look at. *)
Theorem trajectories_read_at_final_time :
  map (fun m => (last (fst m), get_vec_times (snd m))) pid_models
  = [(Some 12%Z, replicate 2 (Some 12%Z)); (Some 24%Z, replicate 3 (Some 24%Z));
     (Some 24%Z, replicate 3 (Some 24%Z))]
  /\ get_vec_times (top_stmts petsc_chem) = replicate 16 (Some 180%Z)
  /\ Forall (fun a => exists (y : string) (x : string) (ix : list expr) (tol : Q),
                 relative_check a = Some (y, ESub (EName x) (EInt 180 :: ix), tol))
            (asserts petsc_chem).
Proof.
  split; [vm_compute; reflexivity|]. split; [vm_compute; reflexivity|].
  assert (Hl := relative_checks_akzo). remember (asserts petsc_chem) as l eqn:El. clear El.
  do 6 (destruct l as [|? l]; [discriminate|]). destruct l; [|discriminate].
  injection Hl as H1 H2 H3 H4 H5 H6. repeat constructor; eauto 6.
Qed.

(** ** The steps of a run *)



(** ** What the assertions on the count establish *)

Section PumpCounts.
Variables Pump props : unit_model.

(** What is taken of IDAES here: the pump has the six variables the
    notebook fixes, each indexed by the one time point 0 of a steady-state
    flowsheet.  Its count and that of the property block are left open. *)
Hypothesis pump_vars : case_1_fixed ∪ case_2_fixed ⊆ um_vars Pump.
Hypothesis steady_state : forall v : var_id, v ∈ um_vars Pump -> snd v = [0%Z].

Lemma dof_unit (name : string) (u : unit_model) : dof_block (Block name u ∅) = unit_dof u.
Proof. unfold dof_block, unit_dof. cbn [b_unit b_fixed]. by rewrite difference_empty_L. Qed.

Lemma dof_after_fixes (name : string) (fixed : gset var_id) :
  fixed = case_1_fixed \/ fixed = case_2_fixed ->
  dof_block (Block name Pump fixed) = (unit_dof Pump - 5)%Z.
Proof.
  intros Hf.
  assert (Hsub : fixed ⊆ um_vars Pump) by (destruct Hf; subst; set_solver).
  assert (Hsize : size fixed = 5%nat) by (destruct Hf; subst; vm_compute; reflexivity).
  unfold dof_block, unit_dof. cbn [b_unit b_fixed].
  rewrite size_difference by done. apply subseteq_size in Hsub. lia.
Qed.

Ltac count_simpl :=
  cbn [do_dof library fix_in within relative strip_prefix String.eqb Ascii.eqb Bool.eqb
       andb orb List.filter foldr mbind option_bind fmap option_fmap option_map
       blocks ints dof_log b_name b_unit b_fixed app].

Ltac count_step := rewrite (run_dof_cons Pump props); count_simpl.

Ltac count_measure := count_step; unfold degrees_of_freedom; count_simpl.

Ltac count_check :=
  count_step; rewrite lookup_insert_eq;
  match goal with
  | |- context [bool_decide (?x = ?n)] =>
      let E := fresh "E" in destruct (bool_decide_reflect (x = n)) as [E|]; [|cbn; discriminate]
  end; count_simpl.

Ltac count_var := apply pump_vars; apply (bool_decide_unpack _); vm_compute; exact I.

Ltac count_fix_var :=
  count_step; rewrite (one_var_pump Pump) by count_var;
  rewrite bool_decide_eq_false_2 by apply non_empty_singleton_L; count_simpl.

Ltac count_fix_all :=
  count_step; rewrite (members_steady Pump steady_state) by count_var;
  rewrite bool_decide_eq_false_2 by apply non_empty_singleton_L; count_simpl.

(** A run that passes its four assertions measured 5, 0, 5, 0, on units of
    these counts. *)
Lemma passed_assertions (st : mstate) :
  run_dof Pump props (dof_actions pump) empty_model = Some st ->
  (unit_dof Pump = 5%Z /\ unit_dof props = 0%Z)
  /\ dof_log st
     = [("DOF_initial", 5%Z); ("DOF_final", 0%Z); ("DOF_initial", 5%Z); ("DOF_final", 0%Z)]
  /\ map (fun b => (b_name b, b_fixed b)) (blocks st)
     = [("m.fs.properties", ∅); ("m.fs.pump_case_1", case_1_fixed);
        ("m.fs.pump_case_2", case_2_fixed)].
Proof.
  assert (H1 : {[("efficiency_pump", [0%Z])]} ∪ ({[("deltaP", [0%Z])]}
               ∪ ({[("inlet.pressure", [0%Z])]} ∪ ({[("inlet.enth_mol", [0%Z])]}
               ∪ ({[("inlet.flow_mol", [0%Z])]} ∪ ∅)))) = case_1_fixed)
    by (unfold case_1_fixed, inlet_conditions; set_solver).
  assert (H2 : {[("efficiency_pump", [0%Z])]} ∪ ({[("outlet.pressure", [0%Z])]}
               ∪ ({[("inlet.pressure", [0%Z])]} ∪ ({[("inlet.enth_mol", [0%Z])]}
               ∪ ({[("inlet.flow_mol", [0%Z])]} ∪ ∅)))) = case_2_fixed)
    by (unfold case_2_fixed, inlet_conditions; set_solver).
  rewrite pump_actions. unfold empty_model.
  (* Case 1 *)
  do 4 count_step. count_measure. rewrite !dof_unit. count_check.
  do 3 count_fix_var. do 2 count_fix_all. rewrite H1.
  count_measure. rewrite dof_unit, dof_after_fixes by auto. count_check.
  (* Case 2 *)
  do 3 count_step. count_measure. rewrite dof_unit. count_check.
  do 4 count_fix_var. count_fix_all. rewrite H2.
  count_measure. rewrite dof_after_fixes by auto. count_check.
  do 2 count_step.
  intros [= <-]. cbn [dof_log blocks map b_name b_fixed].
  split; [lia|]. rewrite E, E0, E1, E2. split; reflexivity.
Qed.

(** X21: whatever the counts of IDAES's pump and property block, the five
    variables each case fixes lower the count of its pump by exactly five;
    the pump notebook passes its four assertions on [degrees_of_freedom]
    exactly when the pump on its own has five degrees of freedom and the
    property block none, and a run that passes them measured 5, 0, 5, 0. *)
Theorem dof_assertions_pin_the_counts :
  (forall name : string,
      dof_block (Block name Pump case_1_fixed) = (unit_dof Pump - 5)%Z
      /\ dof_block (Block name Pump case_2_fixed) = (unit_dof Pump - 5)%Z)
  /\ (is_Some (run_dof Pump props (dof_actions pump) empty_model)
      <-> unit_dof Pump = 5%Z /\ unit_dof props = 0%Z)
  /\ (forall st : mstate,
         run_dof Pump props (dof_actions pump) empty_model = Some st ->
         dof_log st
         = [("DOF_initial", 5%Z); ("DOF_final", 0%Z); ("DOF_initial", 5%Z); ("DOF_final", 0%Z)]
         /\ map (fun b => (b_name b, b_fixed b)) (blocks st)
            = [("m.fs.properties", ∅); ("m.fs.pump_case_1", case_1_fixed);
               ("m.fs.pump_case_2", case_2_fixed)]).
Proof.
  split; [intros name; split; apply dof_after_fixes; auto|].
  split.
  - split.
    + intros [st Hst]. apply (passed_assertions st Hst).
    + intros [Hp Hq].
      destruct (pump_cases_degrees_of_freedom Pump props Hp Hq pump_vars steady_state)
        as (st & Hst & _).
      by exists st.
  - intros st Hst. apply (passed_assertions st Hst).
Qed.
End PumpCounts.

(** X21 at the sample pump. *)
Lemma dof_assertions_pin_the_counts_witness :
  (forall name : string,
      dof_block (Block name sample_pump case_1_fixed) = (unit_dof sample_pump - 5)%Z
      /\ dof_block (Block name sample_pump case_2_fixed) = (unit_dof sample_pump - 5)%Z)
  /\ (is_Some (run_dof sample_pump sample_properties (dof_actions pump) empty_model)
      <-> unit_dof sample_pump = 5%Z /\ unit_dof sample_properties = 0%Z)
  /\ (forall st : mstate,
         run_dof sample_pump sample_properties (dof_actions pump) empty_model = Some st ->
         dof_log st
         = [("DOF_initial", 5%Z); ("DOF_final", 0%Z); ("DOF_initial", 5%Z); ("DOF_final", 0%Z)]
         /\ map (fun b => (b_name b, b_fixed b)) (blocks st)
            = [("m.fs.properties", ∅); ("m.fs.pump_case_1", case_1_fixed);
               ("m.fs.pump_case_2", case_2_fixed)]).
Proof.
  apply (dof_assertions_pin_the_counts sample_pump sample_properties).
  - unfold case_1_fixed, case_2_fixed, inlet_conditions, sample_pump. cbn [um_vars].
    set_solver.
  - intros v Hv. unfold sample_pump in Hv. cbn [um_vars] in Hv.
    set_unfold. intuition (subst; reflexivity).
Defined.
